(** * Expander performance calculator: the cycle evaluation of app.js

    A shallow embedding of [handleCalculation] and [formatPhase], the
    click handler of the calculator page and its label helper, together
    with the properties of the cycle evaluation that the repository's
    specification states.  The handler is the one of the final app.js
    (three flow modes, two inlet and two outlet modes); the earlier copy
    under js/ is embedded next to it, in [JsApp].

    - JavaScript numbers are IEEE-754 binary64 values: Rocq's primitive
      floats, with the same rounding, NaN and comparison behaviour.
    - The page is a store: the text of the output elements by id, the
      status bar, and the list of the property queries issued so far.
    - [throw] inside [try] keeps every write made before it, as in
      JavaScript: the evaluation is modelled in a state monad whose
      state survives an exception.
    - The property library and [Number.prototype.toFixed] are given from
      outside: every statement holds for any library and any rendering. *)

From Stdlib Require Import ZArith String List Bool Floats DecimalString.
From stdpp Require Import base option list gmap strings.

Set Warnings "-inexact-float".
Set Default Proof Using "Type".

(** ** JavaScript numbers *)

Module JS.

Local Open Scope float_scope.

(** [x >= y], [x > y], [x <= y], [x < y], [x === y] and [isNaN(x)] on
    numbers. *)
Definition ge (x y : float) : bool := y <=? x.
Definition gt (x y : float) : bool := y <? x.
Definition le (x y : float) : bool := x <=? y.
Definition lt (x y : float) : bool := x <? y.
Definition strict_eq (x y : float) : bool := x =? y.
Definition isNaN (x : float) : bool := is_nan x.

(** The result of running a piece of code: a value, or a thrown
    [Error] with its [message]. *)
Inductive completion (A : Type) : Type :=
| Normal (a : A)
| Throw (message : string).
Arguments Normal {A} a.
Arguments Throw {A} message.

End JS.
Export JS(completion, Normal, Throw).

(** ** The property library (CoolProp) as the page sees it *)

(** The loaded module: [PropsSI(out, name1, value1, name2, value2, fluid)]
    and [get_global_param_string(name)].  Both are functions of their
    arguments; either may throw. *)
Record Oracle : Type := mkOracle {
  PropsSI : string -> string -> float -> string -> float -> string -> completion float;
  get_global_param_string : string -> completion string
}.

(** One call of [PropsSI], as recorded in the trace. *)
Record Query : Type := mkQuery {
  q_out : string;
  q_name1 : string;
  q_value1 : float;
  q_name2 : string;
  q_value2 : float;
  q_fluid : string
}.

(** ** Module-level state of app.js *)

Inductive Tab : Type := orc | steam | gas.

Definition Tab_name (t : Tab) : string :=
  match t with orc => "orc" | steam => "steam" | gas => "gas" end.

Definition isGasTab (t : Tab) : bool :=
  match t with gas => true | _ => false end.

(** [fluidMaps]: display name and CoolProp name, in source order. *)
Definition fluidMaps (t : Tab) : list (string * string) :=
  match t with
  | orc => [ ("R245fa", "R245fa"); ("R134a", "R134a"); ("R600a", "Isobutane");
             ("R1233zd(E)", "R1233ZDE"); ("R123", "R123") ]
  | steam => [ ("水/蒸汽", "Water") ]
  | gas => [ ("空气", "Air"); ("二氧化碳", "CarbonDioxide"); ("甲烷", "Methane");
             ("氮气", "Nitrogen") ]
  end.

Definition KELVIN_OFFSET : float := 273.15%float.

(** [let CP; let currentTab = 'orc';] *)
Record Globals : Type := mkGlobals {
  CP : option Oracle;
  currentTab : Tab
}.

Definition initialGlobals : Globals := mkGlobals None orc.

(** ** The page *)

Inductive InletMode : Type := pt | tsup.
Inductive OutletMode : Type := pressure | tcond.
Inductive FlowMode : Type := mass | displacement | volume.

(** What the handler reads: the selected fluid, the checked radio of each
    group, and [parseFloat] of each input's text (NaN when the text is
    not a number).  Field names follow the element ids.  Each radio group
    has the values that the handlers of the page test for, and every
    element the handler looks up exists. *)
Record Form : Type := mkForm {
  fluid_select : string;
  inlet_mode : InletMode;
  outlet_mode : OutletMode;
  flow_mode : FlowMode;
  inlet_pressure : float;
  inlet_temperature : float;
  evap_temp : float;
  superheat : float;
  outlet_pressure : float;
  condensing_temperature : float;
  isentropic_efficiency : float;
  mass_flow : float;
  displacement_cm3 : float;
  rpm_input : float;
  volumetric_efficiency : float;
  volume_flow_rate : float
}.

Record StatusBar : Type := mkStatusBar {
  textContent : string;
  style : gmap string string
}.

(** What the handler writes ([doc]: the [value] or [textContent] of the
    result fields and table cells, by id), and the queries issued. *)
Record World : Type := mkWorld {
  doc : gmap string string;
  statusBar : StatusBar;
  trace : list Query
}.

Definition set_doc (id value : string) (w : World) : World :=
  mkWorld (<[ id := value ]> (doc w)) (statusBar w) (trace w).

Definition set_status_text (s : string) (w : World) : World :=
  mkWorld (doc w) (mkStatusBar s (style (statusBar w))) (trace w).

Definition set_status_style (prop value : string) (w : World) : World :=
  mkWorld (doc w)
          (mkStatusBar (textContent (statusBar w)) (<[ prop := value ]> (style (statusBar w))))
          (trace w).

Definition log_query (q : Query) (w : World) : World :=
  mkWorld (doc w) (statusBar w) (trace w ++ [q]).

(** ** Statements: state that survives a throw *)

Definition M (A : Type) : Type := World -> completion A * World.

Definition ret {A} (a : A) : M A := fun w => (Normal a, w).

Definition throw {A} (message : string) : M A := fun w => (Throw message, w).

Definition bind {A B} (m : M A) (k : A -> M B) : M B :=
  fun w =>
    match m w with
    | (Normal a, w1) => k a w1
    | (Throw e, w1) => (Throw e, w1)
    end.

Notation "'let*' x ':=' m 'in' k" := (bind m (fun x => k))
  (at level 10, x name, m at level 100, k at level 200).
Notation "m ';;' k" := (bind m (fun _ => k))
  (at level 100, k at level 200, right associativity).

(** [CP.PropsSI(...)]: the call is recorded, then it returns or throws. *)
Definition callPropsSI (cp : Oracle) (out name1 : string) (value1 : float)
    (name2 : string) (value2 : float) (fluid : string) : M float :=
  fun w => (PropsSI cp out name1 value1 name2 value2 fluid,
            log_query (mkQuery out name1 value1 name2 value2 fluid) w).

(** [document.getElementById(id).value = v] and [updateCell(id, v)]. *)
Definition setValue (id v : string) : M unit := fun w => (Normal tt, set_doc id v w).
Definition updateCell (id v : string) : M unit := fun w => (Normal tt, set_doc id v w).

Definition setStatusText (s : string) : M unit := fun w => (Normal tt, set_status_text s w).
Definition setStatusStyle (prop v : string) : M unit :=
  fun w => (Normal tt, set_status_style prop v w).

(** ** The cycle evaluation (app.js, section 6) *)

Section Evaluation.

(** [Number.prototype.toFixed], the host's rendering of a number with a
    fixed number of decimals. *)
Variable toFixed : float -> nat -> string.

Local Open Scope float_scope.

(** The locals of [handleCalculation] that the later steps and the
    display use, under their source names. *)
Record Inputs : Type := mkInputs {
  p1_pa : float;
  t1_k : float;
  p2_pa : float;
  eta_s : float
}.

Record StatePoints : Type := mkStatePoints {
  h1 : float; s1 : float; v1 : float; phase1 : float; x1 : float;
  s2s : float; h2s : float; t2s_k : float; v2s : float; phase2s : float; x2s : float;
  h2a : float; t2a_k : float; s2a : float; v2a : float; phase2a : float; x2a : float
}.

Record Flow : Type := mkFlow {
  massFlow_kg_s : float;
  power_W : float;
  final_inlet_volume_flow_m3h : float
}.

Section WithGlobals.

Variable cp : Oracle.
Variable tab : Tab.
Variable form : Form.

(** [const fluidName = fluidSelect.value;] *)
Definition fluidName : string := fluid_select form.

(** The defensive check: the selected fluid belongs to the tab. *)
Definition validFluids : list string := map snd (fluidMaps tab).

Definition includes (l : list string) (s : string) : bool :=
  existsb (String.eqb s) l.

Definition fluidMismatch : string :=
  "内部状态错误：当前工质 '" +:+ fluidName +:+ "' 与选项卡 '" +:+ Tab_name tab
    +:+ "' 不匹配。".

Definition checkFluid : M unit :=
  if negb (includes validFluids fluidName) then throw fluidMismatch else ret tt.

(** Inlet state: direct (P, T), or saturation temperature and superheat. *)
Definition resolveInlet : M (float * float) :=
  if isGasTab tab || match inlet_mode form with pt => true | tsup => false end then
    let p1_pa := inlet_pressure form * 1e5 in
    let t1_k := inlet_temperature form + KELVIN_OFFSET in
    if JS.isNaN p1_pa || JS.isNaN t1_k then throw "压力/温度输入无效。"
    else ret (p1_pa, t1_k)
  else
    let evap_temp_k := evap_temp form + KELVIN_OFFSET in
    let superheat_k := superheat form in
    if JS.isNaN evap_temp_k || JS.isNaN superheat_k then throw "饱和温度/过热度输入无效。"
    else
      let* p1_pa := callPropsSI cp "P" "T" evap_temp_k "Q" 1 fluidName in
      ret (p1_pa, evap_temp_k + superheat_k).

(** Outlet pressure: direct, or from the condensing temperature. *)
Definition resolveOutlet : M float :=
  if isGasTab tab || match outlet_mode form with pressure => true | tcond => false end then
    let p2_pa := outlet_pressure form * 1e5 in
    if JS.isNaN p2_pa then throw "出口压力输入无效。" else ret p2_pa
  else
    let t_cond_k := condensing_temperature form + KELVIN_OFFSET in
    if JS.isNaN t_cond_k then throw "冷凝温度输入无效。"
    else callPropsSI cp "P" "T" t_cond_k "Q" 0 fluidName.

Definition efficiencyInvalid (eta_s : float) : bool :=
  JS.isNaN eta_s || JS.le eta_s 0 || JS.gt eta_s 1.

Definition efficiencyMessage : string := "等熵效率必须在 (0, 100] 范围内。".

Definition checkEfficiency : M float :=
  let eta_s := isentropic_efficiency form / 100.0 in
  if efficiencyInvalid eta_s then throw efficiencyMessage else ret eta_s.

Definition pressureMessage (p1_pa p2_pa : float) : string :=
  "计算出的出口压力 (" +:+ toFixed (p2_pa / 1e5) 2 +:+ " bar) 必须低于进口压力 ("
    +:+ toFixed (p1_pa / 1e5) 2 +:+ " bar)。".

Definition checkPressure (p1_pa p2_pa : float) : M unit :=
  if JS.ge p2_pa p1_pa then throw (pressureMessage p1_pa p2_pa) else ret tt.

(** Lines 206-242: everything before the state points. *)
Definition resolveInputs : M Inputs :=
  checkFluid ;;
  let* inlet := resolveInlet in
  let* p2_pa := resolveOutlet in
  let* eta_s := checkEfficiency in
  checkPressure (fst inlet) p2_pa ;;
  ret (mkInputs (fst inlet) (snd inlet) p2_pa eta_s).

(** [phase === 3 ? CP.PropsSI('Q', ...) : -1] *)
Definition qualityAt (phase : float) (name1 : string) (value1 : float)
    (name2 : string) (value2 : float) : M float :=
  if JS.strict_eq phase 3 then callPropsSI cp "Q" name1 value1 name2 value2 fluidName
  else ret (-1).

(** Lines 245-263: inlet, isentropic outlet and actual outlet. *)
Definition statePoints (i : Inputs) : M StatePoints :=
  let p1_pa := p1_pa i in
  let t1_k := t1_k i in
  let p2_pa := p2_pa i in
  let eta_s := eta_s i in
  let* h1 := callPropsSI cp "H" "P" p1_pa "T" t1_k fluidName in
  let* s1 := callPropsSI cp "S" "P" p1_pa "T" t1_k fluidName in
  let* d1 := callPropsSI cp "D" "P" p1_pa "T" t1_k fluidName in
  let v1 := 1.0 / d1 in
  let* phase1 := callPropsSI cp "Phase" "P" p1_pa "T" t1_k fluidName in
  let* x1 := qualityAt phase1 "P" p1_pa "T" t1_k in
  let s2s := s1 in
  let* h2s := callPropsSI cp "H" "P" p2_pa "S" s2s fluidName in
  let* t2s_k := callPropsSI cp "T" "P" p2_pa "S" s2s fluidName in
  let* d2s := callPropsSI cp "D" "P" p2_pa "S" s2s fluidName in
  let v2s := 1.0 / d2s in
  let* phase2s := callPropsSI cp "Phase" "P" p2_pa "S" s2s fluidName in
  let* x2s := qualityAt phase2s "P" p2_pa "S" s2s in
  let h2a := h1 - (h1 - h2s) * eta_s in
  let* t2a_k := callPropsSI cp "T" "P" p2_pa "H" h2a fluidName in
  let* s2a := callPropsSI cp "S" "P" p2_pa "H" h2a fluidName in
  let* d2a := callPropsSI cp "D" "P" p2_pa "H" h2a fluidName in
  let v2a := 1.0 / d2a in
  let* phase2a := callPropsSI cp "Phase" "P" p2_pa "H" h2a fluidName in
  let* x2a := qualityAt phase2a "P" p2_pa "H" h2a in
  ret (mkStatePoints h1 s1 v1 phase1 x1 s2s h2s t2s_k v2s phase2s x2s
                     h2a t2a_k s2a v2a phase2a x2a).

(** Lines 266-286: the mass flow of the selected flow mode. *)
Definition resolveMassFlow (v1 : float) : M float :=
  match flow_mode form with
  | mass =>
      let massFlow_kg_s := mass_flow form in
      if JS.isNaN massFlow_kg_s || JS.le massFlow_kg_s 0 then throw "质量流量必须是正数。"
      else ret massFlow_kg_s
  | displacement =>
      let Vg_cm3 := displacement_cm3 form in
      let rpm := rpm_input form in
      let eta_v := volumetric_efficiency form / 100.0 in
      if JS.isNaN Vg_cm3 || JS.isNaN rpm || JS.isNaN eta_v then throw "几何排量参数输入无效。"
      else if JS.le Vg_cm3 0 || JS.le rpm 0 || JS.le eta_v 0
      then throw "几何排量、转速和容积效率必须是正数。"
      else ret (((Vg_cm3 / 1e6 * rpm) / 60.0 * eta_v) / v1)
  | volume =>
      let volume_flow_m3h := volume_flow_rate form in
      if JS.isNaN volume_flow_m3h || JS.le volume_flow_m3h 0 then throw "体积流量必须是正数。"
      else ret ((volume_flow_m3h / 3600.0) / v1)
  end.

(** Lines 266-289. *)
Definition flowAndPower (sp : StatePoints) : M Flow :=
  let* massFlow_kg_s := resolveMassFlow (v1 sp) in
  let power_W := massFlow_kg_s * (h1 sp - h2a sp) in
  let final_inlet_volume_flow_m3h := massFlow_kg_s * v1 sp * 3600 in
  ret (mkFlow massFlow_kg_s power_W final_inlet_volume_flow_m3h).

(** [formatPhase(phaseIndex, qualityValue)]; the [switch] compares
    with [===], case by case in source order. *)
Definition formatPhase (phaseIndex qualityValue : float) : string :=
  if isGasTab tab then "N/A"
  else if JS.strict_eq phaseIndex 0 then "过冷"
  else if JS.strict_eq phaseIndex 5 then "过热"
  else if JS.strict_eq phaseIndex 3 then
    if JS.gt qualityValue (-1e-9) && JS.lt qualityValue 1e-9 then "饱和液"
    else if JS.gt qualityValue (1 - 1e-9) && JS.lt qualityValue (1 + 1e-9) then "饱和汽"
    else toFixed qualityValue 4
  else if JS.strict_eq phaseIndex 1 then "超临界"
  else if JS.strict_eq phaseIndex 2 then "超临界气体"
  else if JS.strict_eq phaseIndex 4 then "超临界液体"
  else "--".

(** Lines 292-320: every write of a result. *)
Definition display (i : Inputs) (sp : StatePoints) (fl : Flow) : M unit :=
  setValue "result-power" (toFixed (power_W fl / 1000.0) 2) ;;
  setValue "result-mass-flow" (toFixed (massFlow_kg_s fl) 3) ;;
  setValue "result-volume-flow" (toFixed (final_inlet_volume_flow_m3h fl) 2) ;;
  let p2_bar_final := p2_pa i / 1e5 in
  updateCell "val-p1" (toFixed (p1_pa i / 1e5) 2) ;;
  updateCell "val-t1" (toFixed (t1_k i - KELVIN_OFFSET) 2) ;;
  updateCell "val-h1" (toFixed (h1 sp / 1000.0) 2) ;;
  updateCell "val-s1" (toFixed (s1 sp / 1000.0) 4) ;;
  updateCell "val-v1" (toFixed (v1 sp) 5) ;;
  updateCell "val-x1" (formatPhase (phase1 sp) (x1 sp)) ;;
  updateCell "val-p2s" (toFixed p2_bar_final 2) ;;
  updateCell "val-t2s" (toFixed (t2s_k sp - KELVIN_OFFSET) 2) ;;
  updateCell "val-h2s" (toFixed (h2s sp / 1000.0) 2) ;;
  updateCell "val-s2s" (toFixed (s2s sp / 1000.0) 4) ;;
  updateCell "val-v2s" (toFixed (v2s sp) 5) ;;
  updateCell "val-x2s" (formatPhase (phase2s sp) (x2s sp)) ;;
  updateCell "val-p2a" (toFixed p2_bar_final 2) ;;
  updateCell "val-t2a" (toFixed (t2a_k sp - KELVIN_OFFSET) 2) ;;
  updateCell "val-h2a" (toFixed (h2a sp / 1000.0) 2) ;;
  updateCell "val-s2a" (toFixed (s2a sp / 1000.0) 4) ;;
  updateCell "val-v2a" (toFixed (v2a sp) 5) ;;
  updateCell "val-x2a" (formatPhase (phase2a sp) (x2a sp)) ;;
  setStatusText "计算完成。" ;;
  setStatusStyle "backgroundColor" "#f6ffed" ;;
  setStatusStyle "color" "#389e0d".

(** Lines 206-289: the evaluation proper, up to the first write. *)
Definition evaluate : M (Inputs * StatePoints * Flow) :=
  let* i := resolveInputs in
  let* sp := statePoints i in
  let* fl := flowAndPower sp in
  ret (i, sp, fl).

(** The body of the [try] block. *)
Definition tryBlock : M unit :=
  let* r := evaluate in
  display (fst (fst r)) (snd (fst r)) (snd r).

(** The [catch (err)] block. *)
Definition catchBlock (message : string) : M unit :=
  setStatusText ("计算错误: " +:+ message) ;;
  setStatusStyle "backgroundColor" "#fff1f0" ;;
  setStatusStyle "color" "#cf1322".

Definition tryCatch : M unit :=
  fun w =>
    match tryBlock w with
    | (Normal tt, w1) => (Normal tt, w1)
    | (Throw message, w1) => catchBlock message w1
    end.

End WithGlobals.

Definition notReadyMessage : string := "错误：CoolProp 尚未加载完成。".

(** [handleCalculation()]: the page after a click on the button. *)
Definition handleCalculation (g : Globals) (form : Form) (w : World) : World :=
  match CP g with
  | None => set_status_text notReadyMessage w
  | Some cp => snd (tryCatch cp (currentTab g) form w)
  end.

End Evaluation.

(** ** The earlier handler (js/app.js)

    The copy of app.js under js/ has one inlet mode (pressure and
    temperature), the outlet pressure given directly, and two flow modes:
    mass flow, and displacement with speed and volumetric efficiency for
    any other radio value.  It reads the same page. *)

Module JsApp.

Section Evaluation.

Variable toFixed : float -> nat -> string.

Local Open Scope float_scope.

Record Calc : Type := mkCalc {
  p1_bar : float; t1_c : float; p2_bar : float;
  h1 : float; s1 : float; v1 : float; x1 : float;
  s2s : float; h2s : float; t2s_k : float; v2s : float; x2s : float;
  delta_h_a : float;
  h2a : float; t2a_k : float; s2a : float; v2a : float; x2a : float;
  massFlow_kg_s : float; inletVolumeFlow_m3_s : float; power_W : float
}.

(** [formatQuality(x)] *)
Definition formatQuality (x : float) : string :=
  if JS.gt x 0 && JS.lt x 1 then toFixed x 4
  else if JS.le x 0 || JS.strict_eq x neg_infinity then "过冷"
  else if JS.ge x 1 || JS.strict_eq x infinity then "过热"
  else "--".

Section WithGlobals.

Variable cp : Oracle.
Variable form : Form.

(** Lines 187-264: everything before the first write. *)
Definition evaluate : M Calc :=
  let fluidName := fluid_select form in
  let p1_bar := inlet_pressure form in
  let t1_c := inlet_temperature form in
  let p1_pa := p1_bar * 1e5 in
  let t1_k := t1_c + KELVIN_OFFSET in
  let p2_bar := outlet_pressure form in
  let p2_pa := p2_bar * 1e5 in
  let eta_s_percent := isentropic_efficiency form in
  let eta_s := eta_s_percent / 100.0 in
  if JS.isNaN p1_pa || JS.isNaN t1_k || JS.isNaN p2_pa || JS.isNaN eta_s
  then throw "输入无效：请检查所有参数是否为数字。"
  else if JS.ge p2_pa p1_pa then throw "输入无效：出口压力必须低于进口压力。"
  else if JS.le eta_s 0 || JS.gt eta_s 1
  then throw "输入无效：等熵效率必须在 (0, 100] 范围内。"
  else
    let* h1 := callPropsSI cp "H" "P" p1_pa "T" t1_k fluidName in
    let* s1 := callPropsSI cp "S" "P" p1_pa "T" t1_k fluidName in
    let* d1 := callPropsSI cp "D" "P" p1_pa "T" t1_k fluidName in
    let v1 := 1.0 / d1 in
    let* x1 := callPropsSI cp "Q" "P" p1_pa "T" t1_k fluidName in
    let s2s := s1 in
    let* h2s := callPropsSI cp "H" "P" p2_pa "S" s2s fluidName in
    let* t2s_k := callPropsSI cp "T" "P" p2_pa "S" s2s fluidName in
    let* d2s := callPropsSI cp "D" "P" p2_pa "S" s2s fluidName in
    let v2s := 1.0 / d2s in
    let* x2s := callPropsSI cp "Q" "P" p2_pa "S" s2s fluidName in
    let delta_h_s := h1 - h2s in
    let delta_h_a := delta_h_s * eta_s in
    let h2a := h1 - delta_h_a in
    let* t2a_k := callPropsSI cp "T" "P" p2_pa "H" h2a fluidName in
    let* s2a := callPropsSI cp "S" "P" p2_pa "H" h2a fluidName in
    let* d2a := callPropsSI cp "D" "P" p2_pa "H" h2a fluidName in
    let v2a := 1.0 / d2a in
    let* x2a := callPropsSI cp "Q" "P" p2_pa "H" h2a fluidName in
    let* flow :=
      match flow_mode form with
      | mass =>
          let massFlow_kg_s := mass_flow form in
          if JS.isNaN massFlow_kg_s then throw "质量流量输入无效。"
          else ret (massFlow_kg_s, massFlow_kg_s * v1)
      | _ =>
          let Vg_cm3 := displacement_cm3 form in
          let rpm := rpm_input form in
          let eta_v_percent := volumetric_efficiency form in
          if JS.isNaN Vg_cm3 || JS.isNaN rpm || JS.isNaN eta_v_percent
          then throw "容积参数输入无效。"
          else
            let Vg_m3 := Vg_cm3 / 1e6 in
            let eta_v := eta_v_percent / 100.0 in
            let theoreticalVolumeFlow_m3_s := (Vg_m3 * rpm) / 60.0 in
            let inletVolumeFlow_m3_s := theoreticalVolumeFlow_m3_s * eta_v in
            ret (inletVolumeFlow_m3_s / v1, inletVolumeFlow_m3_s)
      end in
    let massFlow_kg_s := fst flow in
    let inletVolumeFlow_m3_s := snd flow in
    let power_W := massFlow_kg_s * delta_h_a in
    ret (mkCalc p1_bar t1_c p2_bar h1 s1 v1 x1 s2s h2s t2s_k v2s x2s delta_h_a
                h2a t2a_k s2a v2a x2a massFlow_kg_s inletVolumeFlow_m3_s power_W).

(** Lines 268-296: every write of a result. *)
Definition display (c : Calc) : M unit :=
  setValue "result-power" (toFixed (power_W c / 1000.0) 2) ;;
  setValue "result-mass-flow" (toFixed (massFlow_kg_s c) 3) ;;
  setValue "result-volume-flow" (toFixed (inletVolumeFlow_m3_s c * 3600) 2) ;;
  updateCell "val-p1" (toFixed (p1_bar c) 2) ;;
  updateCell "val-t1" (toFixed (t1_c c) 2) ;;
  updateCell "val-h1" (toFixed (h1 c / 1000.0) 2) ;;
  updateCell "val-s1" (toFixed (s1 c / 1000.0) 4) ;;
  updateCell "val-v1" (toFixed (v1 c) 5) ;;
  updateCell "val-x1" (formatQuality (x1 c)) ;;
  updateCell "val-p2s" (toFixed (p2_bar c) 2) ;;
  updateCell "val-t2s" (toFixed (t2s_k c - KELVIN_OFFSET) 2) ;;
  updateCell "val-h2s" (toFixed (h2s c / 1000.0) 2) ;;
  updateCell "val-s2s" (toFixed (s2s c / 1000.0) 4) ;;
  updateCell "val-v2s" (toFixed (v2s c) 5) ;;
  updateCell "val-x2s" (formatQuality (x2s c)) ;;
  updateCell "val-p2a" (toFixed (p2_bar c) 2) ;;
  updateCell "val-t2a" (toFixed (t2a_k c - KELVIN_OFFSET) 2) ;;
  updateCell "val-h2a" (toFixed (h2a c / 1000.0) 2) ;;
  updateCell "val-s2a" (toFixed (s2a c / 1000.0) 4) ;;
  updateCell "val-v2a" (toFixed (v2a c) 5) ;;
  updateCell "val-x2a" (formatQuality (x2a c)) ;;
  setStatusText "计算完成。" ;;
  setStatusStyle "backgroundColor" "#f6ffed" ;;
  setStatusStyle "color" "#389e0d" ;;
  setStatusStyle "whiteSpace" "normal".

Definition tryBlock : M unit :=
  let* c := evaluate in display c.

Definition catchBlock (message : string) : M unit :=
  setStatusText ("计算错误: " +:+ message) ;;
  setStatusStyle "backgroundColor" "#fff1f0" ;;
  setStatusStyle "color" "#cf1322" ;;
  setStatusStyle "whiteSpace" "normal".

Definition tryCatch : M unit :=
  fun w =>
    match tryBlock w with
    | (Normal tt, w1) => (Normal tt, w1)
    | (Throw message, w1) => catchBlock message w1
    end.

End WithGlobals.

(** [handleCalculation()] of js/app.js. *)
Definition handleCalculation (g : Globals) (form : Form) (w : World) : World :=
  match CP g with
  | None => set_status_text "错误：CoolProp 尚未加载完成。" w
  | Some cp => snd (tryCatch cp form w)
  end.

End Evaluation.

End JsApp.

(** ** Start-up (app.js, section 4) *)

(** [initAppLogic()], given what [await loadCoolProp()] produced: the
    handle is stored first, then the version is read and shown; a throw
    at either point shows the error and leaves the rest undone.  (The
    button it enables is not part of the page as modelled.) *)
Definition initAppLogic (loaded : completion Oracle) (g : Globals) (w : World)
    : Globals * World :=
  let failed (g : Globals) (message : string) :=
    (g, set_status_style "whiteSpace" "pre-wrap"
          (set_status_style "color" "#cf1322"
             (set_status_style "backgroundColor" "#fff1f0"
                (set_status_text ("错误：" +:+ message) w)))) in
  match loaded with
  | Throw message => failed g message
  | Normal CP_instance =>
      let g1 := mkGlobals (Some CP_instance) (currentTab g) in
      match get_global_param_string CP_instance "version" with
      | Throw message => failed g1 message
      | Normal version =>
          (g1, set_status_style "color" "#006d75"
                 (set_status_style "backgroundColor" "#e6f7ff"
                    (set_status_text ("CoolProp 物性库加载成功 (v" +:+ version +:+ ")") w)))
      end
  end.

(** ** [toFixed] as ECMA-262 defines it

    Used to run the evaluation on concrete pages.  [n] is the integer
    nearest to [x * 10^f], the larger one on a tie, computed exactly
    from the mantissa and exponent of [x]; its digits are split [f]
    places from the right.  Magnitudes from 1e21 on, which ECMAScript
    prints in exponent notation, are printed here with all their
    digits. *)

Definition scaledNearest (m : positive) (e : Z) (f : nat) : N :=
  let scaled := (Z.pos m * 10 ^ Z.of_nat f)%Z in
  if (0 <=? e)%Z then Z.to_N (scaled * 2 ^ e)
  else Z.to_N ((2 * scaled + 2 ^ (- e)) / 2 ^ (1 - e)).

Fixpoint zeros (k : nat) : string :=
  match k with O => EmptyString | S k' => "0" +:+ zeros k' end.

Definition fixedDigits (n : N) (f : nat) : string :=
  let m := DecimalString.NilZero.string_of_uint (N.to_uint n) in
  match f with
  | O => m
  | S _ =>
      let k := String.length m in
      let m := if (k <=? f)%nat then zeros (f + 1 - k) +:+ m else m in
      let k := String.length m in
      String.substring 0 (k - f) m +:+ "." +:+ String.substring (k - f) f m
  end.

Definition toFixed_ecma (x : float) (f : nat) : string :=
  match Prim2SF x with
  | S754_nan => "NaN"
  | S754_infinity false => "Infinity"
  | S754_infinity true => "-Infinity"
  | S754_zero _ => fixedDigits 0 f
  | S754_finite s m e => (if s then "-" else "") +:+ fixedDigits (scaledNearest m e f) f
  end.

(** ** Concrete pages

    A property library given by a small table, the form as [clearForm]
    leaves it, and variations of both. *)

Local Open Scope float_scope.

(** Superheated inlet, two-phase isentropic outlet, superheated actual
    outlet; the (P, H) answers at H = 2.5e6 agree with the (P, S) ones. *)
Definition tablePropsSI (out name1 : string) (value1 : float) (name2 : string)
    (value2 : float) (fluid : string) : completion float :=
  if String.eqb name1 "T" && String.eqb name2 "Q" then
    if String.eqb out "P" then Normal (if value2 =? 1 then 1500000 else 300000)
    else Throw "unsupported output"
  else if String.eqb name1 "P" && String.eqb name2 "T" then
    if String.eqb out "H" then Normal 2800000
    else if String.eqb out "S" then Normal 6500
    else if String.eqb out "D" then Normal 10
    else if String.eqb out "Phase" then Normal 5
    else if String.eqb out "Q" then Normal (-1)
    else Throw "unsupported output"
  else if String.eqb name1 "P" && String.eqb name2 "S" then
    if String.eqb out "H" then Normal 2500000
    else if String.eqb out "T" then Normal 420
    else if String.eqb out "D" then Normal 2.5
    else if String.eqb out "Phase" then Normal 3
    else if String.eqb out "Q" then Normal 0.95
    else Throw "unsupported output"
  else if String.eqb name1 "P" && String.eqb name2 "H" then
    if String.eqb out "T" then Normal (if value2 =? 2500000 then 420 else 430)
    else if String.eqb out "S" then Normal (if value2 =? 2500000 then 6500 else 6600)
    else if String.eqb out "D" then Normal 2
    else if String.eqb out "Phase" then Normal 5
    else if String.eqb out "Q" then Normal (-1)
    else Throw "unsupported output"
  else Throw "unsupported input pair".

Definition tableOracle : Oracle :=
  mkOracle tablePropsSI (fun _ => Normal "6.4.1").

(** The same table, except that the inverse lookup of entropy at (P, H)
    is accurate to a solver tolerance only. *)
Definition tolerancePropsSI (out name1 : string) (value1 : float) (name2 : string)
    (value2 : float) (fluid : string) : completion float :=
  if String.eqb out "S" && String.eqb name1 "P" && String.eqb name2 "H"
  then Normal 6500.000000001
  else tablePropsSI out name1 value1 name2 value2 fluid.

Definition toleranceOracle : Oracle :=
  mkOracle tolerancePropsSI (fun _ => Normal "6.4.1").

(** A library that rejects every state. *)
Definition failingOracle : Oracle :=
  mkOracle (fun _ _ _ _ _ _ => Throw "PropsSI: state out of range")
           (fun _ => Normal "6.4.1").

Definition readyGlobals (t : Tab) : Globals := mkGlobals (Some tableOracle) t.

(** The values [clearForm] puts into the inputs, with Water selected. *)
Definition defaultForm : Form :=
  mkForm "Water" pt pressure mass 20 150 120 10 4 30 85 1 500 3000 90 100.

Definition withModes (im : InletMode) (om : OutletMode) (fm : FlowMode) (f : Form) : Form :=
  mkForm (fluid_select f) im om fm (inlet_pressure f) (inlet_temperature f) (evap_temp f)
         (superheat f) (outlet_pressure f) (condensing_temperature f)
         (isentropic_efficiency f) (mass_flow f) (displacement_cm3 f) (rpm_input f)
         (volumetric_efficiency f) (volume_flow_rate f).

Definition withEfficiency (percent : float) (f : Form) : Form :=
  mkForm (fluid_select f) (inlet_mode f) (outlet_mode f) (flow_mode f) (inlet_pressure f)
         (inlet_temperature f) (evap_temp f) (superheat f) (outlet_pressure f)
         (condensing_temperature f) percent (mass_flow f) (displacement_cm3 f)
         (rpm_input f) (volumetric_efficiency f) (volume_flow_rate f).

Definition withOutletPressure (bar : float) (f : Form) : Form :=
  mkForm (fluid_select f) (inlet_mode f) (outlet_mode f) (flow_mode f) (inlet_pressure f)
         (inlet_temperature f) (evap_temp f) (superheat f) bar
         (condensing_temperature f) (isentropic_efficiency f) (mass_flow f)
         (displacement_cm3 f) (rpm_input f) (volumetric_efficiency f) (volume_flow_rate f).

Definition withMassFlow (kg_s : float) (f : Form) : Form :=
  mkForm (fluid_select f) (inlet_mode f) (outlet_mode f) (flow_mode f) (inlet_pressure f)
         (inlet_temperature f) (evap_temp f) (superheat f) (outlet_pressure f)
         (condensing_temperature f) (isentropic_efficiency f) kg_s
         (displacement_cm3 f) (rpm_input f) (volumetric_efficiency f) (volume_flow_rate f).

(** What the evaluation computes from [defaultForm] on the steam tab with
    [tableOracle]. *)
Definition defaultInputs : Inputs :=
  mkInputs 2000000 (150 + KELVIN_OFFSET) 400000 (85 / 100.0).

Definition defaultStatePoints : StatePoints :=
  mkStatePoints 2800000 6500 (1.0 / 10) 5 (-1)
                6500 2500000 420 (1.0 / 2.5) 3 0.95
                2545000 430 6600 (1.0 / 2) 5 (-1).

Definition defaultFlow : Flow := mkFlow 1 255000 360.

(** The same, with the mass flow of the displacement mode. *)
Definition displacementFlow : Flow :=
  let m := 500 / 1e6 * 3000 / 60.0 * (90 / 100.0) / (1.0 / 10) in
  mkFlow m (m * (2800000 - 2545000)) (m * (1.0 / 10) * 3600).

(** The same at 100 % efficiency: the actual outlet is queried at the
    isentropic enthalpy. *)
Definition unitInputs : Inputs :=
  mkInputs 2000000 (150 + KELVIN_OFFSET) 400000 1.

Definition unitStatePoints : StatePoints :=
  mkStatePoints 2800000 6500 (1.0 / 10) 5 (-1)
                6500 2500000 420 (1.0 / 2.5) 3 0.95
                2500000 420 6500 (1.0 / 2) 5 (-1).

Definition unitFlow : Flow := mkFlow 1 300000 360.

(** A table whose enthalpies make H1 - (H1 - H2s) round away from H2s. *)
Definition roundingPropsSI (out name1 : string) (value1 : float) (name2 : string)
    (value2 : float) (fluid : string) : completion float :=
  if String.eqb out "H" && String.eqb name1 "P" && String.eqb name2 "T" then Normal 430000
  else if String.eqb out "H" && String.eqb name1 "P" && String.eqb name2 "S"
  then Normal 98765.4
  else tablePropsSI out name1 value1 name2 value2 fluid.

Definition roundingOracle : Oracle :=
  mkOracle roundingPropsSI (fun _ => Normal "6.4.1").

(** The page after [clearForm]: empty result fields, no query issued.
    (The table cells, which [clearForm] sets to "--", are left out.) *)
Definition clearedWorld : World :=
  mkWorld (<[ "result-power" := "" ]> (<[ "result-mass-flow" := "" ]>
             (<[ "result-volume-flow" := "" ]> ∅)))
          (mkStatusBar "已清空。" ∅) [].

(** ** Vocabulary of the statements *)

(** [needle] occurs in [hay]. *)
Fixpoint mentions (needle hay : string) : bool :=
  String.prefix needle hay ||
  match hay with
  | EmptyString => false
  | String _ rest => mentions needle rest
  end.

(** The saturation-pressure lookups that resolving the inlet and the
    outlet pressure can issue, in order. *)
Definition directInlet (tab : Tab) (form : Form) : bool :=
  isGasTab tab || match inlet_mode form with pt => true | tsup => false end.

Definition directOutlet (tab : Tab) (form : Form) : bool :=
  isGasTab tab || match outlet_mode form with pressure => true | tcond => false end.

Definition inletLookup (tab : Tab) (form : Form) : list Query :=
  if directInlet tab form then []
  else [ mkQuery "P" "T" (evap_temp form + KELVIN_OFFSET) "Q" 1 (fluid_select form) ].

Definition outletLookup (tab : Tab) (form : Form) : list Query :=
  if directOutlet tab form then []
  else [ mkQuery "P" "T" (condensing_temperature form + KELVIN_OFFSET) "Q" 0 (fluid_select form) ].

Definition saturationLookups (tab : Tab) (form : Form) : list Query :=
  inletLookup tab form ++ outletLookup tab form.

(** The queries of a successful pass through the state points, in order:
    four at the inlet, four at the isentropic outlet, four at the actual
    outlet, each group followed by the quality query when its phase index
    is 3. *)
Definition qualityQuery (phase : float) (name1 : string) (value1 : float)
    (name2 : string) (value2 : float) (fluid : string) : list Query :=
  if JS.strict_eq phase 3 then [ mkQuery "Q" name1 value1 name2 value2 fluid ] else [].

Definition stateQueries (name1 : string) (value1 : float) (name2 : string)
    (value2 : float) (fluid : string) (outs : list string) : list Query :=
  map (fun out => mkQuery out name1 value1 name2 value2 fluid) outs.

Definition statePointQueries (fluid : string) (i : Inputs) (sp : StatePoints) : list Query :=
  stateQueries "P" (p1_pa i) "T" (t1_k i) fluid [ "H"; "S"; "D"; "Phase" ]
  ++ qualityQuery (phase1 sp) "P" (p1_pa i) "T" (t1_k i) fluid
  ++ stateQueries "P" (p2_pa i) "S" (s1 sp) fluid [ "H"; "T"; "D"; "Phase" ]
  ++ qualityQuery (phase2s sp) "P" (p2_pa i) "S" (s1 sp) fluid
  ++ stateQueries "P" (p2_pa i) "H" (h2a sp) fluid [ "T"; "S"; "D"; "Phase" ]
  ++ qualityQuery (phase2a sp) "P" (p2_pa i) "H" (h2a sp) fluid.

(** Some numeric input of the selected flow mode is zero or negative. *)
Definition flowInputNonPositive (form : Form) : bool :=
  match flow_mode form with
  | mass => JS.le (mass_flow form) 0
  | displacement =>
      JS.le (displacement_cm3 form) 0 || JS.le (rpm_input form) 0
      || JS.le (volumetric_efficiency form) 0
  | volume => JS.le (volume_flow_rate form) 0
  end.

(** Some numeric input of the selected flow mode is not a number. *)
Definition flowInputNaN (form : Form) : bool :=
  match flow_mode form with
  | mass => JS.isNaN (mass_flow form)
  | displacement =>
      JS.isNaN (displacement_cm3 form) || JS.isNaN (rpm_input form)
      || JS.isNaN (volumetric_efficiency form / 100.0)
  | volume => JS.isNaN (volume_flow_rate form)
  end.

(** The error of the selected flow mode for an input that is not positive. *)
Definition flowMessage (form : Form) : string :=
  match flow_mode form with
  | mass => "质量流量必须是正数。"
  | displacement => "几何排量、转速和容积效率必须是正数。"
  | volume => "体积流量必须是正数。"
  end.

(** The labels [formatPhase] shows in place of a number. *)
Definition phaseLabels : list string :=
  [ "N/A"; "过冷"; "过热"; "超临界"; "超临界气体"; "超临界液体"; "--" ].

(** Within 1e-9 of 0, respectively of 1, as [formatPhase] tests it. *)
Definition nearZero (q : float) : bool := JS.gt q (-1e-9) && JS.lt q 1e-9.
Definition nearOne (q : float) : bool := JS.gt q (1 - 1e-9) && JS.lt q (1 + 1e-9).

(** A statement that writes nothing: at most, it issues queries. *)
Definition onlyQueries {A} (m : M A) : Prop :=
  forall w, exists qs, snd (m w) = mkWorld (doc w) (statusBar w) (trace w ++ qs).

(** The final page shows an error with this message. *)
Definition showsError (message : string) (w : World) : Prop :=
  textContent (statusBar w) = "计算错误: " +:+ message.

(** [clearedWorld] after the queries of the evaluation of [defaultForm]. *)
Definition defaultQueried : World :=
  mkWorld (doc clearedWorld) (statusBar clearedWorld)
          (statePointQueries "Water" defaultInputs defaultStatePoints).

Definition unitQueried : World :=
  mkWorld (doc clearedWorld) (statusBar clearedWorld)
          (statePointQueries "Water" unitInputs unitStatePoints).

(** ** The loader (coolprop_loader.js)

    [loadCoolProp] hands a [locateFile] callback to the factory of the
    WebAssembly module and translates a failure of the factory into an
    error with a message for the user.  The factory and the clock are
    given from outside. *)

Module JSString.

(** [s.substring(n)] and [s.substring(0, n)] for [0 <= n]. *)
Fixpoint drop (n : nat) (s : string) : string :=
  match n, s with
  | S n', String _ s' => drop n' s'
  | _, _ => s
  end.

Fixpoint take (n : nat) (s : string) : string :=
  match n, s with
  | S n', String c s' => String c (take n' s')
  | _, _ => EmptyString
  end.

(** [s.substring(0, e)]: a negative end counts as 0. *)
Definition substring0 (e : Z) (s : string) : string := take (Z.to_nat e) s.

(** [s.endsWith(t)]: [t] is what [s] holds from [s.length - t.length] on. *)
Definition endsWith (s t : string) : bool :=
  (String.length t <=? String.length s)%nat
  && String.eqb (drop (String.length s - String.length t) s) t.

(** [s.lastIndexOf(c)] for a one-character [c]: -1 when [c] is absent. *)
Fixpoint lastIndexOf_from (c : Ascii.ascii) (s : string) (i found : Z) : Z :=
  match s with
  | EmptyString => found
  | String a s' => lastIndexOf_from c s' (i + 1) (if Ascii.eqb a c then i else found)
  end.

Definition lastIndexOf (s : string) (c : Ascii.ascii) : Z := lastIndexOf_from c s 0 (-1).

(** The last character of a string, if it has one. *)
Fixpoint lastChar (s : string) : option Ascii.ascii :=
  match s with
  | EmptyString => None
  | String c s' => match s' with EmptyString => Some c | String _ _ => lastChar s' end
  end.

(** The decimal digits of an integer, as a template literal renders it. *)
Definition ofInteger (n : N) : string := NilZero.string_of_uint (N.to_uint n).

Definition LF : string := String (Ascii.ascii_of_nat 10) EmptyString.

Definition slash : Ascii.ascii := Ascii.ascii_of_nat 47.

End JSString.

Module Loader.

(** What the page's address contributes: [window.location.pathname] and
    [window.location.protocol]. *)
Record Location : Type := mkLocation {
  pathname : string;
  protocol : string
}.

(** [locateFile(path, scriptDirectory)], with [now] for [Date.now()]:
    the address of the .wasm file is built from the directory of the
    page. *)
Definition locateFile (loc : Location) (now : N) (path scriptDirectory : string) : string :=
  if JSString.endsWith path ".wasm" then
    let basePath := pathname loc in
    let basePath :=
      if JSString.endsWith basePath ".html"
      then JSString.substring0 (JSString.lastIndexOf basePath JSString.slash + 1) basePath
      else basePath in
    let wasmPath := basePath +:+ "js/" +:+ path in
    wasmPath +:+ "?v=" +:+ JSString.ofInteger now
  else scriptDirectory +:+ path.

(** The other copy of the loader trusts the directory the factory passes. *)
Definition locateFile_prefix (now : N) (path prefix : string) : string :=
  if JSString.endsWith path ".wasm" then
    let wasmPath := prefix +:+ path in
    wasmPath +:+ "?v=" +:+ JSString.ofInteger now
  else prefix +:+ path.

(** A rejected promise of the factory: an error with its message and its
    name (empty when it has none). *)
Record JsError : Type := mkJsError {
  err_message : string;
  err_name : string
}.

Inductive settled (A : Type) : Type :=
| Fulfilled (a : A)
| Rejected (err : JsError).
Arguments Fulfilled {A} a.
Arguments Rejected {A} err.

Definition notFoundHint : string :=
  "这通常意味着 'coolprop.wasm' 文件未找到 (404 Not Found) 或因协议限制无法加载。".

Definition placeHint : string :=
  JSString.LF +:+ "请确认 'coolprop.wasm' 文件与 'coolprop.js' 文件都在 'js' 目录下，并且已成功推送到服务器。".

Definition fileProtocolHint : string :=
  JSString.LF +:+ JSString.LF
  +:+ "关键提示：您当前正通过 'file://' 协议访问页面，这无法加载物性库。请务必通过 Web 服务器 (例如 VS Code 的 'Live Server' 插件) 来访问此页面。".

(** The [catch] block of [loadCoolProp]: the message that is thrown on. *)
Definition loadErrorMessage (loc : Location) (err : JsError) : string :=
  let errorMessage := "CoolProp 加载失败。" in
  if mentions "Aborted" (err_message err)
     || (negb (String.eqb (err_name err) "") && mentions "NotFoundError" (err_name err))
  then
    let errorMessage := errorMessage +:+ notFoundHint in
    let errorMessage := errorMessage +:+ placeHint in
    if String.eqb (protocol loc) "file:" then errorMessage +:+ fileProtocolHint
    else errorMessage
  else errorMessage +:+ "具体错误: " +:+ err_message err.

(** [loadCoolProp()], given how [await Module(moduleArgs)] settled. *)
Definition loadCoolProp (loc : Location) (module : settled Oracle) : completion Oracle :=
  match module with
  | Fulfilled CP => Normal CP
  | Rejected err => Throw (loadErrorMessage loc err)
  end.

End Loader.

(** ** The controls of the page (app.js, sections 3 and 5)

    The handlers of section 5 keep the fluid list, the radio groups and
    the panels of the form in step with the current tab.  index.html is
    not among the sources; what the handlers need of it is collected in
    [Markup].  A radio group is given by the value of its checked
    radio, the class [hidden] by the set of ids that carry it, and the
    tab links by their [data-tab]. *)

Record Markup : Type := mkMarkup {
  (** the value of the radio with id [mode-pt], of the group inlet-mode *)
  mode_pt : InletMode;
  (** the value of the radio with id [outlet-mode-p], of the group outlet-mode *)
  outlet_mode_p : OutletMode;
  (** the value of the radio with id [mode-mass], of the group flow-mode *)
  mode_mass : FlowMode;
  (** the ids of the elements [#results-table-body td[id]], in document order *)
  tableCells : list string
}.

Record Controls : Type := mkControls {
  (** the tab links whose class list holds [active] *)
  activeTabs : list Tab;
  (** the options of [#fluid-select]: text and value *)
  fluidOptions : list (string * string);
  (** [fluidSelect.selectedIndex]; [None] for -1 *)
  selectedIndex : option nat;
  inletRadio : InletMode;
  outletRadio : OutletMode;
  flowRadio : FlowMode;
  (** the ids of the elements whose class list holds [hidden] *)
  hidden : gset string;
  (** [evapTempLabel.textContent] *)
  evapTempLabel : string
}.

Record Page : Type := mkPage {
  globals : Globals;
  controls : Controls;
  world : World
}.

#[global] Instance Tab_eq_dec : EqDecision Tab.
Proof. solve_decision. Defined.

#[global] Instance InletMode_eq_dec : EqDecision InletMode.
Proof. solve_decision. Defined.

#[global] Instance OutletMode_eq_dec : EqDecision OutletMode.
Proof. solve_decision. Defined.

#[global] Instance FlowMode_eq_dec : EqDecision FlowMode.
Proof. solve_decision. Defined.

Definition set_activeTabs (l : list Tab) (c : Controls) : Controls :=
  mkControls l (fluidOptions c) (selectedIndex c) (inletRadio c) (outletRadio c)
             (flowRadio c) (hidden c) (evapTempLabel c).

Definition set_fluidOptions (options : list (string * string)) (index : option nat)
    (c : Controls) : Controls :=
  mkControls (activeTabs c) options index (inletRadio c) (outletRadio c)
             (flowRadio c) (hidden c) (evapTempLabel c).

Definition set_selectedIndex (index : option nat) (c : Controls) : Controls :=
  set_fluidOptions (fluidOptions c) index c.

Definition set_inletRadio (mode : InletMode) (c : Controls) : Controls :=
  mkControls (activeTabs c) (fluidOptions c) (selectedIndex c) mode (outletRadio c)
             (flowRadio c) (hidden c) (evapTempLabel c).

Definition set_outletRadio (mode : OutletMode) (c : Controls) : Controls :=
  mkControls (activeTabs c) (fluidOptions c) (selectedIndex c) (inletRadio c) mode
             (flowRadio c) (hidden c) (evapTempLabel c).

Definition set_flowRadio (mode : FlowMode) (c : Controls) : Controls :=
  mkControls (activeTabs c) (fluidOptions c) (selectedIndex c) (inletRadio c)
             (outletRadio c) mode (hidden c) (evapTempLabel c).

Definition set_hidden (h : gset string) (c : Controls) : Controls :=
  mkControls (activeTabs c) (fluidOptions c) (selectedIndex c) (inletRadio c)
             (outletRadio c) (flowRadio c) h (evapTempLabel c).

Definition set_evapTempLabel (text : string) (c : Controls) : Controls :=
  mkControls (activeTabs c) (fluidOptions c) (selectedIndex c) (inletRadio c)
             (outletRadio c) (flowRadio c) (hidden c) text.

(** [classList.add], [classList.remove], [classList.toggle(_, force)] of
    the class [hidden] on the element [id]. *)
Definition classList_add (id : string) (c : Controls) : Controls :=
  set_hidden (hidden c ∪ {[ id ]}) c.

Definition classList_remove (id : string) (c : Controls) : Controls :=
  set_hidden (hidden c ∖ {[ id ]}) c.

Definition classList_toggle (id : string) (force : bool) (c : Controls) : Controls :=
  set_hidden (if force then hidden c ∪ {[ id ]} else hidden c ∖ {[ id ]}) c.

(** [fluidSelect.value]: the value of the selected option, empty when
    there is none. *)
Definition selectValue (c : Controls) : string :=
  match selectedIndex c with
  | Some i => match fluidOptions c !! i with Some (_, value) => value | None => "" end
  | None => ""
  end.

(** [updateFluidOptions()] *)
Definition updateFluidOptions (currentTab : Tab) (c : Controls) : Controls :=
  let fluids := fluidMaps currentTab in
  let c := set_fluidOptions fluids None c in
  if (0 <? length (fluidOptions c))%nat then set_selectedIndex (Some 0%nat) c else c.

(** [handleInletModeChange()] *)
Definition handleInletModeChange (c : Controls) : Controls :=
  let selectedMode := inletRadio c in
  let c := classList_toggle "inlet-mode-pt" (bool_decide (selectedMode <> pt)) c in
  classList_toggle "inlet-mode-tsup" (bool_decide (selectedMode <> tsup)) c.

(** [handleOutletModeChange()] *)
Definition handleOutletModeChange (c : Controls) : Controls :=
  let selectedMode := outletRadio c in
  let c := classList_toggle "outlet-mode-pressure" (bool_decide (selectedMode <> pressure)) c in
  classList_toggle "outlet-mode-cond-temp" (bool_decide (selectedMode <> tcond)) c.

(** [handleFlowModeChange()] *)
Definition handleFlowModeChange (c : Controls) : Controls :=
  let selectedMode := flowRadio c in
  let c := classList_add "mass-flow-inputs" c in
  let c := classList_add "displacement-flow-inputs" c in
  let c := classList_add "direct-volume-flow-inputs" c in
  match selectedMode with
  | mass => classList_remove "mass-flow-inputs" c
  | displacement => classList_remove "displacement-flow-inputs" c
  | volume => classList_remove "direct-volume-flow-inputs" c
  end.

(** [updateUIForTab()] *)
Definition updateUIForTab (m : Markup) (currentTab : Tab) (c : Controls) : Controls :=
  let isGas := isGasTab currentTab in
  let c := classList_toggle "inlet-mode-selector" isGas c in
  let c := classList_toggle "outlet-mode-selector" isGas c in
  let c :=
    if isGas then set_outletRadio (outlet_mode_p m) (set_inletRadio (mode_pt m) c)
    else set_evapTempLabel (if bool_decide (currentTab = orc) then "蒸发温度" else "饱和温度") c in
  let c := handleInletModeChange c in
  handleOutletModeChange c.

(** [handleTabClick(event)], where [clickedTab.dataset.tab] is [tab]. *)
Definition handleTabClick (m : Markup) (tab : Tab) (p : Page) : Page :=
  let c := set_activeTabs [] (controls p) in
  let c := set_activeTabs (activeTabs c ++ [tab]) c in
  let g := mkGlobals (CP (globals p)) tab in
  let c := updateFluidOptions (currentTab g) c in
  let c := updateUIForTab m (currentTab g) c in
  mkPage g c (world p).

(** The fields that [clearForm] sets by [value]. *)
Definition clearedValues : list (string * string) :=
  [ ("inlet-pressure", "20"); ("inlet-temperature", "150"); ("evap-temp", "120");
    ("superheat", "10"); ("outlet-pressure", "4"); ("condensing-temperature", "30");
    ("isentropic-efficiency", "85"); ("mass-flow", "1"); ("displacement", "500");
    ("rpm", "3000"); ("volumetric-efficiency", "90"); ("volume-flow-rate", "100");
    ("result-power", ""); ("result-mass-flow", ""); ("result-volume-flow", "") ].

(** [clearForm()] *)
Definition clearForm (m : Markup) (p : Page) : Page :=
  let w := foldl (fun w kv => set_doc (fst kv) (snd kv) w) (world p) clearedValues in
  let w := foldl (fun w cell => set_doc cell "--" w) w (tableCells m) in
  let c := set_inletRadio (mode_pt m) (controls p) in
  let c := set_outletRadio (outlet_mode_p m) c in
  let c := set_flowRadio (mode_mass m) c in
  let c := updateUIForTab m (currentTab (globals p)) c in
  let c := handleFlowModeChange c in
  let w := set_status_text "已清空。" w in
  let w := set_status_style "backgroundColor" "#f9f9f9" w in
  let w := set_status_style "color" "#555" w in
  let w := set_status_style "whiteSpace" "normal" w in
  mkPage (globals p) c w.

(** [initializeApp()]: the elements are looked up and the listeners
    bound, [initAppLogic()] is started, and the controls are brought in
    step with the tab.  [initAppLogic] is suspended at its [await]; what
    it does once the library has settled is the event [LoadSettled]
    below. *)
Definition initializeApp (m : Markup) (p : Page) : Page :=
  let tab := currentTab (globals p) in
  let c := updateUIForTab m tab (controls p) in
  let c := updateFluidOptions tab c in
  let c := handleInletModeChange c in
  let c := handleOutletModeChange c in
  let c := handleFlowModeChange c in
  mkPage (globals p) c (world p).

(** What [handleCalculation] reads of the controls.  The numbers of the
    form are [parseFloat] of texts that the user may have typed: they are
    not related to the page. *)
Definition reads (c : Controls) (form : Form) : Prop :=
  fluid_select form = selectValue c /\
  inlet_mode form = inletRadio c /\
  outlet_mode form = outletRadio c /\
  flow_mode form = flowRadio c.

Section Events.

Variable toFixed : float -> nat -> string.
Variable m : Markup.

(** One event of the page and the listener bound to it.  Choosing a
    fluid has no listener; the browser checks the radio before it runs
    the listener of [change]. *)
Inductive step : Page -> Page -> Prop :=
| TabClick (tab : Tab) (p : Page) :
    step p (handleTabClick m tab p)
| FluidChosen (i : nat) (p : Page) :
    (i < length (fluidOptions (controls p)))%nat ->
    step p (mkPage (globals p) (set_selectedIndex (Some i) (controls p)) (world p))
| InletModeChosen (mode : InletMode) (p : Page) :
    step p (mkPage (globals p)
                   (handleInletModeChange (set_inletRadio mode (controls p))) (world p))
| OutletModeChosen (mode : OutletMode) (p : Page) :
    step p (mkPage (globals p)
                   (handleOutletModeChange (set_outletRadio mode (controls p))) (world p))
| FlowModeChosen (mode : FlowMode) (p : Page) :
    step p (mkPage (globals p)
                   (handleFlowModeChange (set_flowRadio mode (controls p))) (world p))
| ClearClick (p : Page) :
    step p (clearForm m p)
| CalculateClick (form : Form) (p : Page) :
    reads (controls p) form ->
    step p (mkPage (globals p) (controls p)
                   (handleCalculation toFixed (globals p) form (world p)))
| LoadSettled (loaded : completion Oracle) (p : Page) :
    step p (mkPage (fst (initAppLogic loaded (globals p) (world p))) (controls p)
                   (snd (initAppLogic loaded (globals p) (world p)))).

(** The pages that the events lead to, from the page as loaded. *)
Definition reachable (p0 p : Page) : Prop := rtc step (initializeApp m p0) p.

End Events.

(** The controls are in step with the tab: the select offers the fluids
    of the tab and one of them is selected, the panel of each checked
    radio is the one shown, and the mode selectors are hidden on the gas
    tab only. *)
Definition synchronised (p : Page) : Prop :=
  let c := controls p in
  let tab := currentTab (globals p) in
  fluidOptions c = fluidMaps tab /\
  (exists i, selectedIndex c = Some i /\ (i < length (fluidOptions c))%nat) /\
  ("inlet-mode-pt" ∈ hidden c <-> inletRadio c <> pt) /\
  ("inlet-mode-tsup" ∈ hidden c <-> inletRadio c <> tsup) /\
  ("outlet-mode-pressure" ∈ hidden c <-> outletRadio c <> pressure) /\
  ("outlet-mode-cond-temp" ∈ hidden c <-> outletRadio c <> tcond) /\
  ("mass-flow-inputs" ∈ hidden c <-> flowRadio c <> mass) /\
  ("displacement-flow-inputs" ∈ hidden c <-> flowRadio c <> displacement) /\
  ("direct-volume-flow-inputs" ∈ hidden c <-> flowRadio c <> volume) /\
  ("inlet-mode-selector" ∈ hidden c <-> tab = gas) /\
  ("outlet-mode-selector" ∈ hidden c <-> tab = gas).

(** The page of index.html as the names of its ids have it, with the
    eighteen cells of the table. *)
Definition pageMarkup : Markup :=
  mkMarkup pt pressure mass
    [ "val-p1"; "val-t1"; "val-h1"; "val-s1"; "val-v1"; "val-x1";
      "val-p2s"; "val-t2s"; "val-h2s"; "val-s2s"; "val-v2s"; "val-x2s";
      "val-p2a"; "val-t2a"; "val-h2a"; "val-s2a"; "val-v2a"; "val-x2a" ].

Definition blankPage : Page :=
  mkPage initialGlobals (mkControls [orc] [] None pt pressure mass ∅ "")
         (mkWorld ∅ (mkStatusBar "" ∅) []).

(** A library that finds every state in the two-phase region. *)
Definition twoPhasePropsSI (out name1 : string) (value1 : float) (name2 : string)
    (value2 : float) (fluid : string) : completion float :=
  if String.eqb out "Phase" then Normal 3
  else if String.eqb out "Q" then Normal 0.5
  else if String.eqb out "P" then Normal (if value2 =? 1 then 1500000 else 300000)
  else if String.eqb out "D" then Normal 10
  else Normal 2500000.

Definition twoPhaseOracle : Oracle :=
  mkOracle twoPhasePropsSI (fun _ => Normal "6.4.1").

Definition withInletPressure (bar : float) (f : Form) : Form :=
  mkForm (fluid_select f) (inlet_mode f) (outlet_mode f) (flow_mode f) bar
         (inlet_temperature f) (evap_temp f) (superheat f) (outlet_pressure f)
         (condensing_temperature f) (isentropic_efficiency f) (mass_flow f)
         (displacement_cm3 f) (rpm_input f) (volumetric_efficiency f) (volume_flow_rate f).

Definition withFluid (fluid : string) (f : Form) : Form :=
  mkForm fluid (inlet_mode f) (outlet_mode f) (flow_mode f) (inlet_pressure f)
         (inlet_temperature f) (evap_temp f) (superheat f) (outlet_pressure f)
         (condensing_temperature f) (isentropic_efficiency f) (mass_flow f)
         (displacement_cm3 f) (rpm_input f) (volumetric_efficiency f) (volume_flow_rate f).

(** What the evaluation resolves from [defaultForm] with saturation
    temperature and superheat at the inlet and a condensing temperature
    at the outlet. *)
Definition saturationInputs : Inputs :=
  mkInputs 1500000 (120 + KELVIN_OFFSET + 10) 300000 (85 / 100.0).

(** ** Vocabulary of the further statements *)

(** The ids that [handleCalculation] writes on success, in the order of
    the writes: three summary fields, then three rows of six cells. *)
Definition outputIds : list string :=
  [ "result-power"; "result-mass-flow"; "result-volume-flow";
    "val-p1"; "val-t1"; "val-h1"; "val-s1"; "val-v1"; "val-x1";
    "val-p2s"; "val-t2s"; "val-h2s"; "val-s2s"; "val-v2s"; "val-x2s";
    "val-p2a"; "val-t2a"; "val-h2a"; "val-s2a"; "val-v2a"; "val-x2a" ].

(** A sequence of writes [id := text], first to last, and the text that
    the last write to [k] leaves, if any. *)
Definition applyWrites (ws : list (string * string)) (m : gmap string string)
    : gmap string string :=
  foldl (fun m kv => <[ fst kv := snd kv ]> m) m ws.

Definition lastWrite (k : string) (ws : list (string * string)) : option string :=
  foldl (fun acc kv => if String.eqb (fst kv) k then Some (snd kv) else acc) None ws.

(** A statement whose outcome and queries do not depend on the page. *)
Definition uniform {A} (m : M A) : Prop :=
  exists r qs, forall w, m w = (r, mkWorld (doc w) (statusBar w) (trace w ++ qs)).

(** A statement that writes nothing and issues at most [n] queries. *)
Definition atMostQueries {A} (n : nat) (m : M A) : Prop :=
  forall w, exists qs,
    snd (m w) = mkWorld (doc w) (statusBar w) (trace w ++ qs) /\ (length qs <= n)%nat.

(** The number of quality queries in a list of queries. *)
Definition countQuality (qs : list Query) : nat :=
  length (filter (fun q => String.eqb (q_out q) "Q" = true) qs).

(** The writes of [display], first to last. *)
Definition displayWrites (toFixed : float -> nat -> string) (tab : Tab)
    (i : Inputs) (sp : StatePoints) (fl : Flow) : list (string * string) :=
  [ ("result-power", toFixed (power_W fl / 1000.0) 2%nat);
    ("result-mass-flow", toFixed (massFlow_kg_s fl) 3%nat);
    ("result-volume-flow", toFixed (final_inlet_volume_flow_m3h fl) 2%nat);
    ("val-p1", toFixed (p1_pa i / 1e5) 2%nat);
    ("val-t1", toFixed (t1_k i - KELVIN_OFFSET) 2%nat);
    ("val-h1", toFixed (h1 sp / 1000.0) 2%nat);
    ("val-s1", toFixed (s1 sp / 1000.0) 4%nat);
    ("val-v1", toFixed (v1 sp) 5%nat);
    ("val-x1", formatPhase toFixed tab (phase1 sp) (x1 sp));
    ("val-p2s", toFixed (p2_pa i / 1e5) 2%nat);
    ("val-t2s", toFixed (t2s_k sp - KELVIN_OFFSET) 2%nat);
    ("val-h2s", toFixed (h2s sp / 1000.0) 2%nat);
    ("val-s2s", toFixed (s2s sp / 1000.0) 4%nat);
    ("val-v2s", toFixed (v2s sp) 5%nat);
    ("val-x2s", formatPhase toFixed tab (phase2s sp) (x2s sp));
    ("val-p2a", toFixed (p2_pa i / 1e5) 2%nat);
    ("val-t2a", toFixed (t2a_k sp - KELVIN_OFFSET) 2%nat);
    ("val-h2a", toFixed (h2a sp / 1000.0) 2%nat);
    ("val-s2a", toFixed (s2a sp / 1000.0) 4%nat);
    ("val-v2a", toFixed (v2a sp) 5%nat);
    ("val-x2a", formatPhase toFixed tab (phase2a sp) (x2a sp)) ].

(** The status bar after a text and some style properties were set. *)
Definition statusAfter (text : string) (styles : list (string * string))
    (sb : StatusBar) : StatusBar :=
  mkStatusBar text (applyWrites styles (style sb)).

Definition successStyles : list (string * string) :=
  [ ("backgroundColor", "#f6ffed"); ("color", "#389e0d") ].

Definition errorStyles : list (string * string) :=
  [ ("backgroundColor", "#fff1f0"); ("color", "#cf1322") ].

(** What [clearForm] writes: the fields, then the cells of the table; and
    the styles it leaves on the status bar. *)
Definition clearedWrites (m : Markup) : list (string * string) :=
  clearedValues ++ map (fun cell => (cell, "--")) (tableCells m).

Definition clearedStyles : list (string * string) :=
  [ ("backgroundColor", "#f9f9f9"); ("color", "#555"); ("whiteSpace", "normal") ].

(** What js/app.js computes from [defaultForm] in the displacement mode,
    with the table. *)
Definition jsDisplacementCalc : JsApp.Calc :=
  let flow := (500 / 1e6 * 3000 / 60.0 * (90 / 100.0))%float in
  let delta_h_a := ((2800000 - 2500000) * (85 / 100.0))%float in
  JsApp.mkCalc 20 150 4
    2800000 6500 (1.0 / 10) (-1)
    6500 2500000 420 (1.0 / 2.5) 0.95
    delta_h_a
    (2800000 - delta_h_a) 430 6600 (1.0 / 2) (-1)
    (flow / (1.0 / 10)) flow (flow / (1.0 / 10) * delta_h_a).

(** * Properties *)

(** ** Comparison of binary64 numbers *)

Module JSFacts.

Lemma SFcompare_Lt_Gt a b : SFcompare a b = Some Lt -> SFcompare b a = Some Gt.
Proof.
  destruct a as [sa|sa| |sa ma ea], b as [sb|sb| |sb mb eb]; simpl;
    try discriminate; try (destruct sa; discriminate || reflexivity);
    try (destruct sb; discriminate || reflexivity);
    try (destruct sa, sb; discriminate || reflexivity).
  rewrite (Z.compare_antisym ea eb), !Pos.compare_cont_spec.
  rewrite (Pos.compare_antisym ma mb).
  destruct sa, sb; try discriminate; try reflexivity;
    destruct (ea ?= eb)%Z; simpl; try discriminate; try reflexivity;
    destruct (ma ?= mb)%positive; simpl; discriminate || reflexivity.
Qed.

Lemma SFcompare_Lt_trans a b c :
  SFcompare a b = Some Lt -> SFcompare b c = Some Lt -> SFcompare a c = Some Lt.
Proof.
  destruct a as [sa|sa| |sa ma ea], b as [sb|sb| |sb mb eb], c as [sc|sc| |sc mc ec]; simpl;
    try discriminate;
    repeat match goal with s : bool |- _ => destruct s end;
    try discriminate; try reflexivity.
  all: rewrite !Pos.compare_cont_spec; simpl.
  all: destruct (Z.compare_spec ea eb), (Z.compare_spec eb ec), (Z.compare_spec ea ec);
    try discriminate; try reflexivity; try lia.
  all: destruct (Pos.compare_spec ma mb), (Pos.compare_spec mb mc), (Pos.compare_spec ma mc);
    simpl; try discriminate; try reflexivity; try lia.
Qed.

(** [x < y] excludes [x >= y]. *)
Lemma lt_not_ge x y : JS.lt x y = true -> JS.ge x y = false.
Proof.
  unfold JS.lt, JS.ge. rewrite FloatAxioms.ltb_spec, FloatAxioms.leb_spec. unfold SFltb, SFleb.
  destruct (SFcompare (Prim2SF x) (Prim2SF y)) as [[]|] eqn:E; try discriminate.
  intros _. now rewrite (SFcompare_Lt_Gt _ _ E).
Qed.

Lemma lt_trans x y z : JS.lt x y = true -> JS.lt y z = true -> JS.lt x z = true.
Proof.
  unfold JS.lt. rewrite !FloatAxioms.ltb_spec. unfold SFltb.
  destruct (SFcompare (Prim2SF x) (Prim2SF y)) as [[]|] eqn:E1; try discriminate.
  destruct (SFcompare (Prim2SF y) (Prim2SF z)) as [[]|] eqn:E2; try discriminate.
  now rewrite (SFcompare_Lt_trans _ _ _ E1 E2).
Qed.

(** [x === c] for a finite non-zero [c] leaves one value for [x]. *)
Lemma strict_eq_finite x c s m e :
  Prim2SF c = S754_finite s m e -> JS.strict_eq x c = true -> x = c.
Proof.
  intros Hc. unfold JS.strict_eq. rewrite FloatAxioms.eqb_spec. unfold SFeqb. rewrite Hc.
  destruct (Prim2SF x) as [sx|sx| |sx mx ex] eqn:Hx; simpl;
    try discriminate; try (destruct sx; discriminate); try (destruct s; discriminate).
  rewrite Pos.compare_cont_spec. simpl.
  intros H.
  assert (sx = s /\ ex = e /\ mx = m) as (-> & -> & ->).
  { destruct sx, s; try discriminate;
      destruct (Z.compare_spec ex e); try discriminate;
      destruct (Pos.compare_spec mx m); try discriminate; auto. }
  rewrite <- (SF2Prim_Prim2SF x), <- (SF2Prim_Prim2SF c). congruence.
Qed.

Lemma strict_eq_3 x : JS.strict_eq x 3 = true -> x = 3%float.
Proof. apply (strict_eq_finite x 3 false 6755399441055744%positive (-51)%Z). reflexivity. Qed.

Lemma isNaN_spec x : JS.isNaN x = true <-> Prim2SF x = S754_nan.
Proof.
  unfold JS.isNaN, is_nan. rewrite FloatAxioms.eqb_spec. unfold SFeqb.
  destruct (Prim2SF x) as [s|s| |s m e]; simpl.
  - split; discriminate.
  - destruct s; split; discriminate.
  - tauto.
  - rewrite Pos.compare_cont_spec, Z.compare_refl, Pos.compare_refl.
    destruct s; split; discriminate.
Qed.

Lemma binary_round_aux_sign prec emax s m e l :
  match binary_round_aux prec emax s m e l with
  | S754_zero s' | S754_infinity s' | S754_finite s' _ _ => s' = s
  | S754_nan => True
  end.
Proof.
  unfold binary_round_aux.
  destruct (shr_fexp prec emax m e l) as [mrs' e'].
  destruct (shr_fexp prec emax _ e' loc_Exact) as [mrs'' e''].
  destruct (shr_m mrs''); auto.
  destruct (e'' <=? emax - prec)%Z; auto.
Qed.

(** A percentage that is zero or negative stays so as a fraction. *)
Lemma percent_nonpositive x :
  JS.le x 0 = true -> JS.isNaN (x / 100.0) = false -> JS.le (x / 100.0) 0 = true.
Proof.
  intros Hx Hn.
  assert (Prim2SF (x / 100.0) <> S754_nan) as Hn'.
  { intros E. apply isNaN_spec in E. congruence. }
  clear Hn. revert Hx Hn'. unfold JS.le. rewrite !FloatAxioms.leb_spec, FloatAxioms.div_spec. unfold SFleb.
  change (Prim2SF 0) with (S754_zero false).
  change (Prim2SF 100.0) with (S754_finite false 7036874417766400 (-46)).
  destruct (Prim2SF x) as [s|s| |s m e]; simpl; try discriminate; auto.
  - destruct s; simpl; discriminate || auto.
  - destruct s; try discriminate. intros _.
    unfold SF64div, SFdiv.
    destruct (SFdiv_core_binary _ _ _ _ _ _) as [[mz ez] lz].
    pose proof (binary_round_aux_sign prec emax (xorb true false) mz ez lz) as Hs.
    destruct (binary_round_aux prec emax (xorb true false) mz ez lz);
      simpl in *; subst; auto.
Qed.

(** A number that is zero or negative is a number. *)
Lemma le_not_NaN x y : JS.le x y = true -> JS.isNaN x = false.
Proof.
  unfold JS.le. rewrite FloatAxioms.leb_spec. unfold SFleb. intros H.
  destruct (JS.isNaN x) eqn:E; [|reflexivity].
  apply isNaN_spec in E. rewrite E in H. discriminate.
Qed.

(** Multiplication commutes, also where it rounds. *)
Lemma mul_comm (x y : float) : (x * y = y * x)%float.
Proof.
  rewrite <- (SF2Prim_Prim2SF (x * y)), <- (SF2Prim_Prim2SF (y * x)), !mul_spec.
  f_equal. unfold SF64mul.
  destruct (Prim2SF x) as [sx|sx| |sx mx ex], (Prim2SF y) as [sy|sy| |sy my ey]; simpl;
    try reflexivity; try (now rewrite xorb_comm).
  now rewrite xorb_comm, Pos.mul_comm, Z.add_comm.
Qed.

End JSFacts.

(** ** Sequencing *)

Lemma bind_Normal {A B} (m : M A) (k : A -> M B) w a w1 :
  m w = (Normal a, w1) -> bind m k w = k a w1.
Proof. unfold bind. now intros ->. Qed.

Lemma bind_Throw {A B} (m : M A) (k : A -> M B) w e w1 :
  m w = (Throw e, w1) -> bind m k w = (Throw e, w1).
Proof. unfold bind. now intros ->. Qed.

Lemma bind_Normal_inv {A B} (m : M A) (k : A -> M B) w b w' :
  bind m k w = (Normal b, w') ->
  exists a w1, m w = (Normal a, w1) /\ k a w1 = (Normal b, w').
Proof.
  unfold bind. destruct (m w) as [[a|e] w1]; [eauto | discriminate].
Qed.

Lemma bind_Throw_inv {A B} (m : M A) (k : A -> M B) w e w' :
  bind m k w = (Throw e, w') ->
  m w = (Throw e, w') \/ exists a w1, m w = (Normal a, w1) /\ k a w1 = (Throw e, w').
Proof.
  unfold bind. destruct (m w) as [[a|e1] w1]; [eauto | intros [= -> ->]; auto].
Qed.

Lemma onlyQueries_ret {A} (a : A) : onlyQueries (ret a).
Proof. intros [d sb t]. exists []. simpl. now rewrite app_nil_r. Qed.

Lemma onlyQueries_throw {A} e : onlyQueries (@throw A e).
Proof. intros [d sb t]. exists []. simpl. now rewrite app_nil_r. Qed.

Lemma onlyQueries_callPropsSI cp out n1 x1 n2 x2 fluid :
  onlyQueries (callPropsSI cp out n1 x1 n2 x2 fluid).
Proof. intros w. eexists. reflexivity. Qed.

Lemma onlyQueries_bind {A B} (m : M A) (k : A -> M B) :
  onlyQueries m -> (forall a, onlyQueries (k a)) -> onlyQueries (bind m k).
Proof.
  intros Hm Hk w. unfold bind. destruct (Hm w) as [qs Hqs].
  destruct (m w) as [[a|e] w1]; simpl in Hqs; subst w1.
  - destruct (Hk a (mkWorld (doc w) (statusBar w) (trace w ++ qs))) as [qs' ->].
    exists (qs ++ qs'). simpl. now rewrite app_assoc.
  - now exists qs.
Qed.

Ltac only_queries :=
  repeat first
    [ progress unfold resolveInputs, checkFluid, resolveInlet, resolveOutlet,
        checkEfficiency, checkPressure, statePoints, qualityAt, flowAndPower,
        resolveMassFlow
    | progress cbv zeta
    | apply onlyQueries_ret
    | apply onlyQueries_throw
    | apply onlyQueries_callPropsSI
    | apply onlyQueries_bind; [| intros ?]
    | match goal with
      | |- onlyQueries (if ?b then _ else _) => destruct b
      | |- onlyQueries (match ?x with _ => _ end) => destruct x
      end ].

Section Stages.

Variable toFixed : float -> nat -> string.
Variable cp : Oracle.
Variable tab : Tab.
Variable form : Form.

Lemma resolveInlet_onlyQueries : onlyQueries (resolveInlet cp tab form).
Proof. unfold resolveInlet. cbv zeta. only_queries. Qed.

Lemma resolveOutlet_onlyQueries : onlyQueries (resolveOutlet cp tab form).
Proof. unfold resolveOutlet. cbv zeta. only_queries. Qed.

Lemma resolveInputs_onlyQueries : onlyQueries (resolveInputs toFixed cp tab form).
Proof.
  unfold resolveInputs, checkFluid, checkEfficiency, checkPressure. cbv zeta.
  only_queries; auto using resolveInlet_onlyQueries, resolveOutlet_onlyQueries.
Qed.

Lemma statePoints_onlyQueries i : onlyQueries (statePoints cp form i).
Proof. unfold statePoints, qualityAt. cbv zeta. only_queries. Qed.

Lemma flowAndPower_onlyQueries sp : onlyQueries (flowAndPower form sp).
Proof. unfold flowAndPower, resolveMassFlow. cbv zeta. only_queries. Qed.

(** Nothing is written before the evaluation proper has finished. *)
Lemma evaluate_onlyQueries : onlyQueries (evaluate toFixed cp tab form).
Proof.
  unfold evaluate.
  only_queries;
    auto using resolveInputs_onlyQueries, statePoints_onlyQueries, flowAndPower_onlyQueries.
Qed.

(** The writes cannot throw, and issue no query. *)
Lemma display_Normal i sp fl w :
  fst (display toFixed tab i sp fl w) = Normal tt.
Proof. reflexivity. Qed.

Lemma display_trace i sp fl w :
  trace (snd (display toFixed tab i sp fl w)) = trace w.
Proof. reflexivity. Qed.

Lemma display_status i sp fl w :
  textContent (statusBar (snd (display toFixed tab i sp fl w))) = "计算完成。".
Proof. reflexivity. Qed.

(** A throw of the [try] block is a throw of the evaluation proper. *)
Lemma tryBlock_Throw_inv w message w1 :
  tryBlock toFixed cp tab form w = (Throw message, w1) ->
  evaluate toFixed cp tab form w = (Throw message, w1).
Proof.
  unfold tryBlock. intros H. apply bind_Throw_inv in H as [H | (r & w2 & _ & H)]; [exact H|].
  pose proof (display_Normal (fst (fst r)) (snd (fst r)) (snd r) w2) as HN.
  rewrite H in HN. discriminate.
Qed.

Lemma tryBlock_Throw w message w1 :
  evaluate toFixed cp tab form w = (Throw message, w1) ->
  tryBlock toFixed cp tab form w = (Throw message, w1).
Proof. intros H. unfold tryBlock. now rewrite (bind_Throw _ _ _ _ _ H). Qed.

Lemma tryBlock_Normal w i sp fl w1 :
  evaluate toFixed cp tab form w = (Normal (i, sp, fl), w1) ->
  tryBlock toFixed cp tab form w = display toFixed tab i sp fl w1.
Proof. intros H. unfold tryBlock. now rewrite (bind_Normal _ _ _ _ _ H). Qed.

(** What [catch] leaves: the page as the throw found it, with the error
    in the status bar. *)
Lemma catchBlock_spec message w :
  let w' := snd (catchBlock message w) in
  doc w' = doc w /\ trace w' = trace w /\ showsError message w'.
Proof. repeat split. Qed.

End Stages.

(** ** The evaluation is all-or-nothing *)

(** C9. Atomicity of the evaluation: whenever a step of the [try] block
    throws (an input check, the pressure-order check or a property query),
    no result field or table cell is written: the displayed outputs are
    what they were before the click, and the error message is shown in
    the status bar. *)
Theorem evaluation_all_or_nothing
    (toFixed : float -> nat -> string) (g : Globals) (cp : Oracle) (form : Form)
    (w : World) (message : string) :
  CP g = Some cp ->
  fst (tryBlock toFixed cp (currentTab g) form w) = Throw message ->
  doc (handleCalculation toFixed g form w) = doc w /\
  showsError message (handleCalculation toFixed g form w).
Proof.
  intros HCP Hthrow. unfold handleCalculation, tryCatch. rewrite HCP.
  destruct (tryBlock toFixed cp (currentTab g) form w) as [[[]|e] w1] eqn:E;
    simpl in Hthrow; [discriminate|].
  injection Hthrow as ->.
  apply tryBlock_Throw_inv in E.
  destruct (evaluate_onlyQueries toFixed cp (currentTab g) form w) as [qs Hqs].
  rewrite E in Hqs. simpl in Hqs. subst w1.
  split; reflexivity.
Qed.

(** A library that rejects the inlet state: the page keeps its fields. *)
Lemma evaluation_all_or_nothing_witness :
  doc (handleCalculation toFixed_ecma (mkGlobals (Some failingOracle) steam)
         defaultForm clearedWorld) = doc clearedWorld /\
  showsError "PropsSI: state out of range"
    (handleCalculation toFixed_ecma (mkGlobals (Some failingOracle) steam)
       defaultForm clearedWorld).
Proof.
  apply (evaluation_all_or_nothing toFixed_ecma (mkGlobals (Some failingOracle) steam)
           failingOracle defaultForm clearedWorld "PropsSI: state out of range");
    reflexivity.
Defined.

(** A successful evaluation ends with the success text. *)
Lemma handleCalculation_success toFixed g cp form w i sp fl w1 :
  CP g = Some cp ->
  evaluate toFixed cp (currentTab g) form w = (Normal (i, sp, fl), w1) ->
  handleCalculation toFixed g form w = snd (display toFixed (currentTab g) i sp fl w1).
Proof.
  intros HCP H. unfold handleCalculation, tryCatch. rewrite HCP.
  rewrite (tryBlock_Normal _ _ _ _ _ _ _ _ _ H). reflexivity.
Qed.

(** A failed evaluation ends in [catch]. *)
Lemma handleCalculation_failure toFixed g cp form w message w1 :
  CP g = Some cp ->
  evaluate toFixed cp (currentTab g) form w = (Throw message, w1) ->
  handleCalculation toFixed g form w = snd (catchBlock message w1).
Proof.
  intros HCP H. unfold handleCalculation, tryCatch. rewrite HCP.
  rewrite (tryBlock_Throw _ _ _ _ _ _ _ H). reflexivity.
Qed.

(** ** The not-ready guard *)

(** C10. Not-ready guard: while the handle [CP] of the property library
    is unset, a click on the button only reports that the library has not
    finished loading: no query is issued and no result is written. *)
Theorem not_ready_guard
    (toFixed : float -> nat -> string) (g : Globals) (form : Form) (w : World) :
  CP g = None ->
  textContent (statusBar (handleCalculation toFixed g form w)) = notReadyMessage /\
  trace (handleCalculation toFixed g form w) = trace w /\
  doc (handleCalculation toFixed g form w) = doc w.
Proof.
  intros HCP. unfold handleCalculation. rewrite HCP. repeat split.
Qed.

(** A click before the library has been loaded. *)
Lemma not_ready_guard_witness :
  textContent (statusBar (handleCalculation toFixed_ecma initialGlobals defaultForm
                            clearedWorld)) = notReadyMessage /\
  trace (handleCalculation toFixed_ecma initialGlobals defaultForm clearedWorld)
    = trace clearedWorld /\
  doc (handleCalculation toFixed_ecma initialGlobals defaultForm clearedWorld)
    = doc clearedWorld.
Proof.
  apply (not_ready_guard toFixed_ecma initialGlobals defaultForm clearedWorld).
  reflexivity.
Defined.

(** The handle is unset at start-up and stays unset when loading fails. *)
Lemma initAppLogic_failed_load message w :
  CP (fst (initAppLogic (Throw message) initialGlobals w)) = None.
Proof. reflexivity. Qed.

(** It is set as soon as loading has succeeded. *)
Lemma initAppLogic_loaded cp g w :
  CP (fst (initAppLogic (Normal cp) g w)) = Some cp.
Proof. unfold initAppLogic. destruct (get_global_param_string cp "version"); reflexivity. Qed.

(** ** What a successful evaluation has computed *)

Lemma callPropsSI_Normal_inv cp out n1 x1 n2 x2 fluid w a w1 :
  callPropsSI cp out n1 x1 n2 x2 fluid w = (Normal a, w1) ->
  PropsSI cp out n1 x1 n2 x2 fluid = Normal a /\
  w1 = log_query (mkQuery out n1 x1 n2 x2 fluid) w.
Proof. unfold callPropsSI. now intros [= -> <-]. Qed.

Lemma ret_Normal_inv {A} (a b : A) w w1 : ret a w = (Normal b, w1) -> a = b /\ w1 = w.
Proof. unfold ret. now intros [= -> ->]. Qed.

Lemma qualityAt_Normal_inv cp form phase n1 x1 n2 x2 w x w1 :
  qualityAt cp form phase n1 x1 n2 x2 w = (Normal x, w1) ->
  x = (if JS.strict_eq phase 3
       then match PropsSI cp "Q" n1 x1 n2 x2 (fluid_select form) with
            | Normal q => q
            | Throw _ => x
            end
       else (-1)%float) /\
  trace w1 = trace w ++ qualityQuery phase n1 x1 n2 x2 (fluid_select form) /\
  doc w1 = doc w /\ statusBar w1 = statusBar w.
Proof.
  unfold qualityAt, qualityQuery, fluidName. destruct (JS.strict_eq phase 3).
  - intros H. apply callPropsSI_Normal_inv in H as [-> ->]. repeat split.
  - intros H. apply ret_Normal_inv in H as [<- ->]. simpl. now rewrite app_nil_r.
Qed.

Ltac invert_steps :=
  repeat match goal with
    | H : bind _ _ _ = (Normal _, _) |- _ =>
        let a := fresh "a" in let w := fresh "w" in let Ha := fresh "Ha" in
        apply bind_Normal_inv in H as (a & w & Ha & H)
    | H : callPropsSI _ _ _ _ _ _ _ _ = (Normal _, _) |- _ =>
        let E := fresh "E" in apply callPropsSI_Normal_inv in H as [E ->]
    | H : ret _ _ = (Normal _, _) |- _ =>
        let E := fresh "E" in apply ret_Normal_inv in H as [E ->]; simplify_eq
    | H : qualityAt _ _ _ _ _ _ _ _ = (Normal _, _) |- _ =>
        let T := fresh "T" in let D := fresh "D" in let B := fresh "B" in
        apply qualityAt_Normal_inv in H as (_ & T & D & B)
    end.

Ltac rewrite_worlds :=
  simpl;
  repeat match goal with
    | H : trace ?w = _ |- context [trace ?w] => rewrite H; simpl
    | H : doc ?w = _ |- context [doc ?w] => rewrite H; simpl
    | H : statusBar ?w = _ |- context [statusBar ?w] => rewrite H; simpl
    end.

Section Success.

Variable toFixed : float -> nat -> string.
Variable cp : Oracle.
Variable tab : Tab.
Variable form : Form.

Local Open Scope float_scope.

(** A resolved inlet has issued its lookup, if its mode has one. *)
Lemma resolveInlet_Normal_inv w inlet w1 :
  resolveInlet cp tab form w = (Normal inlet, w1) ->
  trace w1 = trace w ++ inletLookup tab form /\
  doc w1 = doc w /\ statusBar w1 = statusBar w.
Proof.
  unfold resolveInlet, inletLookup, directInlet, fluidName. cbv zeta.
  destruct (isGasTab tab || _).
  - destruct (JS.isNaN _ || _); [discriminate|].
    intros H. invert_steps. now rewrite app_nil_r.
  - destruct (JS.isNaN _ || _); [discriminate|].
    intros H. invert_steps. repeat split.
Qed.

Lemma resolveOutlet_Normal_inv w p2 w1 :
  resolveOutlet cp tab form w = (Normal p2, w1) ->
  trace w1 = trace w ++ outletLookup tab form /\
  doc w1 = doc w /\ statusBar w1 = statusBar w.
Proof.
  unfold resolveOutlet, outletLookup, directOutlet, fluidName. cbv zeta.
  destruct (isGasTab tab || _).
  - destruct (JS.isNaN _); [discriminate|].
    intros H. invert_steps. now rewrite app_nil_r.
  - destruct (JS.isNaN _); [discriminate|].
    intros H. invert_steps. repeat split.
Qed.

(** Inputs that were resolved have passed every check. *)
Lemma resolveInputs_Normal_inv w i w1 :
  resolveInputs toFixed cp tab form w = (Normal i, w1) ->
  includes (validFluids tab) (fluid_select form) = true /\
  (exists w0, resolveInlet cp tab form w = (Normal (p1_pa i, t1_k i), w0) /\
              resolveOutlet cp tab form w0 = (Normal (p2_pa i), w1)) /\
  eta_s i = isentropic_efficiency form / 100.0 /\
  efficiencyInvalid (eta_s i) = false /\
  JS.ge (p2_pa i) (p1_pa i) = false /\
  trace w1 = trace w ++ saturationLookups tab form /\
  doc w1 = doc w /\ statusBar w1 = statusBar w.
Proof.
  unfold resolveInputs, checkFluid, checkEfficiency, checkPressure, fluidName. cbv zeta.
  intros H. apply bind_Normal_inv in H as ([] & w0 & Hfluid & H).
  destruct (includes _ _); [|discriminate]. apply ret_Normal_inv in Hfluid as [_ ->].
  apply bind_Normal_inv in H as ([p1 t1] & wi & Hinlet & H).
  apply bind_Normal_inv in H as (p2 & wo & Houtlet & H).
  apply bind_Normal_inv in H as (eta & we & Heta & H).
  destruct (efficiencyInvalid _) eqn:Einv; [discriminate|].
  apply ret_Normal_inv in Heta as [<- ->].
  apply bind_Normal_inv in H as ([] & wp & Hp & H). simpl in Hp.
  destruct (JS.ge p2 p1) eqn:Ege; [discriminate|].
  apply ret_Normal_inv in Hp as [_ ->]. apply ret_Normal_inv in H as [<- ->]. simpl.
  pose proof (resolveInlet_Normal_inv _ _ _ Hinlet) as (Ti & Di & Bi).
  pose proof (resolveOutlet_Normal_inv _ _ _ Houtlet) as (To & Do & Bo).
  repeat split; eauto.
  - unfold saturationLookups. now rewrite To, Ti, app_assoc.
  - congruence.
  - congruence.
Qed.

(** The state points are the library's answers, and the queries are the
    expected ones, in order. *)
Lemma statePoints_Normal_inv i w sp w1 :
  statePoints cp form i w = (Normal sp, w1) ->
  let fluid := fluid_select form in
  (PropsSI cp "H" "P" (p1_pa i) "T" (t1_k i) fluid = Normal (h1 sp) /\
   PropsSI cp "S" "P" (p1_pa i) "T" (t1_k i) fluid = Normal (s1 sp) /\
   (exists d1, PropsSI cp "D" "P" (p1_pa i) "T" (t1_k i) fluid = Normal d1 /\
               v1 sp = 1.0 / d1) /\
   PropsSI cp "Phase" "P" (p1_pa i) "T" (t1_k i) fluid = Normal (phase1 sp)) /\
  (s2s sp = s1 sp /\
   PropsSI cp "H" "P" (p2_pa i) "S" (s1 sp) fluid = Normal (h2s sp) /\
   PropsSI cp "T" "P" (p2_pa i) "S" (s1 sp) fluid = Normal (t2s_k sp) /\
   (exists d2s, PropsSI cp "D" "P" (p2_pa i) "S" (s1 sp) fluid = Normal d2s /\
                v2s sp = 1.0 / d2s) /\
   PropsSI cp "Phase" "P" (p2_pa i) "S" (s1 sp) fluid = Normal (phase2s sp)) /\
  (h2a sp = h1 sp - (h1 sp - h2s sp) * eta_s i /\
   PropsSI cp "T" "P" (p2_pa i) "H" (h2a sp) fluid = Normal (t2a_k sp) /\
   PropsSI cp "S" "P" (p2_pa i) "H" (h2a sp) fluid = Normal (s2a sp) /\
   (exists d2a, PropsSI cp "D" "P" (p2_pa i) "H" (h2a sp) fluid = Normal d2a /\
                v2a sp = 1.0 / d2a) /\
   PropsSI cp "Phase" "P" (p2_pa i) "H" (h2a sp) fluid = Normal (phase2a sp)) /\
  trace w1 = trace w ++ statePointQueries fluid i sp /\
  doc w1 = doc w /\ statusBar w1 = statusBar w.
Proof.
  unfold statePoints, fluidName. cbv zeta. intros H. invert_steps.
  simpl. repeat split; eauto.
  - rewrite_worlds. unfold statePointQueries, stateQueries. simpl.
    rewrite <- !app_assoc. reflexivity.
  - now rewrite_worlds.
  - now rewrite_worlds.
Qed.

(** The flow step issues no query and writes nothing. *)
Lemma flowAndPower_Normal_inv sp w fl w1 :
  flowAndPower form sp w = (Normal fl, w1) ->
  resolveMassFlow form (v1 sp) w = (Normal (massFlow_kg_s fl), w) /\
  power_W fl = massFlow_kg_s fl * (h1 sp - h2a sp) /\
  final_inlet_volume_flow_m3h fl = massFlow_kg_s fl * v1 sp * 3600 /\
  w1 = w.
Proof.
  unfold flowAndPower. cbv zeta. intros H. invert_steps. simpl.
  assert (w0 = w) as ->; [|auto].
  revert Ha. unfold resolveMassFlow. cbv zeta.
  repeat match goal with
    | |- context [match ?x with _ => _ end] => destruct x
    end; unfold ret, throw; congruence.
Qed.

(** The three steps of a successful evaluation. *)
Lemma evaluate_Normal_inv w i sp fl w1 :
  evaluate toFixed cp tab form w = (Normal (i, sp, fl), w1) ->
  exists w0,
    resolveInputs toFixed cp tab form w = (Normal i, w0) /\
    statePoints cp form i w0 = (Normal sp, w1) /\
    flowAndPower form sp w1 = (Normal fl, w1).
Proof.
  unfold evaluate. intros H. invert_steps.
  match goal with
  | F : flowAndPower _ _ _ = _ |- _ =>
      pose proof (flowAndPower_Normal_inv _ _ _ _ F) as (_ & _ & _ & E); subst
  end.
  eauto.
Qed.

End Success.

(** ** The actual outlet state *)

(** C3. For every evaluation whose inputs pass validation and whose
    state-point queries are answered, with H1 the library's enthalpy at
    the inlet state (P1, T1), S1 its entropy there and H2s its enthalpy at
    (P2, S1): the actual outlet enthalpy is H2a = H1 - eta * (H1 - H2s),
    eta being the efficiency input divided by 100, and the actual outlet
    temperature, entropy, density (whose reciprocal is the specific
    volume) and phase index are the library's answers at (P2, H2a),
    queried in that order after the inlet and isentropic-outlet queries. *)
Theorem actual_outlet_state
    (toFixed : float -> nat -> string) (cp : Oracle) (tab : Tab) (form : Form)
    (w w0 w1 : World) (i : Inputs) (sp : StatePoints) :
  resolveInputs toFixed cp tab form w = (Normal i, w0) ->
  statePoints cp form i w0 = (Normal sp, w1) ->
  let fluid := fluid_select form in
  eta_s i = (isentropic_efficiency form / 100.0)%float /\
  PropsSI cp "H" "P" (p1_pa i) "T" (t1_k i) fluid = Normal (h1 sp) /\
  PropsSI cp "S" "P" (p1_pa i) "T" (t1_k i) fluid = Normal (s1 sp) /\
  PropsSI cp "H" "P" (p2_pa i) "S" (s1 sp) fluid = Normal (h2s sp) /\
  h2a sp = (h1 sp - eta_s i * (h1 sp - h2s sp))%float /\
  PropsSI cp "T" "P" (p2_pa i) "H" (h2a sp) fluid = Normal (t2a_k sp) /\
  PropsSI cp "S" "P" (p2_pa i) "H" (h2a sp) fluid = Normal (s2a sp) /\
  (exists d2a, PropsSI cp "D" "P" (p2_pa i) "H" (h2a sp) fluid = Normal d2a /\
               v2a sp = (1.0 / d2a)%float) /\
  PropsSI cp "Phase" "P" (p2_pa i) "H" (h2a sp) fluid = Normal (phase2a sp) /\
  trace w1 = trace w ++ saturationLookups tab form ++ statePointQueries fluid i sp.
Proof.
  intros Hi Hsp fluid.
  apply resolveInputs_Normal_inv in Hi as (_ & _ & Heta & _ & _ & T0 & _).
  apply statePoints_Normal_inv in Hsp
    as ((H1 & S1 & _) & (_ & H2s & _) & (H2a & T2a & S2a & D2a & P2a) & T1 & _).
  rewrite (JSFacts.mul_comm (eta_s i)).
  repeat split; auto.
  rewrite T1, T0. now rewrite app_assoc.
Qed.

(** The default form on the steam tab: 2800 and 2500 kJ/kg at 85 %. *)
Lemma actual_outlet_state_witness :
  resolveInputs toFixed_ecma tableOracle steam defaultForm clearedWorld
    = (Normal defaultInputs, clearedWorld) /\
  statePoints tableOracle defaultForm defaultInputs clearedWorld
    = (Normal defaultStatePoints, defaultQueried) /\
  h2a defaultStatePoints
    = (h1 defaultStatePoints
       - eta_s defaultInputs * (h1 defaultStatePoints - h2s defaultStatePoints))%float /\
  PropsSI tableOracle "T" "P" (p2_pa defaultInputs) "H" (h2a defaultStatePoints) "Water"
    = Normal (t2a_k defaultStatePoints) /\
  PropsSI tableOracle "S" "P" (p2_pa defaultInputs) "H" (h2a defaultStatePoints) "Water"
    = Normal (s2a defaultStatePoints).
Proof.
  assert (resolveInputs toFixed_ecma tableOracle steam defaultForm clearedWorld
          = (Normal defaultInputs, clearedWorld)) as Ei by (vm_compute; reflexivity).
  assert (statePoints tableOracle defaultForm defaultInputs clearedWorld
          = (Normal defaultStatePoints, defaultQueried)) as Es by (vm_compute; reflexivity).
  split; [exact Ei|]. split; [exact Es|].
  destruct (actual_outlet_state toFixed_ecma tableOracle steam defaultForm clearedWorld
              clearedWorld defaultQueried defaultInputs defaultStatePoints Ei Es)
    as (_ & _ & _ & _ & H2a & T2a & S2a & _).
  auto.
Defined.

(** ** Power and flows *)

Ltac lookup_written :=
  cbv [display bind setValue updateCell setStatusText setStatusStyle set_doc
       set_status_text set_status_style snd fst doc statusBar trace];
  repeat (rewrite lookup_insert_ne by discriminate);
  rewrite lookup_insert_eq; reflexivity.

(** The three summary fields after the writes. *)
Lemma display_summary toFixed tab i sp fl w :
  let w' := snd (display toFixed tab i sp fl w) in
  doc w' !! "result-power" = Some (toFixed (power_W fl / 1000.0)%float 2%nat) /\
  doc w' !! "result-mass-flow" = Some (toFixed (massFlow_kg_s fl) 3%nat) /\
  doc w' !! "result-volume-flow" = Some (toFixed (final_inlet_volume_flow_m3h fl) 2%nat).
Proof. repeat split; lookup_written. Qed.

(** C4. For every successful evaluation, whatever the flow mode, the
    shaft power is the resolved mass flow times the actual enthalpy drop
    H1 - H2a, and the inlet volumetric flow is the resolved mass flow times
    the inlet specific volume; the page reports the power in kW
    ([result-power], two decimals) and the inlet volumetric flow in m3/h
    ([result-volume-flow], two decimals), next to the mass flow itself. *)
Theorem power_and_inlet_volume_flow
    (toFixed : float -> nat -> string) (g : Globals) (cp : Oracle) (form : Form)
    (w w1 : World) (i : Inputs) (sp : StatePoints) (fl : Flow) :
  CP g = Some cp ->
  evaluate toFixed cp (currentTab g) form w = (Normal (i, sp, fl), w1) ->
  power_W fl = (massFlow_kg_s fl * (h1 sp - h2a sp))%float /\
  final_inlet_volume_flow_m3h fl = (massFlow_kg_s fl * v1 sp * 3600)%float /\
  doc (handleCalculation toFixed g form w) !! "result-power"
    = Some (toFixed (massFlow_kg_s fl * (h1 sp - h2a sp) / 1000.0)%float 2%nat) /\
  doc (handleCalculation toFixed g form w) !! "result-volume-flow"
    = Some (toFixed (massFlow_kg_s fl * v1 sp * 3600)%float 2%nat) /\
  doc (handleCalculation toFixed g form w) !! "result-mass-flow"
    = Some (toFixed (massFlow_kg_s fl) 3%nat).
Proof.
  intros HCP H.
  rewrite (handleCalculation_success _ _ _ _ _ _ _ _ _ HCP H).
  apply evaluate_Normal_inv in H as (w0 & _ & _ & Hfl).
  apply flowAndPower_Normal_inv in Hfl as (_ & HP & HV & _).
  pose proof (display_summary toFixed (currentTab g) i sp fl w1) as (DP & DM & DV).
  rewrite HP in DP. rewrite HV in DV. auto.
Qed.

(** The default form: 1 kg/s over 255 kJ/kg, 0.1 m3/kg at the inlet. *)
Lemma power_and_inlet_volume_flow_witness :
  evaluate toFixed_ecma tableOracle steam defaultForm clearedWorld
    = (Normal (defaultInputs, defaultStatePoints, defaultFlow), defaultQueried) /\
  power_W defaultFlow = 255000%float /\
  doc (handleCalculation toFixed_ecma (readyGlobals steam) defaultForm clearedWorld)
    !! "result-power" = Some "255.00" /\
  doc (handleCalculation toFixed_ecma (readyGlobals steam) defaultForm clearedWorld)
    !! "result-volume-flow" = Some "360.00".
Proof.
  assert (evaluate toFixed_ecma tableOracle steam defaultForm clearedWorld
          = (Normal (defaultInputs, defaultStatePoints, defaultFlow), defaultQueried)) as E
    by (vm_compute; reflexivity).
  split; [exact E|].
  destruct (power_and_inlet_volume_flow toFixed_ecma (readyGlobals steam) tableOracle
              defaultForm clearedWorld defaultQueried defaultInputs defaultStatePoints
              defaultFlow eq_refl E) as (HP & _ & DP & DV & _).
  split; [reflexivity | split; [rewrite DP | rewrite DV]]; vm_compute; reflexivity.
Defined.



(** ** Unit efficiency *)

(** C7, as the code has it. For every successful evaluation whose
    efficiency is 1 (an input of 100 %): the actual outlet enthalpy is
    H1 - (H1 - H2s) * 1 in binary64 arithmetic.  When that value is H2s
    itself, the actual outlet temperature and entropy are the library's
    answers at (P2, H2s); they are T2s and S1 when the library answers the
    (P2, H) queries at H2s as it answered the (P2, S) queries at S1.  That
    the library is a function of its arguments does not give this. *)
Theorem unit_efficiency_outlet
    (toFixed : float -> nat -> string) (cp : Oracle) (tab : Tab) (form : Form)
    (w w1 : World) (i : Inputs) (sp : StatePoints) (fl : Flow) :
  evaluate toFixed cp tab form w = (Normal (i, sp, fl), w1) ->
  eta_s i = 1%float ->
  let fluid := fluid_select form in
  h2a sp = (h1 sp - (h1 sp - h2s sp) * 1)%float /\
  (h2a sp = h2s sp ->
   (PropsSI cp "T" "P" (p2_pa i) "H" (h2s sp) fluid
      = PropsSI cp "T" "P" (p2_pa i) "S" (s1 sp) fluid ->
    t2a_k sp = t2s_k sp) /\
   (PropsSI cp "S" "P" (p2_pa i) "H" (h2s sp) fluid = Normal (s1 sp) ->
    s2a sp = s1 sp)).
Proof.
  intros H Hone fluid.
  apply evaluate_Normal_inv in H as (w0 & _ & Hsp & _).
  apply statePoints_Normal_inv in Hsp
    as (_ & (_ & _ & T2s & _) & (H2a & T2a & S2a & _) & _).
  fold fluid in T2s, T2a, S2a.
  rewrite Hone in H2a.
  split; [exact H2a|].
  intros Hsame. rewrite Hsame in T2a, S2a. split; intros Hcons; congruence.
Qed.

(** A library whose (P, H) answers agree with its (P, S) answers. *)
Lemma unit_efficiency_outlet_witness :
  evaluate toFixed_ecma tableOracle steam (withEfficiency 100 defaultForm) clearedWorld
    = (Normal (unitInputs, unitStatePoints, unitFlow), unitQueried) /\
  eta_s unitInputs = 1%float /\
  h2a unitStatePoints = h2s unitStatePoints /\
  t2a_k unitStatePoints = t2s_k unitStatePoints /\
  s2a unitStatePoints = s1 unitStatePoints.
Proof.
  assert (evaluate toFixed_ecma tableOracle steam (withEfficiency 100 defaultForm)
            clearedWorld
          = (Normal (unitInputs, unitStatePoints, unitFlow), unitQueried)) as E
    by (vm_compute; reflexivity).
  split; [exact E|]. split; [reflexivity|].
  destruct (unit_efficiency_outlet toFixed_ecma tableOracle steam
              (withEfficiency 100 defaultForm) clearedWorld unitQueried
              unitInputs unitStatePoints unitFlow E eq_refl) as (_ & H).
  split; [reflexivity|].
  destruct (H eq_refl) as [HT HS].
  split; [apply HT | apply HS]; reflexivity.
Defined.

(** C7 as stated fails: with 100 % efficiency and a library that is a
    function of its arguments, the evaluation succeeds and H2a = H2s, but
    the entropy the library returns at (P2, H2a) is not S1. *)
Lemma unit_efficiency_entropy_differs :
  exists i sp fl w1,
    evaluate toFixed_ecma toleranceOracle steam (withEfficiency 100 defaultForm)
             clearedWorld = (Normal (i, sp, fl), w1) /\
    eta_s i = 1%float /\
    h2a sp = h2s sp /\
    s1 sp = 6500%float /\
    s2a sp = 6500.000000001%float /\
    s2a sp <> s1 sp.
Proof.
  eexists _, _, _, _. split; [vm_compute; reflexivity|].
  repeat split.
  simpl. intros E.
  assert ((6500.000000001 =? 6500)%float = true) as F by (rewrite E; reflexivity).
  vm_compute in F. discriminate.
Qed.

(** Nor is H2a = H2s guaranteed: the subtraction rounds. *)
Lemma unit_efficiency_enthalpy_rounds :
  exists i sp fl w1,
    evaluate toFixed_ecma roundingOracle steam (withEfficiency 100 defaultForm)
             clearedWorld = (Normal (i, sp, fl), w1) /\
    eta_s i = 1%float /\
    h1 sp = 430000%float /\
    h2s sp = 98765.4%float /\
    h2a sp = 98765.40000000002%float /\
    h2a sp <> h2s sp.
Proof.
  eexists _, _, _, _. split; [vm_compute; reflexivity|].
  repeat split.
  simpl. intros E.
  assert ((98765.40000000002 =? 98765.4)%float = true) as F by (rewrite E; reflexivity).
  vm_compute in F. discriminate.
Qed.

(** ** Occurrences in a message *)

Lemma prefix_empty (t : string) : String.prefix "" t = true.
Proof. destruct t; reflexivity. Qed.

Lemma prefix_append (s t : string) : String.prefix s (s +:+ t) = true.
Proof.
  induction s as [|a s IH]; simpl; [apply prefix_empty|].
  destruct (Ascii.ascii_dec a a); [exact IH | contradiction].
Qed.

Lemma prefix_append_l (n s t : string) :
  String.prefix n s = true -> String.prefix n (s +:+ t) = true.
Proof.
  revert s. induction n as [|a n IH]; intros s; [intros _; apply prefix_empty|].
  destruct s as [|b s]; simpl; [discriminate|].
  destruct (Ascii.ascii_dec a b); [apply IH | discriminate].
Qed.

Lemma mentions_cons (n : string) a (s : string) :
  mentions n (String a s) = String.prefix n (String a s) || mentions n s.
Proof. reflexivity. Qed.

Lemma mentions_append_l (n s t : string) :
  mentions n s = true -> mentions n (s +:+ t) = true.
Proof.
  induction s as [|a s IH].
  - simpl. rewrite orb_false_r. intros H. destruct n; [|discriminate].
    destruct t; reflexivity.
  - rewrite mentions_cons. intros H. apply orb_true_iff in H as [H|H].
    + apply (prefix_append_l _ _ t) in H.
      change (String a s +:+ t) with (String a (s +:+ t)) in *.
      rewrite mentions_cons, H. reflexivity.
    + change (String a s +:+ t) with (String a (s +:+ t)).
      rewrite mentions_cons, (IH H). apply orb_true_r.
Qed.

Lemma mentions_append_r (n s t : string) :
  mentions n t = true -> mentions n (s +:+ t) = true.
Proof.
  intros H. induction s as [|a s IH]; [exact H|].
  change (String a s +:+ t) with (String a (s +:+ t)).
  rewrite mentions_cons, IH. apply orb_true_r.
Qed.

Lemma mentions_here (n t : string) : mentions n (n +:+ t) = true.
Proof.
  destruct n as [|a n]; [destruct t; reflexivity|].
  change (String a n +:+ t) with (String a (n +:+ t)).
  rewrite mentions_cons.
  change (String a (n +:+ t)) with (String a n +:+ t).
  now rewrite prefix_append.
Qed.

(** ** The pressure-order check *)

Section PressureOrder.

Variable toFixed : float -> nat -> string.

Local Open Scope float_scope.

(** The message of the pressure-order check names both pressures, each
    with its value in bar. *)
Lemma pressureMessage_names_both p1 p2 :
  let message := pressureMessage toFixed p1 p2 in
  mentions "出口压力" message = true /\
  mentions (toFixed (p2 / 1e5) 2) message = true /\
  mentions "进口压力" message = true /\
  mentions (toFixed (p1 / 1e5) 2) message = true.
Proof.
  unfold pressureMessage. split; [|split; [|split]].
  - apply mentions_append_l. reflexivity.
  - apply mentions_append_r, mentions_here.
  - apply mentions_append_r, mentions_append_r, mentions_append_l. reflexivity.
  - do 3 apply mentions_append_r. apply mentions_here.
Qed.

(** C1, as the code has it. For every evaluation whose fluid matches the
    tab and whose inlet and outlet pressure were resolved.  When the
    efficiency is a number in (0, 1]: if the outlet pressure is greater
    than or equal to the inlet pressure, the evaluation fails with the
    error that names both pressures with their values, nothing is written
    and no further query is issued; if it is strictly less, the inputs
    pass validation.  When the efficiency is not a number in (0, 1]: the
    efficiency is checked first, so the evaluation fails with the
    efficiency error, whatever the two pressures are, again with nothing
    written and no further query. *)
Theorem pressure_order_validation
    (cp : Oracle) (tab : Tab) (form : Form) (w w1 w2 : World)
    (inlet : float * float) (p2 : float) :
  includes (validFluids tab) (fluid_select form) = true ->
  resolveInlet cp tab form w = (Normal inlet, w1) ->
  resolveOutlet cp tab form w1 = (Normal p2, w2) ->
  (efficiencyInvalid (isentropic_efficiency form / 100.0) = false ->
   (JS.ge p2 (fst inlet) = true ->
    showsError (pressureMessage toFixed (fst inlet) p2)
               (handleCalculation toFixed (mkGlobals (Some cp) tab) form w) /\
    mentions "出口压力" (pressureMessage toFixed (fst inlet) p2) = true /\
    mentions (toFixed (p2 / 1e5) 2) (pressureMessage toFixed (fst inlet) p2) = true /\
    mentions "进口压力" (pressureMessage toFixed (fst inlet) p2) = true /\
    mentions (toFixed (fst inlet / 1e5) 2) (pressureMessage toFixed (fst inlet) p2) = true /\
    doc (handleCalculation toFixed (mkGlobals (Some cp) tab) form w) = doc w /\
    trace (handleCalculation toFixed (mkGlobals (Some cp) tab) form w) = trace w2) /\
   (JS.lt p2 (fst inlet) = true ->
    resolveInputs toFixed cp tab form w
      = (Normal (mkInputs (fst inlet) (snd inlet) p2 (isentropic_efficiency form / 100.0)),
         w2))) /\
  (efficiencyInvalid (isentropic_efficiency form / 100.0) = true ->
   showsError efficiencyMessage
              (handleCalculation toFixed (mkGlobals (Some cp) tab) form w) /\
   doc (handleCalculation toFixed (mkGlobals (Some cp) tab) form w) = doc w /\
   trace (handleCalculation toFixed (mkGlobals (Some cp) tab) form w) = trace w2).
Proof.
  intros Hfluid Hinlet Houtlet.
  pose proof (resolveInlet_Normal_inv cp tab form _ _ _ Hinlet) as (_ & Di & _).
  pose proof (resolveOutlet_Normal_inv cp tab form _ _ _ Houtlet) as (_ & Do & _).
  split; intros Heta.
  2: { assert (resolveInputs toFixed cp tab form w = (Throw efficiencyMessage, w2)) as Hres.
       { unfold resolveInputs, checkFluid, checkEfficiency, fluidName, bind.
         cbv zeta. rewrite Hfluid. cbn [negb ret]. now rewrite Hinlet, Houtlet, Heta. }
       assert (evaluate toFixed cp tab form w = (Throw efficiencyMessage, w2)) as Hev.
       { unfold evaluate. now rewrite (bind_Throw _ _ _ _ _ Hres). }
       rewrite (handleCalculation_failure toFixed (mkGlobals (Some cp) tab) cp form w _ _
                  eq_refl Hev).
       split; [reflexivity|]. split; [simpl; congruence | reflexivity]. }
  assert (forall b, JS.ge p2 (fst inlet) = b ->
          resolveInputs toFixed cp tab form w
          = if b then (Throw (pressureMessage toFixed (fst inlet) p2), w2)
            else (Normal (mkInputs (fst inlet) (snd inlet) p2
                                   (isentropic_efficiency form / 100.0)), w2)) as Hres.
  { intros b Hb.
    unfold resolveInputs, checkFluid, checkEfficiency, checkPressure, fluidName, bind.
    cbv zeta. rewrite Hfluid. cbn [negb ret]. rewrite Hinlet, Houtlet, Heta.
    cbn [ret]. rewrite Hb. destruct b; reflexivity. }
  split.
  - intros Hge. specialize (Hres true Hge). cbv iota in Hres.
    assert (evaluate toFixed cp tab form w
            = (Throw (pressureMessage toFixed (fst inlet) p2), w2)) as Hev.
    { unfold evaluate. now rewrite (bind_Throw _ _ _ _ _ Hres). }
    rewrite (handleCalculation_failure toFixed (mkGlobals (Some cp) tab) cp form w _ _
               eq_refl Hev).
    pose proof (pressureMessage_names_both (fst inlet) p2) as (N1 & N2 & N3 & N4).
    repeat split; auto. simpl. congruence.
  - intros Hlt. apply JSFacts.lt_not_ge in Hlt. exact (Hres false Hlt).
Qed.

End PressureOrder.

(** 30 bar at the outlet against 20 bar at the inlet, at 85 %. *)
Lemma pressure_order_validation_witness :
  JS.ge 3000000 2000000 = true /\
  showsError "计算出的出口压力 (30.00 bar) 必须低于进口压力 (20.00 bar)。"
    (handleCalculation toFixed_ecma (readyGlobals steam)
       (withOutletPressure 30 defaultForm) clearedWorld) /\
  doc (handleCalculation toFixed_ecma (readyGlobals steam)
         (withOutletPressure 30 defaultForm) clearedWorld) = doc clearedWorld.
Proof.
  destruct (pressure_order_validation toFixed_ecma tableOracle steam
              (withOutletPressure 30 defaultForm) clearedWorld clearedWorld clearedWorld
              (2000000, 150 + KELVIN_OFFSET)%float 3000000%float
              eq_refl eq_refl eq_refl) as [Hvalid _].
  destruct (Hvalid eq_refl) as [Hge _].
  destruct (Hge eq_refl) as (E & _ & _ & _ & _ & D & _).
  split; [reflexivity|]. split; [exact E | exact D].
Defined.

(** C1 as stated fails when the efficiency is invalid too: with 20 bar at
    the inlet, 30 bar at the outlet and 0 % efficiency, the evaluation
    fails with the efficiency error, which names neither pressure. *)
Lemma pressure_order_error_preempted :
  resolveInlet tableOracle steam (withEfficiency 0 (withOutletPressure 30 defaultForm))
               clearedWorld
    = (Normal (2000000, 150 + KELVIN_OFFSET)%float, clearedWorld) /\
  resolveOutlet tableOracle steam (withEfficiency 0 (withOutletPressure 30 defaultForm))
                clearedWorld
    = (Normal 3000000%float, clearedWorld) /\
  JS.ge 3000000 2000000 = true /\
  textContent (statusBar (handleCalculation toFixed_ecma (readyGlobals steam)
                            (withEfficiency 0 (withOutletPressure 30 defaultForm))
                            clearedWorld))
    = "计算错误: 等熵效率必须在 (0, 100] 范围内。" /\
  mentions "出口压力" "计算错误: 等熵效率必须在 (0, 100] 范围内。" = false /\
  mentions "进口压力" "计算错误: 等熵效率必须在 (0, 100] 范围内。" = false.
Proof. vm_compute. repeat split. Qed.

(** ** The efficiency check *)

Section Efficiency.

Variable toFixed : float -> nat -> string.
Variable cp : Oracle.
Variable tab : Tab.
Variable form : Form.

Local Open Scope float_scope.

Lemma world_eta (w : World) : w = mkWorld (doc w) (statusBar w) (trace w ++ []).
Proof. destruct w. simpl. now rewrite app_nil_r. Qed.

(** With an invalid efficiency the inputs are rejected at the efficiency
    check at the latest; only saturation lookups can precede it. *)
Lemma resolveInputs_invalid_efficiency w :
  efficiencyInvalid (isentropic_efficiency form / 100.0) = true ->
  exists message qs,
    resolveInputs toFixed cp tab form w
      = (Throw message, mkWorld (doc w) (statusBar w) (trace w ++ qs)) /\
    qs `prefix_of` saturationLookups tab form.
Proof.
  intros Heta.
  unfold resolveInputs, checkFluid, checkEfficiency, resolveInlet, resolveOutlet,
    saturationLookups, inletLookup, outletLookup, directInlet, directOutlet, fluidName,
    bind.
  cbv zeta. rewrite Heta.
  destruct (negb (includes _ _)).
  { eexists _, []. split; [unfold throw; f_equal; apply world_eta | apply prefix_nil]. }
  cbn [ret].
  destruct (isGasTab tab || _), (isGasTab tab || _);
    repeat match goal with
      | |- context [if ?b then _ else _] => destruct b
      end;
    unfold throw, ret, callPropsSI, log_query; cbn [doc statusBar trace];
    repeat match goal with
      | |- context [PropsSI ?c ?o ?a ?b ?d ?e ?f] => destruct (PropsSI c o a b d e f)
      end;
    cbn [doc statusBar trace];
    try (eexists _, []; split; [f_equal; apply world_eta | apply prefix_nil]);
    try (eexists _, [_]; split; [reflexivity | eexists; reflexivity]);
    try (eexists _, [_; _]; split; [rewrite <- app_assoc; reflexivity | reflexivity]).
Qed.

End Efficiency.

(** C2, as the code has it. For every evaluation whose efficiency, after
    conversion from percent, is not a number in (0, 1]: the evaluation is
    rejected, nothing is written, and no state-point query is issued.  The
    only queries that can precede the rejection are the saturation-pressure
    lookups of the saturation-temperature inlet mode and of the
    condensing-temperature outlet mode; with direct inlet pressure and
    direct outlet pressure (always so on the gas tab) the rejection comes
    before any query. *)
Theorem invalid_efficiency_rejected
    (toFixed : float -> nat -> string) (g : Globals) (cp : Oracle) (form : Form)
    (w : World) :
  CP g = Some cp ->
  efficiencyInvalid (isentropic_efficiency form / 100.0) = true ->
  doc (handleCalculation toFixed g form w) = doc w /\
  (exists message, showsError message (handleCalculation toFixed g form w)) /\
  (exists qs, trace (handleCalculation toFixed g form w) = trace w ++ qs /\
              qs `prefix_of` saturationLookups (currentTab g) form) /\
  (directInlet (currentTab g) form = true -> directOutlet (currentTab g) form = true ->
   trace (handleCalculation toFixed g form w) = trace w).
Proof.
  intros HCP Heta.
  destruct (resolveInputs_invalid_efficiency toFixed cp (currentTab g) form w Heta)
    as (message & qs & Hres & Hpre).
  assert (evaluate toFixed cp (currentTab g) form w
          = (Throw message, mkWorld (doc w) (statusBar w) (trace w ++ qs))) as Hev.
  { unfold evaluate. now rewrite (bind_Throw _ _ _ _ _ Hres). }
  rewrite (handleCalculation_failure toFixed g cp form w _ _ HCP Hev).
  split; [reflexivity|]. split; [exists message; reflexivity|].
  split; [exists qs; split; [reflexivity | exact Hpre]|].
  intros Hin Hout. simpl.
  unfold saturationLookups, inletLookup, outletLookup in Hpre.
  rewrite Hin, Hout in Hpre. apply prefix_nil_inv in Hpre. subst qs.
  apply app_nil_r.
Qed.

(** 120 % with direct inlet and outlet pressure: no query at all. *)
Lemma invalid_efficiency_rejected_witness :
  efficiencyInvalid (isentropic_efficiency (withEfficiency 120 defaultForm) / 100.0) = true /\
  doc (handleCalculation toFixed_ecma (readyGlobals steam) (withEfficiency 120 defaultForm)
         clearedWorld) = doc clearedWorld /\
  trace (handleCalculation toFixed_ecma (readyGlobals steam) (withEfficiency 120 defaultForm)
           clearedWorld) = trace clearedWorld.
Proof.
  destruct (invalid_efficiency_rejected toFixed_ecma (readyGlobals steam) tableOracle
              (withEfficiency 120 defaultForm) clearedWorld eq_refl eq_refl)
    as (D & _ & _ & T).
  split; [reflexivity|]. split; [exact D | apply T; reflexivity].
Defined.

(** C2 as stated fails where the inlet is given by saturation temperature
    and superheat: with 0 % efficiency the saturation-pressure lookup is
    issued before the evaluation is rejected. *)
Lemma invalid_efficiency_after_lookup :
  efficiencyInvalid (0 / 100.0) = true /\
  trace clearedWorld = [] /\
  trace (handleCalculation toFixed_ecma (readyGlobals steam)
           (withEfficiency 0 (withModes tsup pressure mass defaultForm)) clearedWorld)
    = [ mkQuery "P" "T" (120 + KELVIN_OFFSET) "Q" 1 "Water" ] /\
  textContent (statusBar (handleCalculation toFixed_ecma (readyGlobals steam)
                            (withEfficiency 0 (withModes tsup pressure mass defaultForm))
                            clearedWorld))
    = "计算错误: 等熵效率必须在 (0, 100] 范围内。".
Proof. vm_compute. repeat split. Qed.

(** ** The flow inputs *)

(** What a throw of the evaluation proper leaves on the page. *)
Lemma handleCalculation_failure_page toFixed g cp form w message w1 :
  CP g = Some cp ->
  evaluate toFixed cp (currentTab g) form w = (Throw message, w1) ->
  doc (handleCalculation toFixed g form w) = doc w /\
  showsError message (handleCalculation toFixed g form w) /\
  trace (handleCalculation toFixed g form w) = trace w1.
Proof.
  intros HCP Hev. rewrite (handleCalculation_failure _ _ _ _ _ _ _ HCP Hev).
  destruct (evaluate_onlyQueries toFixed cp (currentTab g) form w) as [qs Hqs].
  rewrite Hev in Hqs. simpl in Hqs. subst w1. repeat split.
Qed.

(** An input of the selected flow mode that is zero or negative makes
    the flow step throw, whatever the specific volume. *)
Lemma resolveMassFlow_nonpositive form :
  flowInputNonPositive form = true ->
  exists message,
    (forall v1 w, resolveMassFlow form v1 w = (Throw message, w)) /\
    (flowInputNaN form = false -> message = flowMessage form).
Proof.
  unfold flowInputNonPositive, flowInputNaN, flowMessage, resolveMassFlow.
  destruct (flow_mode form); cbv zeta; intros Hle.
  - rewrite Hle, orb_true_r. eexists. split; [reflexivity | auto].
  - destruct (JS.isNaN (displacement_cm3 form) || JS.isNaN (rpm_input form)
              || JS.isNaN (volumetric_efficiency form / 100.0)) eqn:Hnan.
    + eexists. split; [reflexivity | discriminate].
    + apply orb_false_iff in Hnan as [_ Hnan].
      assert (JS.le (displacement_cm3 form) 0 || JS.le (rpm_input form) 0
              || JS.le (volumetric_efficiency form / 100.0) 0 = true) as ->.
      { apply orb_true_iff in Hle as [Hle|Hle]; [now rewrite Hle|].
        rewrite (JSFacts.percent_nonpositive _ Hle Hnan). apply orb_true_r. }
      eexists. split; [reflexivity | auto].
  - rewrite Hle, orb_true_r. eexists. split; [reflexivity | auto].
Qed.

(** C6, as the code has it. For every evaluation in which a numeric input
    of the selected flow mode is zero or negative: no result is produced
    and an error is shown.  The flow inputs are checked last: when the
    inputs were resolved and validated and every state-point query was
    answered, and no input of the mode is NaN, the error is the one of the
    mode: mass flow and volumetric flow each have an error naming that
    field, the displacement mode has one error naming displacement, speed
    and volumetric efficiency together.  (An earlier failure is reported
    instead of it.) *)
Theorem nonpositive_flow_input_rejected
    (toFixed : float -> nat -> string) (g : Globals) (cp : Oracle) (form : Form)
    (w : World) :
  CP g = Some cp ->
  flowInputNonPositive form = true ->
  doc (handleCalculation toFixed g form w) = doc w /\
  (exists message, showsError message (handleCalculation toFixed g form w)) /\
  (forall i w0 sp w1,
     resolveInputs toFixed cp (currentTab g) form w = (Normal i, w0) ->
     statePoints cp form i w0 = (Normal sp, w1) ->
     flowInputNaN form = false ->
     showsError (flowMessage form) (handleCalculation toFixed g form w) /\
     trace (handleCalculation toFixed g form w) = trace w1).
Proof.
  intros HCP Hle.
  destruct (resolveMassFlow_nonpositive form Hle) as (mflow & Hflow & Hmsg).
  assert (forall i w0 sp w1,
            resolveInputs toFixed cp (currentTab g) form w = (Normal i, w0) ->
            statePoints cp form i w0 = (Normal sp, w1) ->
            evaluate toFixed cp (currentTab g) form w = (Throw mflow, w1)) as Hreach.
  { intros i w0 sp w1 Hi Hsp. unfold evaluate, flowAndPower.
    rewrite (bind_Normal _ _ _ _ _ Hi), (bind_Normal _ _ _ _ _ Hsp).
    apply bind_Throw. apply bind_Throw. apply Hflow. }
  assert (exists message w1,
            evaluate toFixed cp (currentTab g) form w = (Throw message, w1)) as (m & w1 & Hev).
  { destruct (resolveInputs toFixed cp (currentTab g) form w) as [[i|e] w0] eqn:Hi.
    - destruct (statePoints cp form i w0) as [[sp|e] w1] eqn:Hsp.
      + eauto.
      + exists e, w1. unfold evaluate.
        rewrite (bind_Normal _ _ _ _ _ Hi). now apply bind_Throw.
    - exists e, w0. unfold evaluate. now apply bind_Throw. }
  destruct (handleCalculation_failure_page toFixed g cp form w m w1 HCP Hev) as (D & E & _).
  split; [exact D|]. split; [eauto|].
  intros i w0 sp w2 Hi Hsp Hnan.
  destruct (handleCalculation_failure_page toFixed g cp form w mflow w2 HCP
              (Hreach _ _ _ _ Hi Hsp)) as (_ & E' & T').
  rewrite <- (Hmsg Hnan). auto.
Qed.

(** A mass flow of 0 kg/s, every earlier step succeeding. *)
Lemma nonpositive_flow_input_rejected_witness :
  flowInputNonPositive (withMassFlow 0 defaultForm) = true /\
  doc (handleCalculation toFixed_ecma (readyGlobals steam) (withMassFlow 0 defaultForm)
         clearedWorld) = doc clearedWorld /\
  showsError "质量流量必须是正数。"
    (handleCalculation toFixed_ecma (readyGlobals steam) (withMassFlow 0 defaultForm)
       clearedWorld).
Proof.
  destruct (nonpositive_flow_input_rejected toFixed_ecma (readyGlobals steam) tableOracle
              (withMassFlow 0 defaultForm) clearedWorld eq_refl eq_refl) as (D & _ & H).
  split; [reflexivity|]. split; [exact D|].
  apply (H defaultInputs clearedWorld defaultStatePoints defaultQueried);
    vm_compute; reflexivity.
Defined.

(** C6 as stated fails when an earlier step fails: with a mass flow of
    -1 kg/s and a library that rejects the inlet state, the error shown is
    the library's, which does not name the mass flow. *)
Lemma flow_error_preempted :
  flowInputNonPositive (withMassFlow (-1) defaultForm) = true /\
  textContent (statusBar (handleCalculation toFixed_ecma
                            (mkGlobals (Some failingOracle) steam)
                            (withMassFlow (-1) defaultForm) clearedWorld))
    = "计算错误: PropsSI: state out of range" /\
  mentions "质量流量" "计算错误: PropsSI: state out of range" = false.
Proof. vm_compute. repeat split. Qed.

(** ** The phase and quality label *)

Section PhaseLabel.

Variable toFixed : float -> nat -> string.

Local Open Scope float_scope.

(** The three phase cells of the table are written by [formatPhase]. *)
Lemma display_phase_cells tab i sp fl w :
  let w' := snd (display toFixed tab i sp fl w) in
  doc w' !! "val-x1" = Some (formatPhase toFixed tab (phase1 sp) (x1 sp)) /\
  doc w' !! "val-x2s" = Some (formatPhase toFixed tab (phase2s sp) (x2s sp)) /\
  doc w' !! "val-x2a" = Some (formatPhase toFixed tab (phase2a sp) (x2a sp)).
Proof. split; [|split]; lookup_written. Qed.

(** Within 1e-9 of 1 is not within 1e-9 of 0. *)
Lemma nearOne_not_nearZero q : nearOne q = true -> nearZero q = false.
Proof.
  unfold nearOne, nearZero, JS.gt. intros H. apply andb_true_iff in H as [H1 _].
  destruct (JS.lt q 1e-9) eqn:H0; [|apply andb_false_r].
  pose proof (JSFacts.lt_trans _ _ _ H1 H0) as H. vm_compute in H. discriminate.
Qed.

(** Index 3 is none of the other indices of the [switch]. *)
Lemma formatPhase_two_phase tab q :
  formatPhase toFixed tab 3 q
  = if isGasTab tab then "N/A"
    else if nearZero q then "饱和液"
    else if nearOne q then "饱和汽"
    else toFixed q 4.
Proof. reflexivity. Qed.

(** C8, as the code has it ([formatPhase] reads phase index 3 as the
    two-phase mixture). For every displayed state point: outside index 3
    the cell shows one of the fixed labels, whatever the quality; on the
    gas tab it shows "N/A" in every phase; on the other tabs, at index 3,
    a quality within 1e-9 of 0 shows the saturated-liquid label, one
    within 1e-9 of 1 the saturated-vapour label, and any other quality is
    shown as a number with four decimals. *)
Theorem formatPhase_quality_label (tab : Tab) (phaseIndex qualityValue : float) :
  (JS.strict_eq phaseIndex 3 = false ->
   In (formatPhase toFixed tab phaseIndex qualityValue) phaseLabels /\
   forall q, formatPhase toFixed tab phaseIndex q
             = formatPhase toFixed tab phaseIndex qualityValue) /\
  (isGasTab tab = true -> formatPhase toFixed tab phaseIndex qualityValue = "N/A") /\
  (isGasTab tab = false -> JS.strict_eq phaseIndex 3 = true ->
   (nearZero qualityValue = true ->
    formatPhase toFixed tab phaseIndex qualityValue = "饱和液") /\
   (nearOne qualityValue = true ->
    formatPhase toFixed tab phaseIndex qualityValue = "饱和汽") /\
   (nearZero qualityValue = false -> nearOne qualityValue = false ->
    formatPhase toFixed tab phaseIndex qualityValue = toFixed qualityValue 4)).
Proof.
  split; [|split].
  - intros H3. unfold formatPhase, phaseLabels. rewrite H3.
    destruct (isGasTab tab), (JS.strict_eq phaseIndex 0), (JS.strict_eq phaseIndex 5),
      (JS.strict_eq phaseIndex 1), (JS.strict_eq phaseIndex 2), (JS.strict_eq phaseIndex 4);
      simpl; split; auto 10.
  - intros Hgas. unfold formatPhase. now rewrite Hgas.
  - intros Hgas H3. apply JSFacts.strict_eq_3 in H3. subst phaseIndex.
    rewrite formatPhase_two_phase, Hgas.
    split; [|split].
    + now intros ->.
    + intros H1. now rewrite (nearOne_not_nearZero _ H1), H1.
    + now intros -> ->.
Qed.

End PhaseLabel.

(** The four kinds of label on the steam tab. *)
Lemma formatPhase_quality_label_witness :
  formatPhase toFixed_ecma steam 5 (-1) = "过热" /\
  formatPhase toFixed_ecma steam 3 0 = "饱和液" /\
  formatPhase toFixed_ecma steam 3 1 = "饱和汽" /\
  formatPhase toFixed_ecma steam 3 0.95 = "0.9500".
Proof.
  destruct (formatPhase_quality_label toFixed_ecma steam 3 0) as (_ & _ & H0).
  destruct (formatPhase_quality_label toFixed_ecma steam 3 1) as (_ & _ & H1).
  destruct (formatPhase_quality_label toFixed_ecma steam 3 0.95) as (_ & _ & Hq).
  split; [reflexivity|]. split; [apply H0; reflexivity|].
  split; [apply H1; reflexivity|].
  destruct (Hq eq_refl eq_refl) as (_ & _ & H). rewrite H; reflexivity.
Defined.

(** C8 as stated fails on the gas tab: a two-phase state point with
    quality 0 shows "N/A", not the saturated-liquid label. *)
Lemma formatPhase_gas_tab_boundary :
  JS.strict_eq 3 3 = true /\ nearZero 0 = true /\
  formatPhase toFixed_ecma gas 3 0 = "N/A" /\
  formatPhase toFixed_ecma gas 3 0 <> "饱和液".
Proof. repeat split. discriminate. Qed.

(** ** The earlier handler (js/app.js) against the same properties *)

Section JsAppFacts.

Variable toFixed : float -> nat -> string.

Local Open Scope float_scope.

Lemma js_evaluate_onlyQueries cp form : onlyQueries (JsApp.evaluate cp form).
Proof. unfold JsApp.evaluate. cbv zeta. only_queries. Qed.

Lemma js_display_Normal c w : fst (JsApp.display toFixed c w) = Normal tt.
Proof. reflexivity. Qed.

(** It refuses to run while the handle is unset. *)
Lemma js_not_ready_guard g form w :
  CP g = None ->
  JsApp.handleCalculation toFixed g form w = set_status_text notReadyMessage w.
Proof. unfold JsApp.handleCalculation. now intros ->. Qed.

(** It is all-or-nothing too. *)
Lemma js_all_or_nothing g cp form w message :
  CP g = Some cp ->
  fst (JsApp.tryBlock toFixed cp form w) = Throw message ->
  doc (JsApp.handleCalculation toFixed g form w) = doc w /\
  showsError message (JsApp.handleCalculation toFixed g form w).
Proof.
  intros HCP Hthrow. unfold JsApp.handleCalculation, JsApp.tryCatch. rewrite HCP.
  destruct (JsApp.tryBlock toFixed cp form w) as [[[]|e] w1] eqn:E;
    simpl in Hthrow; [discriminate|].
  injection Hthrow as ->.
  unfold JsApp.tryBlock in E.
  apply bind_Throw_inv in E as [E | (c & w2 & _ & E)].
  - destruct (js_evaluate_onlyQueries cp form w) as [qs Hqs].
    rewrite E in Hqs. simpl in Hqs. subst w1. split; reflexivity.
  - pose proof (js_display_Normal c w2) as HN. rewrite E in HN. discriminate.
Qed.

(** It checks the numbers, the pressure order and the efficiency before
    its first query: an invalid efficiency is rejected with no query
    issued. *)
Lemma js_invalid_efficiency_no_query g cp form w :
  CP g = Some cp ->
  efficiencyInvalid (isentropic_efficiency form / 100.0) = true ->
  exists message,
    JsApp.handleCalculation toFixed g form w
    = snd (JsApp.catchBlock message w).
Proof.
  intros HCP Heta. unfold JsApp.handleCalculation, JsApp.tryCatch, JsApp.tryBlock. rewrite HCP.
  unfold JsApp.evaluate, efficiencyInvalid in *. cbv zeta.
  destruct (JS.isNaN (inlet_pressure form * 1e5) || JS.isNaN (inlet_temperature form + KELVIN_OFFSET)
            || JS.isNaN (outlet_pressure form * 1e5)) eqn:E1; simpl orb.
  { eexists. reflexivity. }
  destruct (JS.isNaN (isentropic_efficiency form / 100.0)) eqn:E2.
  { eexists. reflexivity. }
  destruct (JS.ge _ _).
  { eexists. reflexivity. }
  simpl in Heta. rewrite Heta. eexists. reflexivity.
Qed.

(** With four numbers given, an outlet pressure that is not below the
    inlet pressure is rejected, by an error that names both pressures
    without their values. *)
Lemma js_pressure_order g cp form w :
  CP g = Some cp ->
  JS.isNaN (inlet_pressure form * 1e5) || JS.isNaN (inlet_temperature form + KELVIN_OFFSET)
  || JS.isNaN (outlet_pressure form * 1e5) || JS.isNaN (isentropic_efficiency form / 100.0)
  = false ->
  JS.ge (outlet_pressure form * 1e5) (inlet_pressure form * 1e5) = true ->
  JsApp.handleCalculation toFixed g form w
  = snd (JsApp.catchBlock "输入无效：出口压力必须低于进口压力。" w).
Proof.
  intros HCP Hnan Hge.
  unfold JsApp.handleCalculation, JsApp.tryCatch, JsApp.tryBlock. rewrite HCP.
  unfold JsApp.evaluate. cbv zeta. rewrite Hnan, Hge. reflexivity.
Qed.

End JsAppFacts.

(** It does not require the flow inputs to be positive: a mass flow of
    -1 kg/s is evaluated, and a negative power is shown. *)
Lemma js_negative_mass_flow_accepted :
  textContent (statusBar (JsApp.handleCalculation toFixed_ecma (readyGlobals steam)
                            (withMassFlow (-1) defaultForm) clearedWorld))
    = "计算完成。" /\
  doc (JsApp.handleCalculation toFixed_ecma (readyGlobals steam)
         (withMassFlow (-1) defaultForm) clearedWorld) !! "result-power"
    = Some "-255.00".
Proof. vm_compute. split; reflexivity. Qed.

(** Its label depends on the quality alone, with no tolerance: exactly 0
    and exactly 1 get the subcooled and superheated labels. *)
Lemma js_formatQuality_examples :
  JsApp.formatQuality toFixed_ecma 0.95 = "0.9500" /\
  JsApp.formatQuality toFixed_ecma 0 = "过冷" /\
  JsApp.formatQuality toFixed_ecma 1 = "过热" /\
  JsApp.formatQuality toFixed_ecma (-1) = "过冷" /\
  JsApp.formatQuality toFixed_ecma nan = "--".
Proof. vm_compute. repeat split. Qed.

(** * Further properties of the handler *)

(** ** Sequences of writes *)

Lemma lastWrite_snoc k ws kv :
  lastWrite k (ws ++ [kv])
  = if String.eqb (fst kv) k then Some (snd kv) else lastWrite k ws.
Proof. unfold lastWrite. now rewrite foldl_app. Qed.

Lemma applyWrites_snoc ws kv m :
  applyWrites (ws ++ [kv]) m = <[ fst kv := snd kv ]> (applyWrites ws m).
Proof. unfold applyWrites. now rewrite foldl_app. Qed.

(** After a sequence of writes, an id holds the text of its last write,
    or what it held before. *)
Lemma lookup_applyWrites ws m k :
  applyWrites ws m !! k
  = match lastWrite k ws with Some v => Some v | None => m !! k end.
Proof.
  induction ws as [|kv ws IH] using rev_ind; [reflexivity|].
  rewrite applyWrites_snoc, lastWrite_snoc.
  destruct (String.eqb_spec (fst kv) k) as [->|Hne].
  - apply lookup_insert_eq.
  - now rewrite lookup_insert_ne.
Qed.

Lemma applyWrites_twice ws m : applyWrites ws (applyWrites ws m) = applyWrites ws m.
Proof.
  apply map_eq. intros k. rewrite !lookup_applyWrites.
  now destruct (lastWrite k ws).
Qed.

Lemma lastWrite_None k ws : k ∉ map fst ws -> lastWrite k ws = None.
Proof.
  induction ws as [|kv ws IH] using rev_ind; [reflexivity|].
  rewrite map_app, lastWrite_snoc. intros Hk.
  rewrite not_elem_of_app in Hk. destruct Hk as [Hws Hkv].
  destruct (String.eqb_spec (fst kv) k) as [E|_]; [|auto].
  exfalso. apply Hkv. simpl. rewrite E. now left.
Qed.

Lemma lastWrite_is_Some k ws : k ∈ map fst ws -> is_Some (lastWrite k ws).
Proof.
  induction ws as [|kv ws IH] using rev_ind; [intros H; inversion H|].
  rewrite map_app, lastWrite_snoc, elem_of_app. intros [Hk|Hk].
  - destruct (String.eqb (fst kv) k); [eauto | auto].
  - simpl in Hk. apply list_elem_of_singleton in Hk. subst k.
    rewrite String.eqb_refl. eauto.
Qed.

(** ** The page after a click *)

Section AfterClick.

Variable toFixed : float -> nat -> string.

Lemma display_page tab i sp fl w :
  display toFixed tab i sp fl w
  = (Normal tt,
     mkWorld (applyWrites (displayWrites toFixed tab i sp fl) (doc w))
             (statusAfter "计算完成。" successStyles (statusBar w))
             (trace w)).
Proof. reflexivity. Qed.

Lemma catchBlock_page message w :
  catchBlock message w
  = (Normal tt,
     mkWorld (doc w) (statusAfter ("计算错误: " +:+ message) errorStyles (statusBar w))
             (trace w)).
Proof. reflexivity. Qed.

Lemma displayWrites_ids tab i sp fl :
  map fst (displayWrites toFixed tab i sp fl) = outputIds.
Proof. reflexivity. Qed.

Lemma uniform_ret {A} (a : A) : uniform (ret a).
Proof. exists (Normal a), []. intros w. unfold ret. f_equal. apply world_eta. Qed.

Lemma uniform_throw {A} e : uniform (@throw A e).
Proof. exists (Throw e), []. intros w. unfold throw. f_equal. apply world_eta. Qed.

Lemma uniform_callPropsSI cp out n1 x1 n2 x2 fluid :
  uniform (callPropsSI cp out n1 x1 n2 x2 fluid).
Proof. eexists _, [_]. intros w. reflexivity. Qed.

Lemma uniform_bind {A B} (m : M A) (k : A -> M B) :
  uniform m -> (forall a, uniform (k a)) -> uniform (bind m k).
Proof.
  intros (r & qs & Hm) Hk. destruct r as [a|e].
  - destruct (Hk a) as (r' & qs' & Hka). exists r', (qs ++ qs'). intros w.
    unfold bind. rewrite Hm, Hka. simpl. now rewrite app_assoc.
  - exists (Throw e), qs. intros w. unfold bind. now rewrite Hm.
Qed.

Ltac uniform_steps :=
  repeat first
    [ progress unfold evaluate, resolveInputs, checkFluid, resolveInlet, resolveOutlet,
        checkEfficiency, checkPressure, statePoints, qualityAt, flowAndPower,
        resolveMassFlow
    | progress cbv zeta
    | apply uniform_ret
    | apply uniform_throw
    | apply uniform_callPropsSI
    | apply uniform_bind; [| intros ?]
    | match goal with
      | |- uniform (if ?b then _ else _) => destruct b
      | |- uniform (match ?x with _ => _ end) => destruct x
      end ].

(** The evaluation reads the form and the library, never the page. *)
Lemma evaluate_uniform cp tab form : uniform (evaluate toFixed cp tab form).
Proof. uniform_steps. Qed.

(** What a click leaves, by the outcome of the evaluation. *)
Lemma handleCalculation_page g cp form :
  CP g = Some cp ->
  exists r qs,
    (forall w, evaluate toFixed cp (currentTab g) form w
               = (r, mkWorld (doc w) (statusBar w) (trace w ++ qs))) /\
    forall w,
      handleCalculation toFixed g form w
      = match r with
        | Normal (i, sp, fl) =>
            mkWorld (applyWrites (displayWrites toFixed (currentTab g) i sp fl) (doc w))
                    (statusAfter "计算完成。" successStyles (statusBar w))
                    (trace w ++ qs)
        | Throw message =>
            mkWorld (doc w)
                    (statusAfter ("计算错误: " +:+ message) errorStyles (statusBar w))
                    (trace w ++ qs)
        end.
Proof.
  intros HCP. destruct (evaluate_uniform cp (currentTab g) form) as (r & qs & Hev).
  exists r, qs. split; [exact Hev|]. intros w.
  destruct r as [[[i sp] fl]|message].
  - rewrite (handleCalculation_success _ _ _ _ _ _ _ _ _ HCP (Hev w)).
    now rewrite display_page.
  - rewrite (handleCalculation_failure _ _ _ _ _ _ _ HCP (Hev w)).
    now rewrite catchBlock_page.
Qed.

End AfterClick.

(** ** What a click writes *)

Lemma done_is_no_error message : "计算错误: " +:+ message <> "计算完成。".
Proof. simpl. discriminate. Qed.

Lemma done_is_not_notReady : notReadyMessage <> "计算完成。".
Proof. discriminate. Qed.

(** X1. Whatever its outcome, [handleCalculation] leaves every element
    other than its 21 outputs (three summary fields and eighteen table
    cells) as it was; and when the status bar reads "计算完成。" after the
    click, each of the 21 outputs holds a text. *)
Theorem handleCalculation_writes_outputs_only
    (toFixed : float -> nat -> string) (g : Globals) (form : Form) (w : World) :
  (forall k, k ∉ outputIds ->
     doc (handleCalculation toFixed g form w) !! k = doc w !! k) /\
  (textContent (statusBar (handleCalculation toFixed g form w)) = "计算完成。" ->
   forall k, k ∈ outputIds -> is_Some (doc (handleCalculation toFixed g form w) !! k)).
Proof.
  destruct (CP g) as [cp|] eqn:HCP.
  - destruct (handleCalculation_page toFixed g cp form HCP) as (r & qs & _ & H).
    rewrite H. destruct r as [[[i sp] fl]|message];
      unfold statusAfter; cbn [doc statusBar textContent].
    + split.
      * intros k Hk. rewrite lookup_applyWrites, lastWrite_None; [reflexivity|].
        now rewrite displayWrites_ids.
      * intros _ k Hk. rewrite lookup_applyWrites.
        destruct (lastWrite_is_Some k (displayWrites toFixed (currentTab g) i sp fl))
          as [v ->]; [now rewrite displayWrites_ids | eauto].
    + split; [reflexivity|]. intros Hdone. now apply done_is_no_error in Hdone.
  - unfold handleCalculation. rewrite HCP. simpl. split; [reflexivity|].
    intros Hdone. now apply done_is_not_notReady in Hdone.
Qed.

(** X2. A second click on an unchanged form changes nothing that is
    shown: the outputs and the status bar are the same after two
    evaluations as after one. *)
Theorem handleCalculation_idempotent
    (toFixed : float -> nat -> string) (g : Globals) (form : Form) (w : World) :
  doc (handleCalculation toFixed g form (handleCalculation toFixed g form w))
    = doc (handleCalculation toFixed g form w) /\
  statusBar (handleCalculation toFixed g form (handleCalculation toFixed g form w))
    = statusBar (handleCalculation toFixed g form w).
Proof.
  destruct (CP g) as [cp|] eqn:HCP.
  - destruct (handleCalculation_page toFixed g cp form HCP) as (r & qs & _ & H).
    rewrite !H. destruct r as [[[i sp] fl]|message];
      unfold statusAfter; cbn [doc statusBar textContent style];
      now rewrite ?applyWrites_twice.
  - unfold handleCalculation. rewrite HCP. split; reflexivity.
Qed.

(** ** How many queries a click issues *)

Lemma atMostQueries_ret {A} (a : A) : atMostQueries 0 (ret a).
Proof. intros w. exists []. split; [apply world_eta | reflexivity]. Qed.

Lemma atMostQueries_throw {A} e : atMostQueries 0 (@throw A e).
Proof. intros w. exists []. split; [apply world_eta | reflexivity]. Qed.

Lemma atMostQueries_callPropsSI cp out n1 x1 n2 x2 fluid :
  atMostQueries 1 (callPropsSI cp out n1 x1 n2 x2 fluid).
Proof. intros w. eexists [_]. split; reflexivity. Qed.

Lemma atMostQueries_bind {A B} n1 n2 (m : M A) (k : A -> M B) :
  atMostQueries n1 m -> (forall a, atMostQueries n2 (k a)) ->
  atMostQueries (n1 + n2) (bind m k).
Proof.
  intros Hm Hk w. unfold bind. destruct (Hm w) as (qs & Hqs & Hlen).
  destruct (m w) as [[a|e] w1]; simpl in Hqs; subst w1.
  - destruct (Hk a (mkWorld (doc w) (statusBar w) (trace w ++ qs))) as (qs' & -> & Hlen').
    exists (qs ++ qs'). simpl. rewrite app_assoc, length_app. split; [reflexivity | lia].
  - exists qs. split; [reflexivity | lia].
Qed.

Lemma atMostQueries_if {A} n1 n2 (b : bool) (m1 m2 : M A) :
  atMostQueries n1 m1 -> atMostQueries n2 m2 ->
  atMostQueries (Nat.max n1 n2) (if b then m1 else m2).
Proof.
  intros H1 H2 w. destruct b; [destruct (H1 w) as (qs & ? & ?) | destruct (H2 w) as (qs & ? & ?)];
    exists qs; split; auto; lia.
Qed.

Lemma atMostQueries_le {A} n n' (m : M A) :
  atMostQueries n m -> (n <= n')%nat -> atMostQueries n' m.
Proof. intros H Hle w. destruct (H w) as (qs & ? & ?). exists qs. split; [auto | lia]. Qed.

Ltac count_queries :=
  repeat first
    [ progress unfold evaluate, resolveInputs, checkFluid, resolveInlet, resolveOutlet,
        checkEfficiency, checkPressure, statePoints, qualityAt, flowAndPower,
        resolveMassFlow
    | progress cbv zeta
    | apply atMostQueries_ret
    | apply atMostQueries_throw
    | apply atMostQueries_callPropsSI
    | eapply atMostQueries_bind; [| intros ?]
    | eapply atMostQueries_if
    | match goal with
      | |- atMostQueries _ (match ?x with _ => _ end) => destruct x
      end ].

(** Two lookups, twelve state-point properties, three qualities. *)
Lemma evaluate_atMostQueries toFixed cp tab form :
  atMostQueries 17 (evaluate toFixed cp tab form).
Proof. eapply atMostQueries_le; [count_queries | vm_compute; lia]. Qed.

(** X3. A click issues at most 17 property queries, whatever the form,
    the library's answers and the outcome. *)
Theorem handleCalculation_query_bound
    (toFixed : float -> nat -> string) (g : Globals) (form : Form) (w : World) :
  exists qs,
    trace (handleCalculation toFixed g form w) = trace w ++ qs /\ (length qs <= 17)%nat.
Proof.
  destruct (CP g) as [cp|] eqn:HCP.
  - destruct (evaluate_atMostQueries toFixed cp (currentTab g) form w) as (qs & Hqs & Hlen).
    exists qs. split; [|exact Hlen].
    destruct (evaluate toFixed cp (currentTab g) form w) as [[[[i sp] fl]|message] w1] eqn:Hev;
      simpl in Hqs; subst w1.
    + now rewrite (handleCalculation_success _ _ _ _ _ _ _ _ _ HCP Hev).
    + now rewrite (handleCalculation_failure _ _ _ _ _ _ _ HCP Hev).
  - exists []. unfold handleCalculation. rewrite HCP. simpl.
    split; [now rewrite app_nil_r | lia].
Qed.

(** The bound is reached: both lookups, and every state point in the
    two-phase region. *)
Lemma handleCalculation_query_bound_reached :
  length (trace (handleCalculation toFixed_ecma (mkGlobals (Some twoPhaseOracle) steam)
                   (withModes tsup tcond mass defaultForm) clearedWorld)) = 17%nat.
Proof. vm_compute. reflexivity. Qed.

(** ** Results are shown for validated inputs only *)

(** When the status bar reads "计算完成。" after a click, the evaluation
    has succeeded. *)
Lemma done_inv toFixed g form w :
  textContent (statusBar (handleCalculation toFixed g form w)) = "计算完成。" ->
  exists cp i sp fl w1,
    CP g = Some cp /\
    evaluate toFixed cp (currentTab g) form w = (Normal (i, sp, fl), w1).
Proof.
  intros Hdone. destruct (CP g) as [cp|] eqn:HCP.
  - destruct (evaluate toFixed cp (currentTab g) form w) as [[[[i sp] fl]|message] w1] eqn:Hev.
    + eauto 10.
    + rewrite (handleCalculation_failure _ _ _ _ _ _ _ HCP Hev) in Hdone.
      now apply done_is_no_error in Hdone.
  - unfold handleCalculation in Hdone. rewrite HCP in Hdone.
    now apply done_is_not_notReady in Hdone.
Qed.

(** X4. Results are shown for validated inputs only: when the status bar
    reads "计算完成。" after a click, the selected fluid belongs to the
    current tab, the efficiency is a number in (0, 1], the resolved outlet
    pressure is not greater than or equal to the resolved inlet pressure,
    and no numeric input of the selected flow mode is NaN, zero or
    negative. *)
Theorem shown_results_are_validated
    (toFixed : float -> nat -> string) (g : Globals) (form : Form) (w : World) :
  textContent (statusBar (handleCalculation toFixed g form w)) = "计算完成。" ->
  includes (validFluids (currentTab g)) (fluid_select form) = true /\
  efficiencyInvalid (isentropic_efficiency form / 100.0) = false /\
  (exists cp i sp fl w1,
     CP g = Some cp /\
     evaluate toFixed cp (currentTab g) form w = (Normal (i, sp, fl), w1) /\
     JS.ge (p2_pa i) (p1_pa i) = false) /\
  flowInputNaN form = false /\
  flowInputNonPositive form = false.
Proof.
  intros Hdone. apply done_inv in Hdone as (cp & i & sp & fl & w1 & HCP & Hev).
  pose proof Hev as Hev'.
  apply evaluate_Normal_inv in Hev' as (w0 & Hi & _ & Hfl).
  apply resolveInputs_Normal_inv in Hi as (Hfluid & _ & Heta & Hvalid & Hge & _).
  rewrite Heta in Hvalid.
  apply flowAndPower_Normal_inv in Hfl as (Hm & _).
  assert (flowInputNonPositive form = false) as Hpos.
  { destruct (flowInputNonPositive form) eqn:E; [|reflexivity].
    destruct (resolveMassFlow_nonpositive form E) as (m & Hthrow & _).
    rewrite Hthrow in Hm. discriminate. }
  assert (flowInputNaN form = false) as Hnan.
  { revert Hm. unfold resolveMassFlow, flowInputNaN. cbv zeta.
    destruct (flow_mode form).
    - destruct (JS.isNaN (mass_flow form)); [discriminate | reflexivity].
    - destruct (JS.isNaN (displacement_cm3 form) || JS.isNaN (rpm_input form)
                || JS.isNaN (volumetric_efficiency form / 100.0)); [discriminate | reflexivity].
    - destruct (JS.isNaN (volume_flow_rate form)); [discriminate | reflexivity]. }
  repeat split; eauto 10.
Qed.

(** The default form on the steam tab. *)
Lemma shown_results_are_validated_witness :
  textContent (statusBar (handleCalculation toFixed_ecma (readyGlobals steam) defaultForm
                            clearedWorld)) = "计算完成。" /\
  efficiencyInvalid (isentropic_efficiency defaultForm / 100.0) = false /\
  flowInputNonPositive defaultForm = false.
Proof.
  assert (textContent (statusBar (handleCalculation toFixed_ecma (readyGlobals steam)
                                    defaultForm clearedWorld)) = "计算完成。") as H
    by (vm_compute; reflexivity).
  split; [exact H|].
  destruct (shown_results_are_validated toFixed_ecma (readyGlobals steam) defaultForm
              clearedWorld H) as (_ & He & _ & _ & Hp).
  split; [exact He | exact Hp].
Defined.

(** ** The quality queries *)

Lemma countQuality_app qs1 qs2 :
  countQuality (qs1 ++ qs2) = (countQuality qs1 + countQuality qs2)%nat.
Proof. unfold countQuality. now rewrite filter_app, length_app. Qed.

Lemma countQuality_qualityQuery phase n1 x1 n2 x2 fluid :
  countQuality (qualityQuery phase n1 x1 n2 x2 fluid)
  = if JS.strict_eq phase 3 then 1%nat else 0%nat.
Proof. unfold qualityQuery. now destruct (JS.strict_eq phase 3). Qed.

Lemma qualityAt_value cp form phase n1 x1 n2 x2 w x w1 :
  qualityAt cp form phase n1 x1 n2 x2 w = (Normal x, w1) ->
  if JS.strict_eq phase 3
  then PropsSI cp "Q" n1 x1 n2 x2 (fluid_select form) = Normal x
  else x = (-1)%float.
Proof.
  unfold qualityAt, fluidName. destruct (JS.strict_eq phase 3); intros H.
  - now apply callPropsSI_Normal_inv in H as [H _].
  - now apply ret_Normal_inv in H as [<- _].
Qed.

(** X5. The vapour quality of a state point is queried only when the
    phase index the library returned for it is 3; otherwise the quality is
    taken as -1 without a query.  So among the queries of a pass through
    the three state points there are as many quality queries as state
    points with phase index 3. *)
Theorem quality_queried_only_at_phase_3
    (cp : Oracle) (form : Form) (i : Inputs) (w w1 : World) (sp : StatePoints) :
  statePoints cp form i w = (Normal sp, w1) ->
  (if JS.strict_eq (phase1 sp) 3
   then PropsSI cp "Q" "P" (p1_pa i) "T" (t1_k i) (fluid_select form) = Normal (x1 sp)
   else x1 sp = (-1)%float) /\
  (if JS.strict_eq (phase2s sp) 3
   then PropsSI cp "Q" "P" (p2_pa i) "S" (s1 sp) (fluid_select form) = Normal (x2s sp)
   else x2s sp = (-1)%float) /\
  (if JS.strict_eq (phase2a sp) 3
   then PropsSI cp "Q" "P" (p2_pa i) "H" (h2a sp) (fluid_select form) = Normal (x2a sp)
   else x2a sp = (-1)%float) /\
  exists qs,
    trace w1 = trace w ++ qs /\
    countQuality qs
    = ((if JS.strict_eq (phase1 sp) 3 then 1 else 0)
       + (if JS.strict_eq (phase2s sp) 3 then 1 else 0)
       + (if JS.strict_eq (phase2a sp) 3 then 1 else 0))%nat.
Proof.
  intros H. pose proof (statePoints_Normal_inv cp form i w sp w1 H) as (_ & _ & _ & T & _).
  revert H. unfold statePoints. cbv zeta. intros H.
  repeat match goal with
    | H : bind _ _ _ = (Normal _, _) |- _ =>
        let a := fresh "a" in let w := fresh "w" in let Ha := fresh "Ha" in
        apply bind_Normal_inv in H as (a & w & Ha & H)
    | H : callPropsSI _ _ _ _ _ _ _ _ = (Normal _, _) |- _ =>
        let E := fresh "E" in apply callPropsSI_Normal_inv in H as [E ->]
    | H : ret _ _ = (Normal _, _) |- _ =>
        let E := fresh "E" in apply ret_Normal_inv in H as [E ->]; simplify_eq
    | H : qualityAt _ _ _ _ _ _ _ _ = (Normal _, _) |- _ => apply qualityAt_value in H
    end.
  cbn [x1 x2s x2a phase1 phase2s phase2a s1 h2a h1 h2s] in *.
  repeat split; try assumption.
  eexists. split; [exact T|].
  unfold statePointQueries. rewrite !countQuality_app, !countQuality_qualityQuery.
  cbn [phase1 phase2s phase2a]. unfold stateQueries, countQuality. simpl. lia.
Qed.

(** The default form: only the isentropic outlet is in the two-phase
    region. *)
Lemma quality_queried_only_at_phase_3_witness :
  statePoints tableOracle defaultForm defaultInputs clearedWorld
    = (Normal defaultStatePoints, defaultQueried) /\
  x1 defaultStatePoints = (-1)%float /\
  PropsSI tableOracle "Q" "P" (p2_pa defaultInputs) "S" (s1 defaultStatePoints) "Water"
    = Normal (x2s defaultStatePoints) /\
  x2a defaultStatePoints = (-1)%float.
Proof.
  assert (statePoints tableOracle defaultForm defaultInputs clearedWorld
          = (Normal defaultStatePoints, defaultQueried)) as E by (vm_compute; reflexivity).
  split; [exact E|].
  destruct (quality_queried_only_at_phase_3 tableOracle defaultForm defaultInputs
              clearedWorld defaultQueried defaultStatePoints E) as (H1 & H2 & H3 & _).
  split; [exact H1|]. split; [exact H2 | exact H3].
Defined.

(** ** Rejections before the first query *)

Section EarlyRejections.

Variable toFixed : float -> nat -> string.

Local Open Scope float_scope.

(** X6. A selected fluid that does not belong to the current tab is
    rejected before anything else: the error names the fluid and the tab,
    no query is issued and nothing is written. *)
Theorem fluid_mismatch_rejected (g : Globals) (cp : Oracle) (form : Form) (w : World) :
  CP g = Some cp ->
  includes (validFluids (currentTab g)) (fluid_select form) = false ->
  showsError (fluidMismatch (currentTab g) form) (handleCalculation toFixed g form w) /\
  mentions (fluid_select form) (fluidMismatch (currentTab g) form) = true /\
  mentions (Tab_name (currentTab g)) (fluidMismatch (currentTab g) form) = true /\
  trace (handleCalculation toFixed g form w) = trace w /\
  doc (handleCalculation toFixed g form w) = doc w.
Proof.
  intros HCP Hfluid.
  assert (evaluate toFixed cp (currentTab g) form w
          = (Throw (fluidMismatch (currentTab g) form), w)) as Hev.
  { unfold evaluate, resolveInputs, checkFluid, fluidName, bind. now rewrite Hfluid. }
  rewrite (handleCalculation_failure _ _ _ _ _ _ _ HCP Hev).
  split; [reflexivity|]. split; [|split; [|split; reflexivity]].
  - unfold fluidMismatch, fluidName. apply mentions_append_r, mentions_here.
  - unfold fluidMismatch, fluidName. do 3 apply mentions_append_r. apply mentions_here.
Qed.

(** X7. With direct inlet pressure and temperature (always so on the gas
    tab), a pressure or temperature that is not a number is rejected with
    the error of these two fields before any query; with saturation
    temperature and superheat, one of these that is not a number is
    rejected with their error, again before any query. *)
Theorem nan_inlet_rejected (g : Globals) (cp : Oracle) (form : Form) (w : World) :
  CP g = Some cp ->
  includes (validFluids (currentTab g)) (fluid_select form) = true ->
  (if directInlet (currentTab g) form
   then JS.isNaN (inlet_pressure form * 1e5)
        || JS.isNaN (inlet_temperature form + KELVIN_OFFSET)
   else JS.isNaN (evap_temp form + KELVIN_OFFSET) || JS.isNaN (superheat form)) = true ->
  showsError (if directInlet (currentTab g) form then "压力/温度输入无效。"
              else "饱和温度/过热度输入无效。")
             (handleCalculation toFixed g form w) /\
  trace (handleCalculation toFixed g form w) = trace w /\
  doc (handleCalculation toFixed g form w) = doc w.
Proof.
  intros HCP Hfluid Hnan.
  assert (evaluate toFixed cp (currentTab g) form w
          = (Throw (if directInlet (currentTab g) form then "压力/温度输入无效。"
                    else "饱和温度/过热度输入无效。"), w)) as Hev.
  { unfold evaluate, resolveInputs, checkFluid, resolveInlet, fluidName, bind.
    rewrite Hfluid. cbn [negb ret]. unfold directInlet in *.
    destruct (isGasTab (currentTab g) || _); cbv zeta; now rewrite Hnan. }
  rewrite (handleCalculation_failure _ _ _ _ _ _ _ HCP Hev).
  repeat split.
Qed.

(** X8. On the gas tab the inlet-mode and outlet-mode radios are not
    read: the click gives the same page whatever they are, the pressures
    being the two pressure fields, with no saturation lookup. *)
Theorem gas_tab_ignores_modes (g : Globals) (form : Form) (w : World)
    (im : InletMode) (om : OutletMode) :
  currentTab g = gas ->
  handleCalculation toFixed g (withModes im om (flow_mode form) form) w
  = handleCalculation toFixed g form w /\
  saturationLookups (currentTab g) form = [].
Proof.
  intros Hgas. split.
  - unfold handleCalculation, tryCatch, tryBlock, evaluate, resolveInputs, checkFluid,
      resolveInlet, resolveOutlet, checkEfficiency, flowAndPower, resolveMassFlow,
      statePoints, qualityAt, fluidName.
    rewrite Hgas. destruct form. reflexivity.
  - unfold saturationLookups, inletLookup, outletLookup, directInlet, directOutlet.
    now rewrite Hgas.
Qed.

End EarlyRejections.

(** Water on the refrigerant tab. *)
Lemma fluid_mismatch_rejected_witness :
  includes (validFluids orc) (fluid_select defaultForm) = false /\
  showsError "内部状态错误：当前工质 'Water' 与选项卡 'orc' 不匹配。"
    (handleCalculation toFixed_ecma (readyGlobals orc) defaultForm clearedWorld) /\
  trace (handleCalculation toFixed_ecma (readyGlobals orc) defaultForm clearedWorld)
    = trace clearedWorld.
Proof.
  destruct (fluid_mismatch_rejected toFixed_ecma (readyGlobals orc) tableOracle defaultForm
              clearedWorld eq_refl eq_refl) as (E & _ & _ & T & _).
  split; [reflexivity|]. split; [exact E | exact T].
Defined.

(** Inlet pressure left empty. *)
Lemma nan_inlet_rejected_witness :
  JS.isNaN (inlet_pressure (withInletPressure nan defaultForm) * 1e5) = true /\
  showsError "压力/温度输入无效。"
    (handleCalculation toFixed_ecma (readyGlobals steam) (withInletPressure nan defaultForm)
       clearedWorld) /\
  trace (handleCalculation toFixed_ecma (readyGlobals steam)
           (withInletPressure nan defaultForm) clearedWorld) = trace clearedWorld.
Proof.
  destruct (nan_inlet_rejected toFixed_ecma (readyGlobals steam) tableOracle
              (withInletPressure nan defaultForm) clearedWorld eq_refl eq_refl eq_refl)
    as (E & T & _).
  split; [reflexivity|]. split; [exact E | exact T].
Defined.

(** Air on the gas tab, with the radios left on the saturation modes. *)
Lemma gas_tab_ignores_modes_witness :
  currentTab (readyGlobals gas) = gas /\
  handleCalculation toFixed_ecma (readyGlobals gas)
    (withModes tsup tcond mass (withFluid "Air" defaultForm)) clearedWorld
  = handleCalculation toFixed_ecma (readyGlobals gas) (withFluid "Air" defaultForm)
      clearedWorld.
Proof.
  split; [reflexivity|].
  apply (gas_tab_ignores_modes toFixed_ecma (readyGlobals gas) (withFluid "Air" defaultForm)
           clearedWorld tsup tcond eq_refl).
Defined.

(** ** The resolved inlet state and outlet pressure *)

(** X9. In a successful evaluation: with direct inlet the inlet pressure
    is the pressure field times 1e5 and the inlet temperature the
    temperature field plus 273.15; otherwise the inlet pressure is the
    library's pressure at the saturation temperature with quality 1 and
    the inlet temperature that temperature plus the superheat.  With
    direct outlet the outlet pressure is its field times 1e5; otherwise it
    is the library's pressure at the condensing temperature with
    quality 0. *)
Theorem resolved_inputs_by_mode
    (toFixed : float -> nat -> string) (cp : Oracle) (tab : Tab) (form : Form)
    (w w1 : World) (i : Inputs) (sp : StatePoints) (fl : Flow) :
  evaluate toFixed cp tab form w = (Normal (i, sp, fl), w1) ->
  (if directInlet tab form
   then p1_pa i = (inlet_pressure form * 1e5)%float /\
        t1_k i = (inlet_temperature form + KELVIN_OFFSET)%float
   else PropsSI cp "P" "T" (evap_temp form + KELVIN_OFFSET)%float "Q" 1%float
                (fluid_select form) = Normal (p1_pa i) /\
        t1_k i = (evap_temp form + KELVIN_OFFSET + superheat form)%float) /\
  (if directOutlet tab form
   then p2_pa i = (outlet_pressure form * 1e5)%float
   else PropsSI cp "P" "T" (condensing_temperature form + KELVIN_OFFSET)%float "Q" 0%float
                (fluid_select form) = Normal (p2_pa i)).
Proof.
  intros H. apply evaluate_Normal_inv in H as (w0 & Hi & _).
  apply resolveInputs_Normal_inv in Hi as (_ & (wi & Hinlet & Houtlet) & _).
  split.
  - revert Hinlet. unfold resolveInlet, directInlet, fluidName. cbv zeta.
    destruct (isGasTab tab || _).
    + destruct (JS.isNaN _ || _); [discriminate|].
      intros H. apply ret_Normal_inv in H as [H _]. now injection H as <- <-.
    + destruct (JS.isNaN _ || _); [discriminate|].
      intros H. apply bind_Normal_inv in H as (p1 & wq & Hq & H).
      apply callPropsSI_Normal_inv in Hq as [Hq _].
      apply ret_Normal_inv in H as [H _]. injection H as <- <-. auto.
  - revert Houtlet. unfold resolveOutlet, directOutlet, fluidName. cbv zeta.
    destruct (isGasTab tab || _).
    + destruct (JS.isNaN _); [discriminate|].
      intros H. now apply ret_Normal_inv in H as [<- _].
    + destruct (JS.isNaN _); [discriminate|].
      intros H. now apply callPropsSI_Normal_inv in H as [H _].
Qed.

(** 120 °C saturation temperature with 10 K superheat, condensing at 30 °C. *)
Lemma resolved_inputs_by_mode_witness :
  evaluate toFixed_ecma tableOracle steam (withModes tsup tcond mass defaultForm)
           clearedWorld
    = (Normal (saturationInputs, defaultStatePoints, defaultFlow),
       snd (evaluate toFixed_ecma tableOracle steam (withModes tsup tcond mass defaultForm)
              clearedWorld)) /\
  PropsSI tableOracle "P" "T" (120 + KELVIN_OFFSET)%float "Q" 1%float "Water"
    = Normal (p1_pa saturationInputs) /\
  PropsSI tableOracle "P" "T" (30 + KELVIN_OFFSET)%float "Q" 0%float "Water"
    = Normal (p2_pa saturationInputs).
Proof.
  assert (evaluate toFixed_ecma tableOracle steam (withModes tsup tcond mass defaultForm)
                   clearedWorld
          = (Normal (saturationInputs, defaultStatePoints, defaultFlow),
             snd (evaluate toFixed_ecma tableOracle steam
                    (withModes tsup tcond mass defaultForm) clearedWorld))) as E
    by (vm_compute; reflexivity).
  split; [exact E|].
  destruct (resolved_inputs_by_mode toFixed_ecma tableOracle steam
              (withModes tsup tcond mass defaultForm) clearedWorld _
              saturationInputs defaultStatePoints defaultFlow E) as ((H1 & _) & H2).
  split; [exact H1 | exact H2].
Defined.

(** * The loader and the start of the page *)

(** ** Strings *)

Module JSStringFacts.

Import JSString.

Lemma append_nil (b : string) : "" +:+ b = b.
Proof. reflexivity. Qed.

Lemma append_cons (x : Ascii.ascii) (a b : string) : String x a +:+ b = String x (a +:+ b).
Proof. reflexivity. Qed.

Lemma append_assoc (a b c : string) : (a +:+ b) +:+ c = a +:+ (b +:+ c).
Proof.
  induction a as [|x a IH]; [reflexivity|].
  rewrite !append_cons. f_equal. exact IH.
Qed.

Lemma length_append (a b : string) :
  String.length (a +:+ b) = (String.length a + String.length b)%nat.
Proof.
  induction a as [|x a IH]; [reflexivity|].
  rewrite append_cons. simpl. f_equal. exact IH.
Qed.

Lemma drop_append (a b : string) (n : nat) :
  drop (String.length a + n) (a +:+ b) = drop n b.
Proof.
  induction a as [|x a IH]; [reflexivity|].
  rewrite append_cons. simpl. exact IH.
Qed.

Lemma take_append (a b : string) : take (String.length a) (a +:+ b) = a.
Proof.
  induction a as [|x a IH]; [rewrite append_nil; now destruct b|].
  rewrite append_cons. simpl. f_equal. exact IH.
Qed.

Lemma take_drop (n : nat) (s : string) : take n s +:+ drop n s = s.
Proof.
  revert s. induction n as [|n IH]; intros [|x s]; try reflexivity.
  simpl take. simpl drop. rewrite append_cons. f_equal. apply IH.
Qed.

(** [s.endsWith(t)] holds exactly of the strings that end in [t]. *)
Lemma endsWith_inv (s t : string) : endsWith s t = true -> exists p, s = p +:+ t.
Proof.
  unfold endsWith. intros H. apply andb_true_iff in H as [_ H].
  apply String.eqb_eq in H.
  exists (take (String.length s - String.length t) s).
  rewrite <- H at 2. symmetry. apply take_drop.
Qed.

Lemma endsWith_append (a b t : string) :
  endsWith b t = true -> endsWith (a +:+ b) t = true.
Proof.
  unfold endsWith. intros H. apply andb_true_iff in H as [Hlen H].
  apply Nat.leb_le in Hlen. rewrite length_append.
  apply andb_true_iff. split; [apply Nat.leb_le; lia|].
  replace (String.length a + String.length b - String.length t)%nat
    with (String.length a + (String.length b - String.length t))%nat by lia.
  now rewrite drop_append.
Qed.

Lemma lastChar_append (p t : string) : t <> EmptyString -> lastChar (p +:+ t) = lastChar t.
Proof.
  intros Ht. induction p as [|x p IH]; [reflexivity|].
  rewrite <- IH, append_cons. simpl. destruct (p +:+ t) eqn:E; [|reflexivity].
  destruct p; [rewrite append_nil in E | rewrite append_cons in E]; congruence.
Qed.

(** A directory is no .html file. *)
Lemma endsWith_directory (dir : string) : endsWith (dir +:+ "/") ".html" = false.
Proof.
  destruct (endsWith (dir +:+ "/") ".html") eqn:E; [|reflexivity].
  apply endsWith_inv in E as [p E]. apply (f_equal lastChar) in E.
  rewrite !lastChar_append in E by discriminate. discriminate.
Qed.

Lemma lastIndexOf_from_range c s : forall i found,
  lastIndexOf_from c s i found = found \/ (i <= lastIndexOf_from c s i found)%Z.
Proof.
  induction s as [|a s IH]; intros i found; simpl; [now left|].
  destruct (Ascii.eqb a c).
  - right. destruct (IH (i + 1)%Z i) as [->| H]; lia.
  - destruct (IH (i + 1)%Z found) as [->| H]; [now left | right; lia].
Qed.

(** Where [c] does not occur, the search returns what it was given. *)
Lemma lastIndexOf_from_absent c s : forall i,
  (0 <= i)%Z -> lastIndexOf_from c s i (-1) = (-1)%Z ->
  forall j found, lastIndexOf_from c s j found = found.
Proof.
  induction s as [|a s IH]; intros i Hi H j found; simpl in *; [reflexivity|].
  destruct (Ascii.eqb a c).
  - destruct (lastIndexOf_from_range c s (i + 1)%Z i) as [E|E]; lia.
  - apply (IH (i + 1)%Z); [lia | exact H].
Qed.

Lemma lastIndexOf_from_append c a b : forall i found,
  lastIndexOf_from c (a +:+ b) i found
  = lastIndexOf_from c b (i + Z.of_nat (String.length a)) (lastIndexOf_from c a i found).
Proof.
  induction a as [|x a IH]; intros i found.
  - rewrite append_nil. simpl. now rewrite Z.add_0_r.
  - rewrite append_cons. cbn [lastIndexOf_from]. rewrite IH. f_equal.
    simpl String.length. lia.
Qed.

(** The last slash of [dir/file] is the one before [file]. *)
Lemma lastIndexOf_file (dir file : string) :
  lastIndexOf file slash = (-1)%Z ->
  lastIndexOf (dir +:+ "/" +:+ file) slash = Z.of_nat (String.length dir).
Proof.
  intros H. unfold lastIndexOf. rewrite lastIndexOf_from_append.
  rewrite append_cons, append_nil. cbn [lastIndexOf_from].
  match goal with
  | |- context [Ascii.eqb ?a slash] => change (Ascii.eqb a slash) with true
  end.
  cbn iota.
  now rewrite (lastIndexOf_from_absent slash file 0 (Z.le_refl 0) H).
Qed.

Lemma substring0_directory (dir file : string) :
  substring0 (Z.of_nat (String.length dir) + 1) (dir +:+ "/" +:+ file) = dir +:+ "/".
Proof.
  unfold substring0.
  replace (Z.to_nat (Z.of_nat (String.length dir) + 1)) with (String.length (dir +:+ "/"))
    by (rewrite length_append; simpl; lia).
  rewrite <- append_assoc. apply take_append.
Qed.

End JSStringFacts.

(** ** [locateFile] *)

(** X10. The address of the .wasm file does not depend on whether the
    page was opened by the name of its .html file or by its directory:
    for a page [dir/file] whose [file] ends in .html (and holds no slash)
    [locateFile] answers as for [dir/], and a path that ends in .wasm is
    sent to [dir/js/path?v=now], the address that the other copy of the
    loader builds from the directory [dir/js/]. *)
Theorem locateFile_page_or_directory (dir file protocol path scriptDirectory : string)
    (now : N) :
  JSString.endsWith file ".html" = true ->
  JSString.lastIndexOf file JSString.slash = (-1)%Z ->
  Loader.locateFile (Loader.mkLocation (dir +:+ "/" +:+ file) protocol) now path scriptDirectory
  = Loader.locateFile (Loader.mkLocation (dir +:+ "/") protocol) now path scriptDirectory /\
  (JSString.endsWith path ".wasm" = true ->
   Loader.locateFile (Loader.mkLocation (dir +:+ "/" +:+ file) protocol) now path scriptDirectory
   = dir +:+ "/js/" +:+ path +:+ "?v=" +:+ JSString.ofInteger now /\
   Loader.locateFile (Loader.mkLocation (dir +:+ "/" +:+ file) protocol) now path scriptDirectory
   = Loader.locateFile_prefix now path (dir +:+ "/js/")).
Proof.
  intros Hhtml Hslash.
  assert (Loader.locateFile (Loader.mkLocation (dir +:+ "/" +:+ file) protocol) now path
            scriptDirectory
          = Loader.locateFile (Loader.mkLocation (dir +:+ "/") protocol) now path
              scriptDirectory) as E.
  { unfold Loader.locateFile. cbn [Loader.pathname].
    destruct (JSString.endsWith path ".wasm"); [|reflexivity].
    rewrite JSStringFacts.endsWith_directory.
    rewrite (JSStringFacts.endsWith_append dir ("/" +:+ file) ".html")
      by (apply (JSStringFacts.endsWith_append "/" file ".html"), Hhtml).
    rewrite (JSStringFacts.lastIndexOf_file dir file Hslash).
    now rewrite JSStringFacts.substring0_directory. }
  split; [exact E|]. intros Hwasm. rewrite E.
  unfold Loader.locateFile, Loader.locateFile_prefix. cbn [Loader.pathname].
  rewrite Hwasm, JSStringFacts.endsWith_directory.
  rewrite !JSStringFacts.append_assoc. split; reflexivity.
Qed.

(** The page /MyRepo/index.html finds /MyRepo/js/coolprop.wasm. *)
Lemma locateFile_page_or_directory_witness :
  Loader.locateFile (Loader.mkLocation "/MyRepo/index.html" "https:") 1700000000000
    "coolprop.wasm" "/MyRepo/js/"
  = Loader.locateFile (Loader.mkLocation "/MyRepo/" "https:") 1700000000000
      "coolprop.wasm" "/MyRepo/js/" /\
  Loader.locateFile (Loader.mkLocation "/MyRepo/index.html" "https:") 1700000000000
    "coolprop.wasm" "/MyRepo/js/"
  = "/MyRepo/js/coolprop.wasm?v=1700000000000".
Proof.
  destruct (locateFile_page_or_directory "/MyRepo" "index.html" "https:" "coolprop.wasm"
              "/MyRepo/js/" 1700000000000 eq_refl eq_refl) as [E H].
  split; [exact E|]. destruct (H eq_refl) as [H1 _]. exact H1.
Defined.

(** ** A load that fails, a load that succeeds *)

Lemma prefix_append_both (p s t : string) :
  String.prefix s t = true -> String.prefix (p +:+ s) (p +:+ t) = true.
Proof.
  intros H. induction p as [|a p IH]; [exact H|].
  rewrite !JSStringFacts.append_cons. simpl.
  destruct (Ascii.ascii_dec a a); [exact IH | contradiction].
Qed.

Lemma loadErrorMessage_prefix loc err :
  String.prefix "CoolProp 加载失败。" (Loader.loadErrorMessage loc err) = true.
Proof.
  unfold Loader.loadErrorMessage.
  destruct (_ || _); [destruct (String.eqb _ _)|];
    rewrite ?JSStringFacts.append_assoc; apply prefix_append.
Qed.

Lemma loadErrorMessage_other loc err :
  mentions "Aborted" (Loader.err_message err) = false ->
  mentions "NotFoundError" (Loader.err_name err) = false ->
  Loader.loadErrorMessage loc err = "CoolProp 加载失败。具体错误: " +:+ Loader.err_message err.
Proof.
  intros H1 H2. unfold Loader.loadErrorMessage.
  now rewrite H1, H2, andb_false_r.
Qed.

Lemma loadErrorMessage_aborted loc err :
  mentions "Aborted" (Loader.err_message err) = true ->
  Loader.loadErrorMessage loc err
  = "CoolProp 加载失败。" +:+ Loader.notFoundHint +:+ Loader.placeHint
      +:+ (if String.eqb (Loader.protocol loc) "file:" then Loader.fileProtocolHint else "").
Proof.
  intros H. unfold Loader.loadErrorMessage. rewrite H. cbn [orb].
  destruct (String.eqb _ _); reflexivity.
Qed.

(** X11. When the factory of the library rejects, [loadCoolProp] throws
    and [initAppLogic] shows "错误：CoolProp 加载失败。" followed by the
    hints for a file that was not found (the library's own message is
    dropped, and the hint on file:// is added for that protocol only) or,
    for any other failure, by the library's message; no field and no
    query changes, the handle stays unset, and every later click on the
    button is refused with the not-ready message. *)
Theorem failed_load_refuses_evaluation (toFixed : float -> nat -> string)
    (loc : Loader.Location) (err : Loader.JsError) (g : Globals) (w : World) :
  CP g = None ->
  let started := initAppLogic (Loader.loadCoolProp loc (Loader.Rejected err)) g w in
  CP (fst started) = None /\
  doc (snd started) = doc w /\ trace (snd started) = trace w /\
  String.prefix "错误：CoolProp 加载失败。" (textContent (statusBar (snd started))) = true /\
  (mentions "Aborted" (Loader.err_message err) = true ->
   textContent (statusBar (snd started))
   = "错误：CoolProp 加载失败。" +:+ Loader.notFoundHint +:+ Loader.placeHint
       +:+ (if String.eqb (Loader.protocol loc) "file:"
            then Loader.fileProtocolHint else "")) /\
  (mentions "Aborted" (Loader.err_message err) = false ->
   mentions "NotFoundError" (Loader.err_name err) = false ->
   textContent (statusBar (snd started))
   = "错误：CoolProp 加载失败。具体错误: " +:+ Loader.err_message err) /\
  forall form w', handleCalculation toFixed (fst started) form w'
                  = set_status_text notReadyMessage w'.
Proof.
  intros HCP started. subst started. cbn.
  split; [exact HCP|]. split; [reflexivity|]. split; [reflexivity|].
  split; [|split; [|split]].
  - change ("错误：CoolProp 加载失败。") with ("错误：" +:+ "CoolProp 加载失败。").
    apply prefix_append_both, loadErrorMessage_prefix.
  - intros H. now rewrite (loadErrorMessage_aborted loc err H).
  - intros H1 H2. now rewrite (loadErrorMessage_other loc err H1 H2).
  - intros form w'. unfold handleCalculation. now rewrite HCP.
Qed.

(** Opened from the file system, the factory aborts. *)
Lemma failed_load_refuses_evaluation_witness :
  textContent (statusBar (snd (initAppLogic
     (Loader.loadCoolProp (Loader.mkLocation "/C:/calc/index.html" "file:")
        (Loader.Rejected (Loader.mkJsError "Aborted(both async and sync fetching of the wasm failed)"
                            "RuntimeError")))
     initialGlobals clearedWorld)))
  = "错误：CoolProp 加载失败。" +:+ Loader.notFoundHint +:+ Loader.placeHint
      +:+ Loader.fileProtocolHint /\
  handleCalculation toFixed_ecma
    (fst (initAppLogic
       (Loader.loadCoolProp (Loader.mkLocation "/C:/calc/index.html" "file:")
          (Loader.Rejected (Loader.mkJsError "Aborted(both async and sync fetching of the wasm failed)"
                              "RuntimeError")))
       initialGlobals clearedWorld))
    defaultForm clearedWorld
  = set_status_text notReadyMessage clearedWorld.
Proof.
  destruct (failed_load_refuses_evaluation toFixed_ecma
              (Loader.mkLocation "/C:/calc/index.html" "file:")
              (Loader.mkJsError "Aborted(both async and sync fetching of the wasm failed)"
                 "RuntimeError")
              initialGlobals clearedWorld eq_refl)
    as (_ & _ & _ & _ & Haborted & _ & Hclick).
  split; [exact (Haborted eq_refl) | exact (Hclick defaultForm clearedWorld)].
Defined.

Lemma error_is_not_notReady message : "计算错误: " +:+ message <> notReadyMessage.
Proof. discriminate. Qed.

(** X12. When the factory fulfils, [initAppLogic] stores the handle
    before it reads the version: the status bar then shows the version,
    or, should reading it throw, the error of that call, and in both
    cases no later click on the button is refused as not ready. *)
Theorem settled_load_installs_library (toFixed : float -> nat -> string)
    (loc : Loader.Location) (cp : Oracle) (g : Globals) (w : World) :
  let started := initAppLogic (Loader.loadCoolProp loc (Loader.Fulfilled cp)) g w in
  CP (fst started) = Some cp /\
  currentTab (fst started) = currentTab g /\
  doc (snd started) = doc w /\ trace (snd started) = trace w /\
  textContent (statusBar (snd started))
  = match get_global_param_string cp "version" with
    | Normal version => "CoolProp 物性库加载成功 (v" +:+ version +:+ ")"
    | Throw message => "错误：" +:+ message
    end /\
  forall form w',
    textContent (statusBar (handleCalculation toFixed (fst started) form w'))
    <> notReadyMessage.
Proof.
  intros started. subst started. cbn [Loader.loadCoolProp].
  assert (CP (fst (initAppLogic (Normal cp) g w)) = Some cp) as HCP
    by (unfold initAppLogic; destruct (get_global_param_string cp "version"); reflexivity).
  split; [exact HCP|].
  split; [unfold initAppLogic; destruct (get_global_param_string cp "version"); reflexivity|].
  split; [unfold initAppLogic; destruct (get_global_param_string cp "version"); reflexivity|].
  split; [unfold initAppLogic; destruct (get_global_param_string cp "version"); reflexivity|].
  split; [unfold initAppLogic; destruct (get_global_param_string cp "version"); reflexivity|].
  intros form w'.
  destruct (handleCalculation_page toFixed _ cp form HCP) as (r & qs & _ & Hpage).
  rewrite Hpage. destruct r as [[[i sp] fl]|message]; cbn.
  - discriminate.
  - apply error_is_not_notReady.
Qed.

(** * The controls of the page *)

(** ** Elements that carry the class [hidden] *)

Lemma elem_of_toggled (k id : string) (force : bool) (h : gset string) :
  k ∈ (if force then h ∪ {[ id ]} else h ∖ {[ id ]})
  <-> (if String.eqb k id then force = true else k ∈ h).
Proof.
  destruct force; [rewrite elem_of_union | rewrite elem_of_difference];
    rewrite elem_of_singleton; destruct (String.eqb_spec k id); intuition congruence.
Qed.

Lemma elem_of_added (k id : string) (h : gset string) :
  k ∈ h ∪ {[ id ]} <-> (if String.eqb k id then True else k ∈ h).
Proof.
  rewrite elem_of_union, elem_of_singleton.
  destruct (String.eqb_spec k id); intuition congruence.
Qed.

Lemma elem_of_removed (k id : string) (h : gset string) :
  k ∈ h ∖ {[ id ]} <-> (if String.eqb k id then False else k ∈ h).
Proof.
  rewrite elem_of_difference, elem_of_singleton.
  destruct (String.eqb_spec k id); intuition congruence.
Qed.

(** The fields of the controls, through the setters. *)
Ltac fields :=
  cbn [hidden controls globals world currentTab CP
       set_hidden classList_toggle classList_add classList_remove
       set_fluidOptions set_selectedIndex set_inletRadio
       set_outletRadio set_flowRadio set_evapTempLabel set_activeTabs
       inletRadio outletRadio flowRadio fluidOptions selectedIndex activeTabs
       evapTempLabel isGasTab].

(** One comparison of ids: computed when both are known, by cases when
    one is not. *)
Ltac step_key :=
  match goal with
  | |- context [String.eqb ?a ?b] =>
      first [ let v := eval vm_compute in (String.eqb a b) in
              match v with
              | true => change (String.eqb a b) with true
              | false => change (String.eqb a b) with false
              end
            | destruct (String.eqb_spec a b) as [->|?] ];
      cbn iota
  end.

(** Membership in a set of ids that was built by adding and removing. *)
Ltac membership :=
  repeat (first [ rewrite elem_of_toggled | rewrite elem_of_added
                | rewrite elem_of_removed ];
          repeat step_key).

(** What is left: the decision of a radio's value, or a contradiction. *)
Ltac settle :=
  rewrite ?bool_decide_eq_true;
  try reflexivity;
  try (split; intros; try congruence; try tauto; discriminate).

Lemma handleInletModeChange_spec (c : Controls) :
  exists h, handleInletModeChange c = set_hidden h c /\
    forall k, k ∈ h
      <-> (if String.eqb k "inlet-mode-tsup" then inletRadio c <> tsup
           else if String.eqb k "inlet-mode-pt" then inletRadio c <> pt
           else k ∈ hidden c).
Proof.
  eexists. split; [reflexivity|]. intros k. fields. membership; settle.
Qed.

Lemma handleOutletModeChange_spec (c : Controls) :
  exists h, handleOutletModeChange c = set_hidden h c /\
    forall k, k ∈ h
      <-> (if String.eqb k "outlet-mode-cond-temp" then outletRadio c <> tcond
           else if String.eqb k "outlet-mode-pressure" then outletRadio c <> pressure
           else k ∈ hidden c).
Proof.
  eexists. split; [reflexivity|]. intros k. fields. membership; settle.
Qed.

Lemma handleFlowModeChange_spec (c : Controls) :
  exists h, handleFlowModeChange c = set_hidden h c /\
    forall k, k ∈ h
      <-> (if String.eqb k "mass-flow-inputs" then flowRadio c <> mass
           else if String.eqb k "displacement-flow-inputs" then flowRadio c <> displacement
           else if String.eqb k "direct-volume-flow-inputs" then flowRadio c <> volume
           else k ∈ hidden c).
Proof.
  unfold handleFlowModeChange.
  destruct (flowRadio c); (eexists; split; [reflexivity|]); intros k; fields;
    membership; settle.
Qed.

Lemma updateUIForTab_spec (m : Markup) (tab : Tab) (c : Controls) :
  exists h,
    updateUIForTab m tab c
    = mkControls (activeTabs c) (fluidOptions c) (selectedIndex c)
        (if isGasTab tab then mode_pt m else inletRadio c)
        (if isGasTab tab then outlet_mode_p m else outletRadio c)
        (flowRadio c) h
        (if isGasTab tab then evapTempLabel c
         else if bool_decide (tab = orc) then "蒸发温度" else "饱和温度") /\
    forall k, k ∈ h
      <-> (if String.eqb k "outlet-mode-cond-temp"
           then (if isGasTab tab then outlet_mode_p m else outletRadio c) <> tcond
           else if String.eqb k "outlet-mode-pressure"
           then (if isGasTab tab then outlet_mode_p m else outletRadio c) <> pressure
           else if String.eqb k "inlet-mode-tsup"
           then (if isGasTab tab then mode_pt m else inletRadio c) <> tsup
           else if String.eqb k "inlet-mode-pt"
           then (if isGasTab tab then mode_pt m else inletRadio c) <> pt
           else if String.eqb k "outlet-mode-selector" then tab = gas
           else if String.eqb k "inlet-mode-selector" then tab = gas
           else k ∈ hidden c).
Proof.
  unfold updateUIForTab.
  destruct tab; (eexists; split; [reflexivity|]); intros k;
    unfold handleOutletModeChange, handleInletModeChange; fields;
    membership; settle.
Qed.

Lemma updateFluidOptions_spec (tab : Tab) (c : Controls) :
  updateFluidOptions tab c = set_fluidOptions (fluidMaps tab) (Some 0%nat) c /\
  (0 < length (fluidMaps tab))%nat.
Proof. destruct tab; split; cbn; try reflexivity; lia. Qed.

Lemma initAppLogic_currentTab loaded g w :
  currentTab (fst (initAppLogic loaded g w)) = currentTab g.
Proof.
  unfold initAppLogic. destruct loaded as [cp|message]; [|reflexivity].
  now destruct (get_global_param_string cp "version").
Qed.

(** ** What each listener leaves *)

Ltac fields_everywhere :=
  cbn [hidden controls globals world currentTab CP
       set_hidden classList_toggle classList_add classList_remove
       set_fluidOptions set_selectedIndex set_inletRadio
       set_outletRadio set_flowRadio set_evapTempLabel set_activeTabs
       inletRadio outletRadio flowRadio fluidOptions selectedIndex activeTabs
       evapTempLabel isGasTab] in *.

(** Replace the innermost listener by what it leaves. *)
Ltac handler_spec :=
  let h := fresh "h" in
  let E := fresh "E" in
  let H := fresh "Hh" in
  match goal with
  | |- context [updateFluidOptions ?tab ?c] =>
      lazymatch c with
      | context [handleInletModeChange _] => fail
      | context [handleOutletModeChange _] => fail
      | context [handleFlowModeChange _] => fail
      | context [updateUIForTab _ _ _] => fail
      | _ => rewrite (proj1 (updateFluidOptions_spec tab c))
      end
  | |- context [updateUIForTab ?m ?tab ?c] =>
      lazymatch c with
      | context [handleInletModeChange _] => fail
      | context [handleOutletModeChange _] => fail
      | context [handleFlowModeChange _] => fail
      | context [updateFluidOptions _ _] => fail
      | _ => destruct (updateUIForTab_spec m tab c) as (h & E & H); rewrite E; clear E
      end
  | |- context [handleInletModeChange ?c] =>
      lazymatch c with
      | context [handleOutletModeChange _] => fail
      | context [handleFlowModeChange _] => fail
      | context [updateUIForTab _ _ _] => fail
      | context [updateFluidOptions _ _] => fail
      | _ => destruct (handleInletModeChange_spec c) as (h & E & H); rewrite E; clear E
      end
  | |- context [handleOutletModeChange ?c] =>
      lazymatch c with
      | context [handleInletModeChange _] => fail
      | context [handleFlowModeChange _] => fail
      | context [updateUIForTab _ _ _] => fail
      | context [updateFluidOptions _ _] => fail
      | _ => destruct (handleOutletModeChange_spec c) as (h & E & H); rewrite E; clear E
      end
  | |- context [handleFlowModeChange ?c] =>
      lazymatch c with
      | context [handleInletModeChange _] => fail
      | context [handleOutletModeChange _] => fail
      | context [updateUIForTab _ _ _] => fail
      | context [updateFluidOptions _ _] => fail
      | _ => destruct (handleFlowModeChange_spec c) as (h & E & H); rewrite E; clear E
      end
  end; fields_everywhere.

(** Membership in the sets that [handler_spec] has named. *)
Ltac hidden_of :=
  repeat match goal with
  | H : forall k, k ∈ ?h <-> _ |- context [_ ∈ ?h] => rewrite H; repeat step_key
  end.

Ltac conjuncts := repeat match goal with |- _ /\ _ => split end.

(** ** The controls stay in step with the tab *)

Lemma initializeApp_synchronised (m : Markup) (p : Page) : synchronised (initializeApp m p).
Proof.
  unfold synchronised, initializeApp. cbn [controls globals].
  pose proof (proj2 (updateFluidOptions_spec (currentTab (globals p)) (controls p))) as Hlen.
  repeat handler_spec.
  split; [reflexivity|]. split; [exists 0%nat; split; [reflexivity | exact Hlen]|].
  conjuncts; hidden_of; reflexivity.
Qed.

Section EventsPreserve.

Variable toFixed : float -> nat -> string.
Variable m : Markup.

Lemma step_synchronised (p p' : Page) :
  synchronised p -> step toFixed m p p' -> synchronised p'.
Proof.
  intros Hp Hstep. unfold synchronised in *.
  destruct Hp as (Hopt & (i & Hi & Hlt) & Hipt & Hits & Hopr & Hoct & Hfm & Hfd & Hfv & His & Hos).
  destruct Hstep as [tab p|j p Hj|mode p|mode p|mode p|p|form p Hreads|loaded p];
    unfold handleTabClick, clearForm; cbn [controls globals currentTab].
  - pose proof (proj2 (updateFluidOptions_spec tab (controls p))) as Hlen.
    repeat handler_spec.
    split; [reflexivity|]. split; [exists 0%nat; split; [reflexivity | exact Hlen]|].
    conjuncts; hidden_of; try reflexivity; assumption.
  - fields_everywhere. split; [exact Hopt|]. split; [exists j; split; [reflexivity | exact Hj]|].
    conjuncts; assumption.
  - repeat handler_spec. split; [exact Hopt|]. split; [exists i; split; assumption|].
    conjuncts; hidden_of; try reflexivity; assumption.
  - repeat handler_spec. split; [exact Hopt|]. split; [exists i; split; assumption|].
    conjuncts; hidden_of; try reflexivity; assumption.
  - repeat handler_spec. split; [exact Hopt|]. split; [exists i; split; assumption|].
    conjuncts; hidden_of; try reflexivity; assumption.
  - repeat handler_spec. split; [exact Hopt|]. split; [exists i; split; assumption|].
    conjuncts; hidden_of; try reflexivity; assumption.
  - split; [exact Hopt|]. split; [exists i; split; assumption|].
    conjuncts; assumption.
  - rewrite initAppLogic_currentTab.
    split; [exact Hopt|]. split; [exists i; split; assumption|].
    conjuncts; assumption.
Qed.

End EventsPreserve.


Lemma includes_option (l : list (string * string)) (i : nat) :
  (i < length l)%nat ->
  includes (map snd l) (match l !! i with Some (_, value) => value | None => "" end) = true.
Proof.
  revert i. induction l as [|[text value] l IH]; intros i Hi; [simpl in Hi; lia|].
  destruct i as [|i]; cbn.
  - now rewrite String.eqb_refl.
  - apply orb_true_iff. right. apply IH. simpl in Hi. lia.
Qed.

Lemma synchronised_fluid (p : Page) (form : Form) :
  synchronised p -> reads (controls p) form ->
  includes (validFluids (currentTab (globals p))) (fluid_select form) = true.
Proof.
  intros (Hopt & (i & Hi & Hlt) & _) (Hfluid & _).
  rewrite Hfluid. unfold selectValue, validFluids. rewrite Hi, <- Hopt.
  now apply includes_option.
Qed.

(** X13. The start of the page brings the controls in step with the
    current tab, whatever index.html holds, and every event keeps them
    so: after [initializeApp] and after each listener the select offers
    exactly the fluids of the current tab with one of them selected, of
    each radio group the panel shown is that of the checked radio, and
    the two mode selectors are hidden on the gas tab and only there. *)
Theorem events_keep_controls_synchronised (toFixed : float -> nat -> string) (m : Markup) :
  (forall p0, synchronised (initializeApp m p0)) /\
  (forall p p', synchronised p -> step toFixed m p p' -> synchronised p').
Proof.
  split; [apply initializeApp_synchronised | apply step_synchronised].
Qed.

(** X14. On every page that the events lead to from the start, the
    fluid that [handleCalculation] reads from the select belongs to the
    current tab: the defensive check of the handler passes, so its
    mismatch error is not produced by using the page. *)
Theorem reachable_page_passes_fluid_check (toFixed : float -> nat -> string) (m : Markup)
    (p0 p : Page) (form : Form) (w : World) :
  reachable toFixed m p0 p ->
  reads (controls p) form ->
  checkFluid (currentTab (globals p)) form w = (Normal tt, w).
Proof.
  intros Hreach Hreads.
  assert (synchronised p) as Hp.
  { refine (rtc_ind_r (fun q => synchronised q) (initializeApp m p0)
              (initializeApp_synchronised m p0) _ p Hreach).
    intros q q' _ Hstep Hq. exact (step_synchronised toFixed m q q' Hq Hstep). }
  unfold checkFluid, fluidName. now rewrite (synchronised_fluid p form Hp Hreads).
Qed.

(** ** Tab links *)

(** X15. A second click on the same tab link changes nothing: not the
    fluid list and its selection, not the radios, not the panels. *)
Theorem handleTabClick_idempotent (m : Markup) (tab : Tab) (p : Page) :
  handleTabClick m tab (handleTabClick m tab p) = handleTabClick m tab p.
Proof.
  unfold handleTabClick. cbn [controls globals world CP currentTab].
  repeat handler_spec.
  f_equal. destruct tab; fields_everywhere; f_equal; apply set_eq; intros k; hidden_of;
    reflexivity.
Qed.

(** X16. The gas tab checks the radios [mode-pt] and [outlet-mode-p],
    and leaving it for any tab does not bring back the inlet and outlet
    modes that were checked before; the flow mode, the fields and the
    results are not touched by either click. *)
Theorem gas_tab_overwrites_mode_choice (m : Markup) (tab : Tab) (p : Page) :
  let p' := handleTabClick m tab (handleTabClick m gas p) in
  inletRadio (controls p') = mode_pt m /\
  outletRadio (controls p') = outlet_mode_p m /\
  flowRadio (controls p') = flowRadio (controls p) /\
  world p' = world p.
Proof.
  intros p'. subst p'. unfold handleTabClick. cbn [controls globals world CP currentTab].
  repeat handler_spec. now destruct tab.
Qed.

(** ** Clearing the form *)

Lemma foldl_set_doc (ws : list (string * string)) (w : World) :
  foldl (fun w kv => set_doc (fst kv) (snd kv) w) w ws
  = mkWorld (applyWrites ws (doc w)) (statusBar w) (trace w).
Proof.
  revert w. induction ws as [|kv ws IH]; intros w; [now destruct w|].
  cbn [foldl]. rewrite IH. reflexivity.
Qed.

Lemma foldl_set_cell (cells : list string) (w : World) :
  foldl (fun w cell => set_doc cell "--" w) w cells
  = mkWorld (applyWrites (map (fun cell => (cell, "--")) cells) (doc w))
            (statusBar w) (trace w).
Proof.
  revert w. induction cells as [|cell cells IH]; intros w; [now destruct w|].
  cbn [foldl map]. rewrite IH. reflexivity.
Qed.

Lemma applyWrites_app (ws ws' : list (string * string)) (d : gmap string string) :
  applyWrites (ws ++ ws') d = applyWrites ws' (applyWrites ws d).
Proof. unfold applyWrites. apply foldl_app. Qed.

Lemma clearForm_world (m : Markup) (p : Page) :
  world (clearForm m p)
  = mkWorld (applyWrites (clearedWrites m) (doc (world p)))
            (statusAfter "已清空。" clearedStyles (statusBar (world p)))
            (trace (world p)).
Proof.
  unfold clearForm, clearedWrites. cbn [world].
  rewrite foldl_set_doc, foldl_set_cell, applyWrites_app. reflexivity.
Qed.

Lemma clearForm_controls (m : Markup) (p : Page) :
  controls (clearForm m p)
  = handleFlowModeChange
      (updateUIForTab m (currentTab (globals p))
         (set_flowRadio (mode_mass m)
            (set_outletRadio (outlet_mode_p m)
               (set_inletRadio (mode_pt m) (controls p))))).
Proof. reflexivity. Qed.

Lemma page_eta (p : Page) : p = mkPage (globals p) (controls p) (world p).
Proof. now destruct p. Qed.

(** X17. Clearing twice is clearing once. *)
Theorem clearForm_idempotent (m : Markup) (p : Page) :
  clearForm m (clearForm m p) = clearForm m p.
Proof.
  rewrite (page_eta (clearForm m (clearForm m p))), (page_eta (clearForm m p)).
  rewrite !clearForm_world, !clearForm_controls.
  cbn [globals clearForm doc statusBar trace]. f_equal.
  - repeat handler_spec.
    destruct (currentTab (globals p)); unfold set_hidden; fields_everywhere; f_equal;
      apply set_eq; intros k; hidden_of; reflexivity.
  - f_equal.
    + apply applyWrites_twice.
    + unfold statusAfter. cbn [textContent style]. f_equal. apply applyWrites_twice.
Qed.

Lemma lastWrite_app (k : string) (ws ws' : list (string * string)) :
  lastWrite k (ws ++ ws')
  = match lastWrite k ws' with Some v => Some v | None => lastWrite k ws end.
Proof.
  induction ws' as [|kv ws' IH] using rev_ind; [now rewrite app_nil_r|].
  rewrite app_assoc, !lastWrite_snoc, IH. now destruct (String.eqb (fst kv) k).
Qed.

Lemma lastWrite_cells (k : string) (cells : list string) :
  lastWrite k (map (fun cell => (cell, "--")) cells)
  = if bool_decide (k ∈ cells) then Some "--" else None.
Proof.
  induction cells as [|cell cells IH] using rev_ind; [reflexivity|].
  rewrite map_app. cbn [map]. rewrite lastWrite_snoc, IH. cbn [fst snd].
  destruct (String.eqb_spec cell k) as [->|Hne].
  - rewrite bool_decide_eq_true_2; [reflexivity|]. apply elem_of_app. right. now left.
  - destruct (bool_decide (k ∈ cells)) eqn:E.
    + apply bool_decide_eq_true in E. rewrite bool_decide_eq_true_2; [reflexivity|].
      apply elem_of_app. now left.
    + apply bool_decide_eq_false in E. rewrite bool_decide_eq_false_2; [reflexivity|].
      intros [H|H]%elem_of_app; [contradiction|].
      apply list_elem_of_singleton in H. congruence.
Qed.

Lemma lastWrite_clearedValues (k v : string) :
  (k, v) ∈ clearedValues -> lastWrite k clearedValues = Some v.
Proof.
  unfold clearedValues. intros H.
  repeat (apply elem_of_cons in H as [H|H]; [injection H as -> ->; reflexivity|]).
  now apply elem_of_nil in H.
Qed.

(** X18. After [clearForm], whatever the page held (the results of a
    calculation, an error): every cell of the results table reads "--",
    each of the twelve inputs holds its default and each of the three
    summary fields is empty (a field that is not also a cell of the
    table), every other element is as before, the status bar reads
    "已清空。" with normal white space, no query was issued, and the tab,
    the library handle and the selected fluid are as before. *)
Theorem clearForm_blanks_results (m : Markup) (p : Page) :
  let p' := clearForm m p in
  (forall k, k ∈ tableCells m -> doc (world p') !! k = Some "--") /\
  (forall k v, (k, v) ∈ clearedValues -> k ∉ tableCells m ->
               doc (world p') !! k = Some v) /\
  (forall k, k ∉ map fst clearedValues -> k ∉ tableCells m ->
             doc (world p') !! k = doc (world p) !! k) /\
  textContent (statusBar (world p')) = "已清空。" /\
  style (statusBar (world p')) !! "whiteSpace" = Some "normal" /\
  trace (world p') = trace (world p) /\
  globals p' = globals p /\
  selectValue (controls p') = selectValue (controls p).
Proof.
  intros p'. subst p'. rewrite clearForm_world, clearForm_controls.
  cbn [doc statusBar trace textContent style statusAfter].
  split; [|split; [|split; [|split; [|split; [|split; [|split]]]]]].
  - intros k Hk. rewrite lookup_applyWrites. unfold clearedWrites.
    rewrite lastWrite_app, lastWrite_cells. now rewrite bool_decide_eq_true_2.
  - intros k v Hkv Hk. rewrite lookup_applyWrites. unfold clearedWrites.
    rewrite lastWrite_app, lastWrite_cells. rewrite bool_decide_eq_false_2 by exact Hk.
    now rewrite (lastWrite_clearedValues k v Hkv).
  - intros k Hk1 Hk2. rewrite lookup_applyWrites. unfold clearedWrites.
    rewrite lastWrite_app, lastWrite_cells. rewrite bool_decide_eq_false_2 by exact Hk2.
    now rewrite (lastWrite_None k clearedValues Hk1).
  - reflexivity.
  - now rewrite lookup_applyWrites.
  - reflexivity.
  - reflexivity.
  - repeat handler_spec. reflexivity.
Qed.

(** The select after a click on the steam tab holds Water. *)
Lemma reachable_page_passes_fluid_check_witness :
  checkFluid steam defaultForm clearedWorld = (Normal tt, clearedWorld).
Proof.
  apply (reachable_page_passes_fluid_check toFixed_ecma pageMarkup blankPage
           (handleTabClick pageMarkup steam (initializeApp pageMarkup blankPage))
           defaultForm clearedWorld).
  - apply rtc_once. apply TabClick.
  - split; [|split; [|split]]; reflexivity.
Defined.

(** * The status bar *)

Lemma lastWrite_two_styles (k b c : string) :
  k <> "backgroundColor" -> k <> "color" ->
  lastWrite k [ ("backgroundColor", b); ("color", c) ] = None.
Proof.
  intros Hb Hc. apply lastWrite_None. cbn [map fst].
  rewrite !not_elem_of_cons. repeat split; try assumption. apply not_elem_of_nil.
Qed.

(** X19. [handleCalculation] sets two styles of the status bar, the
    colour and the background, and no other: what an earlier step left
    elsewhere, such as the white space "pre-wrap" of a failed start, is
    still there after any click (js/app.js sets the white space back to
    normal; the later copy leaves that to [clearForm]). *)
Theorem handleCalculation_keeps_other_styles (toFixed : float -> nat -> string)
    (g : Globals) (form : Form) (w : World) (k : string) :
  k <> "backgroundColor" -> k <> "color" ->
  style (statusBar (handleCalculation toFixed g form w)) !! k = style (statusBar w) !! k.
Proof.
  intros Hb Hc. destruct (CP g) as [cp|] eqn:HCP.
  - destruct (handleCalculation_page toFixed g cp form HCP) as (r & qs & _ & Hpage).
    rewrite Hpage. destruct r as [[[i sp] fl]|message];
      cbn [statusBar style statusAfter]; rewrite lookup_applyWrites;
      unfold successStyles, errorStyles; now rewrite lastWrite_two_styles.
  - unfold handleCalculation. now rewrite HCP.
Qed.

(** After a failed start the status bar keeps its white space. *)
Lemma handleCalculation_keeps_other_styles_witness :
  style (statusBar (handleCalculation toFixed_ecma (readyGlobals steam) defaultForm
                      (snd (initAppLogic (Throw "CoolProp 加载失败。") initialGlobals
                              clearedWorld)))) !! "whiteSpace"
  = Some "pre-wrap".
Proof.
  rewrite (handleCalculation_keeps_other_styles toFixed_ecma (readyGlobals steam) defaultForm
             _ "whiteSpace"); [reflexivity | discriminate | discriminate].
Defined.

(** * The earlier copy *)

Lemma SFcompare_antisym a b : SFcompare b a = option_map CompOpp (SFcompare a b).
Proof.
  destruct a as [sa|sa| |sa ma ea], b as [sb|sb| |sb mb eb]; simpl;
    try reflexivity; try (destruct sa; reflexivity);
    try (destruct sb; reflexivity);
    try (destruct sa, sb; reflexivity).
  rewrite (Z.compare_antisym ea eb), !Pos.compare_cont_spec.
  rewrite (Pos.compare_antisym ma mb).
  destruct sa, sb; try reflexivity;
    destruct (ea ?= eb)%Z; simpl; try reflexivity;
    destruct (ma ?= mb)%positive; simpl; reflexivity.
Qed.


(** X20. [formatQuality] of js/app.js answers "--" for NaN and for
    nothing else: a quality strictly between 0 and 1 is shown with four
    decimals, one at or below 0 as "过冷", and every other number, being
    at or above 1, as "过热"; the comparisons with the two infinities never
    decide. *)
Theorem js_formatQuality_cases (toFixed : float -> nat -> string) (x : float) :
  JsApp.formatQuality toFixed x
  = if JS.isNaN x then "--"
    else if JS.gt x 0 && JS.lt x 1 then toFixed x 4%nat
    else if JS.le x 0 then "过冷"
    else "过热".
Proof.
  unfold JsApp.formatQuality.
  destruct (JS.isNaN x) eqn:En.
  - apply JSFacts.isNaN_spec in En.
    unfold JS.gt, JS.lt, JS.le, JS.ge, JS.strict_eq.
    rewrite !FloatAxioms.ltb_spec, !FloatAxioms.leb_spec, !FloatAxioms.eqb_spec.
    rewrite En. reflexivity.
  - destruct (JS.gt x 0 && JS.lt x 1) eqn:E1; [reflexivity|].
    destruct (JS.le x 0) eqn:E2; [reflexivity|].
    cbn [orb].
    assert (Prim2SF x <> S754_nan) as Hn.
    { intros H. apply JSFacts.isNaN_spec in H. congruence. }
    assert (JS.strict_eq x neg_infinity = false /\ JS.ge x 1 = true) as [-> ->];
      [|reflexivity].
    revert E1 E2. unfold JS.gt, JS.lt, JS.le, JS.ge, JS.strict_eq.
    rewrite !FloatAxioms.ltb_spec, !FloatAxioms.leb_spec, FloatAxioms.eqb_spec.
    unfold SFltb, SFleb, SFeqb.
    rewrite (SFcompare_antisym (Prim2SF x) (Prim2SF 1)).
    change (Prim2SF 0) with (S754_zero false).
    change (Prim2SF neg_infinity) with (S754_infinity true).
    destruct (Prim2SF x) as [s|s| |s m e]; [| | contradiction |].
    + destruct s; discriminate.
    + destruct s; simpl; [discriminate | intros _ _; split; reflexivity].
    + destruct s; [simpl; discriminate|].
      remember (SFcompare (S754_finite false m e) (Prim2SF 1)) as c1 eqn:C1.
      destruct c1 as [[]|]; simpl;
        discriminate || (intros _ _; split; reflexivity).
Qed.

Lemma resolveInlet_direct cp tab form w p1 t1 w1 :
  directInlet tab form = true ->
  resolveInlet cp tab form w = (Normal (p1, t1), w1) ->
  p1 = inlet_pressure form * 1e5 /\ t1 = inlet_temperature form + KELVIN_OFFSET.
Proof.
  unfold resolveInlet, directInlet. intros ->. cbv zeta.
  destruct (JS.isNaN _ || _); [discriminate|].
  intros H. apply ret_Normal_inv in H as [E _]. now injection E as <- <-.
Qed.

Lemma resolveOutlet_direct cp tab form w p2 w1 :
  directOutlet tab form = true ->
  resolveOutlet cp tab form w = (Normal p2, w1) ->
  p2 = outlet_pressure form * 1e5.
Proof.
  unfold resolveOutlet, directOutlet. intros ->. cbv zeta.
  destruct (JS.isNaN _); [discriminate|].
  intros H. now apply ret_Normal_inv in H as [<- _].
Qed.

Lemma js_evaluate_Normal_inv cp form w c w1 :
  JsApp.evaluate cp form w = (Normal c, w1) ->
  let fluid := fluid_select form in
  let p1 := inlet_pressure form * 1e5 in
  let t1 := inlet_temperature form + KELVIN_OFFSET in
  let p2 := outlet_pressure form * 1e5 in
  PropsSI cp "H" "P" p1 "T" t1 fluid = Normal (JsApp.h1 c) /\
  PropsSI cp "S" "P" p1 "T" t1 fluid = Normal (JsApp.s1 c) /\
  (exists d1, PropsSI cp "D" "P" p1 "T" t1 fluid = Normal d1 /\ JsApp.v1 c = 1.0 / d1) /\
  PropsSI cp "H" "P" p2 "S" (JsApp.s1 c) fluid = Normal (JsApp.h2s c) /\
  PropsSI cp "T" "P" p2 "S" (JsApp.s1 c) fluid = Normal (JsApp.t2s_k c) /\
  (exists d2s, PropsSI cp "D" "P" p2 "S" (JsApp.s1 c) fluid = Normal d2s /\
               JsApp.v2s c = 1.0 / d2s) /\
  JsApp.h2a c = JsApp.h1 c - (JsApp.h1 c - JsApp.h2s c) * (isentropic_efficiency form / 100.0) /\
  PropsSI cp "T" "P" p2 "H" (JsApp.h2a c) fluid = Normal (JsApp.t2a_k c) /\
  PropsSI cp "S" "P" p2 "H" (JsApp.h2a c) fluid = Normal (JsApp.s2a c) /\
  (exists d2a, PropsSI cp "D" "P" p2 "H" (JsApp.h2a c) fluid = Normal d2a /\
               JsApp.v2a c = 1.0 / d2a) /\
  match flow_mode form with
  | mass => JsApp.massFlow_kg_s c = mass_flow form
  | _ => JsApp.massFlow_kg_s c
         = ((displacement_cm3 form / 1e6 * rpm_input form) / 60.0
            * (volumetric_efficiency form / 100.0)) / JsApp.v1 c
  end.
Proof.
  unfold JsApp.evaluate. cbv zeta.
  destruct (JS.isNaN _ || _ || _ || _); [discriminate|].
  destruct (JS.ge _ _); [discriminate|].
  destruct (JS.le _ _ || _); [discriminate|].
  intros H. invert_steps.
  destruct (flow_mode form);
    match goal with
    | F : (if ?b then _ else _) _ = _ |- _ => destruct b; [discriminate|]
    end;
    invert_steps; cbn;
    (split; [assumption|]); (split; [assumption|]); (split; [eauto|]);
    (split; [assumption|]); (split; [assumption|]); (split; [eauto|]);
    (split; [reflexivity|]);
    (split; [assumption|]); (split; [assumption|]); (split; [eauto|]); reflexivity.
Qed.

(** X21. The two copies of app.js agree on the state points: for a
    form in the direct modes (pressure and temperature at the inlet,
    pressure at the outlet; js/app.js has no other) that both evaluate
    with success against the same library, they hold the same inlet
    enthalpy, entropy and specific volume, the same isentropic and the
    same actual outlet state, and, in the mass-flow and in the
    displacement mode, the same mass flow.  (The later copy adds the
    phase queries and the checks of the flow inputs; the power is
    computed from different expressions.) *)
Theorem copies_agree_on_state_points (toFixed : float -> nat -> string) (cp : Oracle)
    (tab : Tab) (form : Form) (w w1 w' w1' : World)
    (i : Inputs) (sp : StatePoints) (fl : Flow) (c : JsApp.Calc) :
  directInlet tab form = true ->
  directOutlet tab form = true ->
  evaluate toFixed cp tab form w = (Normal (i, sp, fl), w1) ->
  JsApp.evaluate cp form w' = (Normal c, w1') ->
  (JsApp.h1 c = h1 sp /\ JsApp.s1 c = s1 sp /\ JsApp.v1 c = v1 sp) /\
  (JsApp.h2s c = h2s sp /\ JsApp.t2s_k c = t2s_k sp /\ JsApp.v2s c = v2s sp) /\
  (JsApp.h2a c = h2a sp /\ JsApp.t2a_k c = t2a_k sp /\ JsApp.s2a c = s2a sp /\
   JsApp.v2a c = v2a sp) /\
  (flow_mode form <> volume -> JsApp.massFlow_kg_s c = massFlow_kg_s fl).
Proof.
  intros Hin Hout Hev Hjs.
  apply evaluate_Normal_inv in Hev as (w0 & Hi & Hsp & Hfl).
  apply resolveInputs_Normal_inv in Hi as (_ & (wi & Hinlet & Houtlet) & Heta & _).
  apply (resolveInlet_direct _ _ _ _ _ _ _ Hin) in Hinlet as [Hp1 Ht1].
  apply (resolveOutlet_direct _ _ _ _ _ _ Hout) in Houtlet.
  apply statePoints_Normal_inv in Hsp
    as ((H1 & S1 & (d1 & D1 & V1) & _) & (_ & H2s & T2s & (d2s & D2s & V2s) & _)
        & (H2a & T2a & S2a & (d2a & D2a & V2a) & _) & _).
  apply flowAndPower_Normal_inv in Hfl as (Hm & _).
  apply js_evaluate_Normal_inv in Hjs
    as (J1 & JS1 & (e1 & JD1 & JV1) & J2s & JT2s & (e2s & JD2s & JV2s) & J2a & JT2a & JS2a
        & (e2a & JD2a & JV2a) & Jm).
  rewrite Hp1, Ht1 in *. rewrite Houtlet in *. rewrite Heta in *.
  assert (JsApp.h1 c = h1 sp) as Eh1 by congruence.
  assert (JsApp.s1 c = s1 sp) as Es1 by congruence.
  assert (JsApp.v1 c = v1 sp) as Ev1 by congruence.
  rewrite Es1 in J2s, JT2s, JD2s.
  assert (JsApp.h2s c = h2s sp) as Eh2s by congruence.
  assert (JsApp.h2a c = h2a sp) as Eh2a by congruence.
  rewrite Eh2a in JT2a, JS2a, JD2a.
  split; [split; [exact Eh1 | split; [exact Es1 | exact Ev1]]|]. split; [|split].
  - split; [exact Eh2s|]. split; congruence.
  - split; [exact Eh2a|]. split; [congruence|]. split; congruence.
  - intros Hmode. revert Hm Jm. unfold resolveMassFlow. cbv zeta.
    destruct (flow_mode form); [| |contradiction].
    + destruct (JS.isNaN _ || _); [discriminate|].
      intros Hm ->. now apply ret_Normal_inv in Hm as [<- _].
    + destruct (JS.isNaN _ || _ || _); [discriminate|].
      destruct (JS.le _ _ || _ || _); [discriminate|].
      intros Hm ->. apply ret_Normal_inv in Hm as [<- _]. now rewrite Ev1.
Qed.

(** 500 cm3 at 3000 rpm and 90 %: both copies find 0.225 kg/s. *)
Lemma copies_agree_on_state_points_witness :
  JsApp.h2a jsDisplacementCalc = h2a defaultStatePoints /\
  JsApp.massFlow_kg_s jsDisplacementCalc = massFlow_kg_s displacementFlow.
Proof.
  assert (evaluate toFixed_ecma tableOracle steam
            (withModes pt pressure displacement defaultForm) clearedWorld
          = (Normal (defaultInputs, defaultStatePoints, displacementFlow),
             snd (evaluate toFixed_ecma tableOracle steam
                    (withModes pt pressure displacement defaultForm) clearedWorld))) as E
    by (vm_compute; reflexivity).
  assert (JsApp.evaluate tableOracle (withModes pt pressure displacement defaultForm)
            clearedWorld
          = (Normal jsDisplacementCalc,
             snd (JsApp.evaluate tableOracle (withModes pt pressure displacement defaultForm)
                    clearedWorld))) as J
    by (vm_compute; reflexivity).
  destruct (copies_agree_on_state_points toFixed_ecma tableOracle steam
              (withModes pt pressure displacement defaultForm) _ _ _ _
              defaultInputs defaultStatePoints displacementFlow jsDisplacementCalc
              eq_refl eq_refl E J) as (_ & _ & (H & _) & Hm).
  split; [exact H | apply Hm; discriminate].
Defined.

(** * The library handle over the events *)

Lemma initAppLogic_keeps_library loaded g w :
  is_Some (CP g) -> is_Some (CP (fst (initAppLogic loaded g w))).
Proof.
  intros HCP. unfold initAppLogic. destruct loaded as [cp|message]; [|exact HCP].
  destruct (get_global_param_string cp "version"); cbn; eauto.
Qed.

(** X22. No listener unsets the library: once the handle is stored it
    is there on every page the events lead to (a later failure of
    [initAppLogic] included), so from then on no click on the button is
    refused as not ready. *)
Theorem events_never_unset_library (toFixed : float -> nat -> string) (m : Markup)
    (p p' : Page) :
  rtc (step toFixed m) p p' ->
  is_Some (CP (globals p)) ->
  is_Some (CP (globals p')) /\
  forall form w,
    textContent (statusBar (handleCalculation toFixed (globals p') form w))
    <> notReadyMessage.
Proof.
  intros Hsteps HCP.
  assert (is_Some (CP (globals p'))) as HCP'.
  { induction Hsteps as [p|p q r Hstep _ IH]; [exact HCP|]. apply IH.
    destruct Hstep; cbn [globals handleTabClick clearForm CP]; try exact HCP.
    now apply initAppLogic_keeps_library. }
  split; [exact HCP'|]. intros form w. destruct HCP' as [cp Hcp].
  destruct (handleCalculation_page toFixed _ cp form Hcp) as (r & qs & _ & Hpage).
  rewrite Hpage. destruct r as [[[i sp] fl]|message]; cbn.
  - discriminate.
  - apply error_is_not_notReady.
Qed.

(** A load that settles twice, the second time with a failure, and a
    click on the gas tab. *)
Lemma events_never_unset_library_witness :
  is_Some (CP (globals
    (handleTabClick pageMarkup gas
       (mkPage (fst (initAppLogic (Throw "Aborted") (readyGlobals orc) clearedWorld))
               (controls blankPage)
               (snd (initAppLogic (Throw "Aborted") (readyGlobals orc) clearedWorld)))))).
Proof.
  refine (proj1 (events_never_unset_library toFixed_ecma pageMarkup
                   (mkPage (readyGlobals orc) (controls blankPage) clearedWorld) _ _ _)).
  - eapply rtc_l; [apply (LoadSettled toFixed_ecma pageMarkup (Throw "Aborted"))|].
    apply rtc_once. apply TabClick.
  - cbn. eauto.
Defined.
